(** * RFM customer segmentation and database access of amazon_analytics

    A shallow embedding of [src/rfm_analysis.py] (the RFM segmentation
    procedure), of the RFM page [eda_q3] of [src/app_main.py] and of the
    [DatabaseManager] of [src/db_analytics.py], with the properties the
    specification states about them.

    Conventions of the embedding.
    - A timestamp is the integer number of nanoseconds since the epoch, as a
      pandas [Timestamp] stores it; [day] is one [Timedelta(days=1)].
    - Amounts are exact integers (the currency's minor unit): rounding of
      binary floating point is outside the model.
    - The input is the cleaned transaction table of the docstring: no cell
      of [customer_id], [transaction_id] or [final_amount_inr] is null.
    - A Python call returns a value or raises: [result], and a function that
      also assigns into an object of its caller returns the new object
      beside its result. *)

From Stdlib Require Import ZArith String Ascii List Bool Lia Arith.
From Stdlib Require Import Permutation Sorted Orders Mergesort DecimalString.
From Stdlib Require DecimalNat.
Import ListNotations.

Open Scope Z_scope.
Set Warnings "-abstract-large-number".

(** ** Python values and exceptions *)

Inductive exn : Type :=
| ValueError (msg : string)
| MySQLError (msg : string)      (* mysql.connector.Error and its subclasses *)
| OtherException (msg : string). (* any exception outside that hierarchy *)

Inductive result (A : Type) : Type :=
| Ok (a : A)
| Raise (e : exn).
Arguments Ok {A} a.
Arguments Raise {A} e.

Definition bind {A B : Type} (r : result A) (k : A -> result B) : result B :=
  match r with
  | Ok a => k a
  | Raise e => Raise e
  end.

Declare Scope py_scope.
Delimit Scope py_scope with py.
Notation "x <- r ;; k" := (bind r (fun x => k))
  (at level 100, r at next level, right associativity) : py_scope.

(** ** The pandas operations the procedure calls *)

Lemma Z_leb_total : forall a1 a2 : Z, (a1 <=? a2) = true \/ (a2 <=? a1) = true.
Proof.
  intros a1 a2. destruct (Z.leb_spec a1 a2); [left | right]; auto.
  apply Z.leb_le. lia.
Qed.

Module ZOrder <: TotalLeBool.
Definition t := Z.
Definition leb := Z.leb.
Definition leb_total := Z_leb_total.
End ZOrder.

Module ZSort := Sort ZOrder.

Module StringOrder <: TotalLeBool.
Definition t := string.
Definition leb := String.leb.
Definition leb_total := String.leb_total.
End StringOrder.

Module StringSort := Sort StringOrder.

Module Pandas.

(** [nth] on a Series position given as an integer. *)
Definition iloc (s : list Z) (i : Z) : Z := nth (Z.to_nat i) s 0.

(** [Series.max()]; on an empty Series pandas gives NaT/NaN, for which 0
    stands (no caller below uses the value of an empty Series). *)
Definition series_max (s : list Z) : Z := fold_right Z.max (hd 0 s) s.

Definition series_sum (s : list Z) : Z := fold_right Z.add 0 s.

(** [algos.unique]: the distinct values in order of first appearance. *)
Fixpoint unique (l : list Z) : list Z :=
  match l with
  | [] => []
  | x :: r => x :: filter (fun y => negb (y =? x)) (unique r)
  end.

(** [Series.quantile(k/q)] with linear interpolation, times [q]: for the
    sorted values [s] of length [n] the virtual position is [(n-1)*k/q];
    its integer part [lo] and its remainder [g/q] interpolate between
    [s[lo]] and [s[lo+1]]. The edge itself is the rational
    [quantile_scaled q s k / q]; the scaled form is an integer and exact. *)
Definition quantile_scaled (q : Z) (s : list Z) (k : Z) : Z :=
  let n := Z.of_nat (length s) in
  let pos := (n - 1) * k in
  let lo := pos / q in
  let g := pos mod q in
  let hi := Z.min (lo + 1) (n - 1) in
  q * iloc s lo + (iloc s hi - iloc s lo) * g.

(** The [q+1] bin edges [quantile(linspace(0, 1, q+1))] of [qcut], each
    times [q]. The quantiles of an empty Series are all NaN, which
    [unique] collapses; the empty list stands for that. *)
Definition quantile_edges (x : list Z) (q : nat) : list Z :=
  match x with
  | [] => []
  | _ => let s := ZSort.sort x in
         map (fun k => quantile_scaled (Z.of_nat q) s (Z.of_nat k)) (seq 0 (S q))
  end.

(** [ndarray.searchsorted(v, side='left')] on ascending [bins]: the
    position of the first bin that is not below [v]. *)
Fixpoint searchsorted_left (bins : list Z) (v : Z) : nat :=
  match bins with
  | [] => O
  | b :: r => if b <? v then S (searchsorted_left r v) else O
  end.

Fixpoint distinct (l : list Z) : bool :=
  match l with
  | [] => true
  | x :: r => negb (existsb (Z.eqb x) r) && distinct r
  end.

(** [_bins_to_cuts(..., include_lowest=True, duplicates='drop')]: the bin
    number of one value, in [1 .. len(bins)-1], or [None] for NaN when the
    value falls outside the edges. Values are compared with the edges in
    the scaled form. *)
Definition bin_of (q : nat) (bins : list Z) (v : Z) : option nat :=
  let sv := Z.of_nat q * v in
  let id0 := searchsorted_left bins sv in
  let id := if sv =? hd 0 bins then 1%nat else id0 in
  if (id =? length bins)%nat || (id =? 0)%nat then None else Some id.

(** The label of the bin of one value ([take_nd(labels, ids - 1)]), NaN
    for a value in no bin. *)
Definition cell_of (q : nat) (bins labels : list Z) (v : Z) : option Z :=
  match bin_of q bins v with
  | Some id => nth_error labels (id - 1)
  | None => None
  end.

(** [duplicates='drop']: repeated edges are dropped, unless there are
    exactly two edges. *)
Definition drop_duplicates (edges : list Z) : list Z :=
  let uniq := unique edges in
  if (length uniq <? length edges)%nat && negb (length edges =? 2)%nat
  then uniq else edges.

(** [pd.qcut(x, q, labels=labels, duplicates='drop')]: the label of each
    value's bin; a cell is [None] for NaN. *)
Definition qcut (x : list Z) (q : nat) (labels : list Z) : result (list (option Z)) :=
  let bins := drop_duplicates (quantile_edges x q) in
  if negb (distinct labels) then
    Raise (ValueError "labels must be unique if ordered=True; pass ordered=False for duplicate labels")
  else if negb (length labels =? length bins - 1)%nat then
    Raise (ValueError "Bin labels must be one fewer than the number of bin edges")
  else Ok (map (cell_of q bins labels) x).

Definition count_lt (l : list Z) (v : Z) : Z :=
  Z.of_nat (length (filter (fun y => y <? v) l)).

Definition count_eq (l : list Z) (v : Z) : Z :=
  Z.of_nat (length (filter (fun y => y =? v) l)).

(** [Series.rank(method='first')]: ascending ranks [1..n], equal values
    ranked in the order they appear. [before] holds the values of the
    rows above the current one. *)
Fixpoint rank_first_from (all before l : list Z) : list Z :=
  match l with
  | [] => []
  | x :: r => (1 + count_lt all x + count_eq before x) :: rank_first_from all (x :: before) r
  end.

Definition rank_first (x : list Z) : list Z := rank_first_from x [] x.

End Pandas.

(** ** The transaction table *)

(** A cell of the [order_date] column: text as read from a file, or a
    parsed timestamp (dtype [datetime64[ns]]). *)
Inductive date_cell : Type :=
| DateStr (s : string)
| Datetime (ns : Z).

Record transaction : Type := {
  customer_id : string;
  transaction_id : string;
  order_date : date_cell;
  final_amount_inr : Z;
  attributes : list string   (* category, payment method, rating, ... *)
}.

Definition DataFrame : Type := list transaction.

Definition day : Z := 86400000000000.

(** The value of a cell of a [datetime64] column. The procedure reads the
    column only after line 21 has made every cell a [Datetime]. *)
Definition datetime_ns (c : date_cell) : Z :=
  match c with
  | Datetime ns => ns
  | DateStr _ => 0
  end.

(** ** src/rfm_analysis.py *)

(** The table after [groupby('customer_id').agg(...).rename(...).reset_index()]. *)
Record metrics : Type := {
  m_customer_id : string;
  m_recency : Z;
  m_frequency : Z;
  m_monetary : Z
}.

(** A row of the returned [rfm] table. A score cell is [None] for NaN. *)
Record profile : Type := {
  p_customer_id : string;
  recency : Z;
  frequency : Z;
  monetary : Z;
  r_score : option Z;
  f_score : option Z;
  m_score : option Z;
  rfm_score : option Z;
  segment : string
}.

(** The returned dict: the [rfm] table and the integer [statistics]. The
    figure, the per-segment means of [segment_summary] and [avg_clv] are
    renderings and floating-point means of the [rfm] table. *)
Record rfm_output : Type := {
  rfm : list profile;
  total_customers : nat;
  champion_count : nat
}.

(** Lines 51-61. *)
Definition segment_customer (score : Z) : string :=
  if score >=? 10 then "Champions"
  else if score >=? 8 then "Loyal Customers"
  else if score >=? 6 then "Potential Loyalists"
  else if score >=? 4 then "At Risk"
  else "Lost".

(** [rfm['rfm_score'].apply(segment_customer)]: every comparison of NaN is
    false, so a NaN score takes the [else] branch. *)
Definition apply_segment_customer (score : option Z) : string :=
  match score with
  | Some s => segment_customer s
  | None => "Lost"
  end.

(** Addition of two numeric cells; NaN propagates. *)
Definition cell_add (a b : option Z) : option Z :=
  match a, b with
  | Some x, Some y => Some (x + y)
  | _, _ => None
  end.

(** The distinct group keys in ascending order ([sort=True]). *)
Definition group_keys (df : DataFrame) : list string :=
  StringSort.sort (nodup string_dec (map customer_id df)).

Definition group_rows (df : DataFrame) (k : string) : DataFrame :=
  filter (fun t => String.eqb (customer_id t) k) df.

(** Lines 27-35 for one customer. *)
Definition aggregate (reference_date : Z) (df : DataFrame) (k : string) : metrics :=
  let x := group_rows df k in
  {| m_customer_id := k;
     m_recency := (reference_date - Pandas.series_max (map (fun t => datetime_ns (order_date t)) x)) / day;
     m_frequency := Z.of_nat (length x);
     m_monetary := Pandas.series_sum (map final_amount_inr x) |}.

Definition groupby_agg (reference_date : Z) (df : DataFrame) : list metrics :=
  map (aggregate reference_date df) (group_keys df).

(** Assignment of the three score columns, the sum (line 48) and the
    segment (line 63), row by row. *)
Definition score_row (row : metrics) (r f m : option Z) : profile :=
  let total := cell_add (cell_add r f) m in
  {| p_customer_id := m_customer_id row;
     recency := m_recency row;
     frequency := m_frequency row;
     monetary := m_monetary row;
     r_score := r;
     f_score := f;
     m_score := m;
     rfm_score := total;
     segment := apply_segment_customer total |}.

Fixpoint score_rows (rows : list metrics) (r f m : list (option Z)) : list profile :=
  match rows, r, f, m with
  | row :: rows', a :: r', b :: f', c :: m' => score_row row a b c :: score_rows rows' r' f' m'
  | _, _, _, _ => []
  end.

(** [df['order_date'] = ...]: the column of the caller's table is replaced. *)
Fixpoint set_order_date (df : DataFrame) (dates : list Z) : DataFrame :=
  match df, dates with
  | t :: df', d :: dates' =>
      {| customer_id := customer_id t;
         transaction_id := transaction_id t;
         order_date := Datetime d;
         final_amount_inr := final_amount_inr t;
         attributes := attributes t |} :: set_order_date df' dates'
  | _, _ => df
  end.

Section RFM.

(** The date parser of pandas for the column at hand: the timestamp a
    text denotes, if any, under the format that [pd.to_datetime] settles
    for that column (pandas infers one format from the first text of the
    column and reads every text under it). A parser belongs to one column:
    the same texts in another order may be read under another format. *)
Variable parse_datetime : string -> option Z.

(** [pd.to_datetime] on a column: parsed cells are kept, text is parsed
    under the format of the column, text that is no date under it
    raises. *)
Fixpoint to_datetime (col : list date_cell) : result (list Z) :=
  match col with
  | [] => Ok []
  | Datetime ns :: r => (ds <- to_datetime r ;; Ok (ns :: ds))%py
  | DateStr s :: r =>
      match parse_datetime s with
      | Some ns => (ds <- to_datetime r ;; Ok (ns :: ds))%py
      | None => Raise (ValueError "Unknown datetime string format, unable to parse")
      end
  end.

(** Line 24, on the table whose column line 21 has converted. *)
Definition reference_date (df : DataFrame) : Z :=
  Pandas.series_max (map (fun t => datetime_ns (order_date t)) df) + day.

(** Lines 37-63 and the returned dict. *)
Definition score_and_segment (table : list metrics) : result rfm_output :=
  (r <- Pandas.qcut (map m_recency table) 4 [4; 3; 2; 1] ;;
   f <- Pandas.qcut (Pandas.rank_first (map m_frequency table)) 4 [1; 2; 3; 4] ;;
   m <- Pandas.qcut (map m_monetary table) 4 [1; 2; 3; 4] ;;
   let out := score_rows table r f m in
   Ok {| rfm := out;
         total_customers := length out;
         champion_count := length (filter (fun p => String.eqb (segment p) "Champions") out) |})%py.

(** [rfm_segmentation_analysis(df)]: the caller's table after the call,
    and the value returned or the exception raised. *)
Definition rfm_segmentation_analysis (df : DataFrame) : DataFrame * result rfm_output :=
  match to_datetime (map order_date df) with
  | Raise e => (df, Raise e)
  | Ok dates =>
      let df := set_order_date df dates in
      let table := groupby_agg (reference_date df) df in
      (df, score_and_segment table)
  end.

End RFM.

(** ** src/app_main.py: the RFM page [eda_q3] *)

Module EdaQ3.

(** A row of [rfm_df]. *)
Record row : Type := {
  Customer_ID : string;
  Recency : Z;
  Frequency : Z;
  Monetary : Z;
  R_Score : Z;
  F_Score : Z;
  M_Score : Z;
  RFM_Score : Z;
  Segment : string
}.

(** What the page shows: the table and the per-segment counts of
    [segment_stats]; the metrics, charts and formatted means are
    renderings of the table. *)
Record page : Type := {
  rfm_df : list row;
  segment_stats : list (string * nat)
}.

(** Lines 407-417. *)
Definition segment_customer (r f m : Z) : string :=
  if (r >=? 4) && (f >=? 4) && (m >=? 4) then "VIP (Champions)"
  else if (r >=? 3) && (f >=? 3) && (m >=? 3) then "Loyal (Loyal Customers)"
  else if (r >=? 2) && (f >=? 2) && (m >=? 2) then "Potential (Potential)"
  else if (r >=? 2) && ((f >=? 2) || (m >=? 2)) then "At-Risk (At Risk)"
  else "Lost (Lost Customers)".

(** [np.clip(a, lo, hi)] on one entry. *)
Definition clip (lo hi v : Z) : Z := Z.min (Z.max v lo) hi.

(** [.astype(int)] on the categorical column of [qcut]: NaN cannot be
    converted. *)
Fixpoint astype_int (cells : list (option Z)) : result (list Z) :=
  match cells with
  | [] => Ok []
  | Some v :: r => (vs <- astype_int r ;; Ok (v :: vs))%py
  | None :: _ => Raise (ValueError "Cannot convert float NaN to integer")
  end.

(** [f'CUST_{i:05d}']. *)
Definition customer_name (i : nat) : string :=
  let d := NilEmpty.string_of_uint (Nat.to_uint i) in
  String.append "CUST_"
    (String.append (String.concat "" (repeat "0"%string (5 - String.length d))) d).

Fixpoint build_rows (ids : list string) (rec freq mon r f m : list Z) : list row :=
  match ids, rec, freq, mon, r, f, m with
  | i :: ids', a :: rec', b :: freq', c :: mon', x :: r', y :: f', z :: m' =>
      {| Customer_ID := i; Recency := a; Frequency := b; Monetary := c;
         R_Score := x; F_Score := y; M_Score := z; RFM_Score := x + y + z;
         Segment := segment_customer x y z |}
      :: build_rows ids' rec' freq' mon' r' f' m'
  | _, _, _, _, _, _, _ => []
  end.

(** [groupby('Segment')['Customer_ID'].count()]. *)
Definition count_by_segment (t : list row) : list (string * nat) :=
  map (fun s => (s, length (filter (fun p => String.eqb (Segment p) s) t)))
      (StringSort.sort (nodup string_dec (map Segment t))).

Section Page.

(** The global generator of [np.random]: its state, seeding, and the
    two draws of the page, each already truncated by [.astype(int)].
    [lognormal_int] takes its mean and sigma in tenths. *)
Variable generator : Type.
Variable seed : Z -> generator.
Variable exponential_int : Z -> nat -> generator -> list Z * generator.
Variable lognormal_int : Z -> Z -> nat -> generator -> list Z * generator.

(** What the process holds when a page is drawn: the loaded transaction
    table of the session and the generator. *)
Record app_state : Type := {
  session_df : DataFrame;
  np_random : generator
}.

Definition n_customers : nat := 45000.

(** [eda_q3()]: the state after the call and the page or the exception.
    The five-bin cuts use the exact levels 0, 1/5, ..., 1. *)
Definition eda_q3 (st : app_state) : app_state * result page :=
  let g := seed 42 in
  let '(recency, g) := exponential_int 80 n_customers g in
  let recency := map (clip 0 365) recency in
  let '(frequency, g) := exponential_int 8 n_customers g in
  let frequency := map (clip 1 100) frequency in
  let '(monetary, g) := lognormal_int 95 15 n_customers g in
  let monetary := map (clip 1000 200000) monetary in
  let ids := map customer_name (seq 0 n_customers) in
  ({| session_df := session_df st; np_random := g |},
   (rc <- Pandas.qcut recency 5 [5; 4; 3; 2; 1] ;;
    r <- astype_int rc ;;
    fc <- Pandas.qcut (Pandas.rank_first frequency) 5 [1; 2; 3; 4; 5] ;;
    f <- astype_int fc ;;
    mc <- Pandas.qcut (Pandas.rank_first monetary) 5 [1; 2; 3; 4; 5] ;;
    m <- astype_int mc ;;
    let t := build_rows ids recency frequency monetary r f m in
    Ok {| rfm_df := t; segment_stats := count_by_segment t |})%py).

End Page.

End EdaQ3.

(** ** src/db_analytics.py: [DatabaseManager] *)

Module Database.

(** The values the operations return. *)
Inductive pyval : Type :=
| PyNone
| PyInt (n : Z)
| PyBool (b : bool)
| PyConnection (id : nat)
| PyFrame (rows : list (list string)).

(** What the pool, the connection and its cursor do when one operation
    calls them: each call returns or raises. [read_sql] is
    [pd.read_sql(query, connection)], which runs the query on a cursor of
    its own: it raises an error of the query as
    [pandas.errors.DatabaseError], an [OtherException], and lets through
    only what the connection raises before the query runs. *)
Record driver : Type := {
  pool_get_connection : result nat;
  read_sql : string -> result (list (list string));
  cursor : result unit;
  cursor_execute : string -> result unit;
  cursor_callproc : string -> result unit;
  commit : result unit;
  rowcount : Z;
  cursor_close : result unit;
  rollback : result unit;
  is_connected : bool;
  close : result unit
}.

(** A computation that appends to the log of [logger] and returns or
    raises. *)
Definition M (A : Type) : Type := list string -> list string * result A.

Definition ret {A : Type} (a : A) : M A := fun log => (log, Ok a).

Definition call {A : Type} (r : result A) : M A := fun log => (log, r).

Definition mbind {A B : Type} (m : M A) (k : A -> M B) : M B :=
  fun log =>
    match m log with
    | (log', Ok a) => k a log'
    | (log', Raise e) => (log', Raise e)
    end.

Definition logger_error (msg : string) : M unit :=
  fun log => (log ++ [msg], Ok tt).

(** [try: body / except Error as e: handler(e)]: only exceptions of the
    driver's [Error] hierarchy are caught. *)
Definition try_except_Error {A : Type} (body : M A) (handler : string -> M A) : M A :=
  fun log =>
    match body log with
    | (log', Raise (MySQLError msg)) => handler msg log'
    | other => other
    end.

(** [try: body / finally: fin]: [fin] always runs; an exception of [fin]
    replaces the outcome of [body]. *)
Definition try_finally {A : Type} (body : M A) (fin : M unit) : M A :=
  fun log =>
    let '(log', r) := body log in
    match fin log' with
    | (log'', Ok _) => (log'', r)
    | (log'', Raise e) => (log'', Raise e)
    end.

Declare Scope db_scope.
Delimit Scope db_scope with db.
Notation "x <- m ;; k" := (mbind m (fun x => k))
  (at level 100, m at next level, right associativity) : db_scope.
Notation "m ;;; k" := (mbind m (fun _ => k))
  (at level 100, right associativity) : db_scope.

(** Truth value of a returned object, for [if not connection]. *)
Definition truthy (v : pyval) : bool :=
  match v with
  | PyNone => false
  | PyInt n => negb (n =? 0)
  | PyBool b => b
  | PyConnection _ => true
  | PyFrame _ => true
  end.

Section Manager.

Variable d : driver.

(** Lines 48-54. *)
Definition get_connection : M pyval :=
  try_except_Error
    (c <- call (pool_get_connection d) ;; ret (PyConnection c))%db
    (fun e => logger_error (String.append "Error getting connection: " e) ;;;
              ret PyNone)%db.

(** The [finally] block of the three operations. *)
Definition release : M unit :=
  if is_connected d then call (close d) else ret tt.

(** Lines 56-79. *)
Definition execute_query (query : string) : M pyval :=
  (connection <- get_connection ;;
   if negb (truthy connection) then ret PyNone
   else
     try_finally
       (try_except_Error
          (df <- call (read_sql d query) ;; ret (PyFrame df))
          (fun e => logger_error (String.append "Error executing query: " e) ;;;
                    ret PyNone))
       release)%db.

(** Lines 81-109. *)
Definition execute_update (query : string) : M pyval :=
  (connection <- get_connection ;;
   if negb (truthy connection) then ret (PyInt 0)
   else
     try_finally
       (try_except_Error
          (call (cursor d) ;;;
           call (cursor_execute d query) ;;;
           call (commit d) ;;;
           let affected_rows := rowcount d in
           call (cursor_close d) ;;;
           ret (PyInt affected_rows))
          (fun e => call (rollback d) ;;;
                    logger_error (String.append "Error executing update: " e) ;;;
                    ret (PyInt 0)))
       release)%db.

(** Lines 111-138. *)
Definition execute_stored_procedure (proc_name : string) : M pyval :=
  (connection <- get_connection ;;
   if negb (truthy connection) then ret (PyBool false)
   else
     try_finally
       (try_except_Error
          (call (cursor d) ;;;
           call (cursor_callproc d proc_name) ;;;
           call (commit d) ;;;
           call (cursor_close d) ;;;
           ret (PyBool true))
          (fun e => call (rollback d) ;;;
                    logger_error
                      (String.append "Error executing procedure '"
                         (String.append proc_name (String.append "': " e))) ;;;
                    ret (PyBool false)))
       release)%db.

End Manager.

End Database.

(** ** The notions of the specification *)

Module Spec.

(** Four times the [k]-th quartile of [x] (linear interpolation between
    the two nearest order statistics). *)
Definition quartile (x : list Z) (k : Z) : Z :=
  Pandas.quantile_scaled 4 (ZSort.sort x) k.

(** The quartile rank of [v] in the population [x]: 1 for the lowest
    quarter, up to the first quartile included, and 4 for the highest. *)
Definition quartile_rank (x : list Z) (v : Z) : Z :=
  if 4 * v <=? quartile x 1 then 1
  else if 4 * v <=? quartile x 2 then 2
  else if 4 * v <=? quartile x 3 then 3
  else 4.

(** [r] ranks [x] ascending with ties in row order: the ranks are
    [1..n], and of two rows the upper one is ranked first unless its
    value is strictly larger. *)
Definition stable_ranking (x r : list Z) : Prop :=
  length r = length x /\
  (forall i, (i < length x)%nat -> 1 <= nth i r 0 <= Z.of_nat (length x)) /\
  (forall i j, (i < j < length x)%nat ->
     if nth i x 0 <=? nth j x 0 then nth i r 0 < nth j r 0
     else nth j r 0 < nth i r 0).

(** The timestamp [m] is the latest of [l]. *)
Definition latest (l : list Z) (m : Z) : Prop :=
  In m l /\ forall t, In t l -> t <= m.

(** The records of customer [c], as (timestamp, amount) pairs. [dates]
    holds the timestamps of the rows of [df]. *)
Fixpoint records_of (c : string) (df : DataFrame) (dates : list Z) : list (Z * Z) :=
  match df, dates with
  | t :: df', d :: dates' =>
      if string_dec (customer_id t) c
      then (d, final_amount_inr t) :: records_of c df' dates'
      else records_of c df' dates'
  | _, _ => []
  end.

Fixpoint total (amounts : list Z) : Z :=
  match amounts with
  | [] => 0
  | a :: r => a + total r
  end.

(** The five segment labels. *)
Definition segment_labels : list string :=
  ["Champions"; "Loyal Customers"; "Potential Loyalists"; "At Risk"; "Lost"]%string.

(** The cell holds a parsed timestamp. *)
Definition is_datetime (c : date_cell) : Prop :=
  match c with
  | Datetime _ => True
  | DateStr _ => False
  end.

(** The integers [lo, lo+1, ..., lo+n-1]. *)
Fixpoint iota (lo : Z) (n : nat) : list Z :=
  match n with
  | O => []
  | S n' => lo :: iota (lo + 1) n'
  end.

End Spec.

(** ** Further code of the cited files and of their callers *)

(** The order of two score cells: both are numbers and the first is not
    above the second. *)
Definition cell_le (a b : option Z) : Prop :=
  match a, b with
  | Some x, Some y => x <= y
  | _, _ => False
  end.

(** The five quartile cut points of the non-empty column [col] ascend
    strictly: no two of them coincide. *)
Definition strict_quartiles (col : list Z) : Prop :=
  col <> [] /\
  Spec.quartile col 0 < Spec.quartile col 1 /\
  Spec.quartile col 1 < Spec.quartile col 2 /\
  Spec.quartile col 2 < Spec.quartile col 3 /\
  Spec.quartile col 3 < Spec.quartile col 4.

(** The timestamp a cell of [order_date] denotes under the parser, and
    whether it denotes one. *)
Definition stamp (parse : string -> option Z) (c : date_cell) : Z :=
  match c with
  | Datetime ns => ns
  | DateStr s => match parse s with Some ns => ns | None => 0 end
  end.

Definition parses (parse : string -> option Z) (c : date_cell) : Prop :=
  match c with
  | Datetime _ => True
  | DateStr s => parse s <> None
  end.

(** A record with its date parsed. *)
Definition parsed_row (parse : string -> option Z) (t : transaction) : transaction :=
  {| customer_id := customer_id t;
     transaction_id := transaction_id t;
     order_date := Datetime (stamp parse (order_date t));
     final_amount_inr := final_amount_inr t;
     attributes := attributes t |}.

Module Rfm.

(** Line 72 of src/rfm_analysis.py. *)
Definition segment_order : list string :=
  ["Champions"; "Loyal Customers"; "Potential Loyalists"; "At Risk"; "Lost"]%string.

Definition count_segment (table : list profile) (s : string) : nat :=
  length (filter (fun p => String.eqb (segment p) s) table).

(** Lines 70-73, [rfm['segment'].value_counts().reindex(segment_order)]:
    the number of profiles of each label of [segment_order], NaN ([None])
    for a label that no profile carries. *)
Definition segment_counts (table : list profile) : list (string * option nat) :=
  map (fun s => let n := count_segment table s in
                (s, if (n =? 0)%nat then None else Some n)) segment_order.

(** A row of [segment_summary] (lines 120-124), one per segment present,
    in ascending order of the label: the label and the two exact columns
    of the frame, [('monetary', 'sum')] and [('monetary', 'count')]. The
    three means are floating-point quotients rounded to two decimals and
    are not part of the row. *)
Record summary_row : Type := {
  s_segment : string;
  s_monetary_sum : Z;
  s_monetary_count : nat
}.

Definition segment_summary (table : list profile) : list summary_row :=
  map (fun s =>
         let g := filter (fun p => String.eqb (segment p) s) table in
         {| s_segment := s;
            s_monetary_sum := Pandas.series_sum (map monetary g);
            s_monetary_count := length g |})
      (StringSort.sort (nodup string_dec (map segment table))).

End Rfm.

(** *** src/customers.py: the RFM tab of [show_customer_dashboard] *)

Module Customers.

(** The four counters of the tab (lines 40, 48, 57 and 66). *)
Record rfm_metrics : Type := {
  total_customers : nat;
  champions : nat;
  loyal : nat;
  atrisk : nat
}.

(** Lines 28-66: the tab calls the analysis on the table it was given and
    counts three of the segments of the returned [rfm] table; an exception
    of the analysis leaves the function. *)
Definition rfm_tab parse (df : DataFrame) : DataFrame * result rfm_metrics :=
  let '(df, res) := rfm_segmentation_analysis parse df in
  (df,
   (rfm_analysis <- res ;;
    let rfm_result := rfm rfm_analysis in
    Ok {| total_customers := length rfm_result;
          champions := Rfm.count_segment rfm_result "Champions";
          loyal := Rfm.count_segment rfm_result "Loyal Customers";
          atrisk := Rfm.count_segment rfm_result "At Risk" |})%py).

End Customers.

(** *** src/db_analytics.py: construction of the manager *)

Module Manager.
Import Database.

(** [DatabaseManager] after [__init__]: the configuration, the size of
    the pool and the pool, whose behaviour is a [driver]. *)
Record manager : Type := {
  config : list (string * string);
  pool_size : nat;
  connection_pool : option driver
}.





(** [self.execute_query(query)] on the object: the calls go to its pool;
    without a pool [self.connection_pool.get_connection()] raises an
    AttributeError, which [except Error] does not catch. *)
Definition execute_query (self : manager) (query : string) : M pyval :=
  match connection_pool self with
  | Some pool => Database.execute_query pool query
  | None => call (Raise (OtherException "'NoneType' object has no attribute 'get_connection'"))
  end.


End Manager.

(** *** src/app_main.py: [get_db_connector] *)

Module App.
Import Database.





End App.

(** *** Reading a customer identifier of the page back *)

(** The number printed in an identifier [CUST_ddddd]: the digits after the
    first five characters, read as a decimal number. *)
Definition customer_number (id : string) : option nat :=
  option_map Nat.of_uint
    (NilEmpty.uint_of_string (substring 5 (String.length id - 5) id)).

(** [k] zeros written before the digits [d]. *)
Fixpoint leading_zeros (k : nat) (d : Decimal.uint) : Decimal.uint :=
  match k with
  | O => d
  | S k' => Decimal.D0 (leading_zeros k' d)
  end.

(** ** Equal parts of a population, by counting *)

Module Population.






End Population.

(** ** src/app_main.py: the table of the RFM page for given columns *)

Module Page.
Import EdaQ3.

(** Lines 391-419 of [eda_q3] on the columns it has drawn: the
    [pd.DataFrame] of the four columns, which must be of one length, the
    three scores, their sum and the segment. *)
Definition rfm_table (ids : list string) (recency frequency monetary : list Z)
  : result (list row) :=
  if negb ((length recency =? length ids)%nat && (length frequency =? length ids)%nat
           && (length monetary =? length ids)%nat)
  then Raise (ValueError "All arrays must be of the same length")
  else
    (rc <- Pandas.qcut recency 5 [5; 4; 3; 2; 1] ;;
     r <- astype_int rc ;;
     fc <- Pandas.qcut (Pandas.rank_first frequency) 5 [1; 2; 3; 4; 5] ;;
     f <- astype_int fc ;;
     mc <- Pandas.qcut (Pandas.rank_first monetary) 5 [1; 2; 3; 4; 5] ;;
     m <- astype_int mc ;;
     Ok (build_rows ids recency frequency monetary r f m))%py.

End Page.

(** ** A concrete parser and sample tables *)

Module Sample.

Definition digit (c : ascii) : option Z :=
  let n := Z.of_nat (nat_of_ascii c) in
  if (48 <=? n) && (n <=? 57) then Some (n - 48) else None.

Fixpoint digits (acc : Z) (s : string) : option Z :=
  match s with
  | EmptyString => Some acc
  | String c r => match digit c with
                  | Some d => digits (10 * acc + d) r
                  | None => None
                  end
  end.

(** Days from 1970-01-01 to the proleptic Gregorian date [y-m-d]. *)
Definition days_from_civil (y m d : Z) : Z :=
  let y' := if m <=? 2 then y - 1 else y in
  let era := y' / 400 in
  let yoe := y' - era * 400 in
  let mp := (m + 9) mod 12 in
  let doy := (153 * mp + 2) / 5 + d - 1 in
  let doe := yoe * 365 + yoe / 4 - yoe / 100 + doy in
  era * 146097 + doe - 719468.

(** Dates written [YYYY-MM-DD], the form of the cleaned data file. *)
Definition iso_date (s : string) : option Z :=
  match digits 0 (substring 0 4 s), digits 0 (substring 5 2 s), digits 0 (substring 8 2 s) with
  | Some y, Some m, Some d =>
      if (String.length s =? 10)%nat && String.eqb (substring 4 1 s) "-"
         && String.eqb (substring 7 1 s) "-"
         && (1 <=? m) && (m <=? 12) && (1 <=? d) && (d <=? 31)
      then Some (days_from_civil y m d * day) else None
  | _, _, _ => None
  end.

Definition tx (c t d : string) (amount : Z) : transaction :=
  {| customer_id := c; transaction_id := t; order_date := DateStr d;
     final_amount_inr := amount; attributes := ["Electronics"%string; "UPI"%string] |}.

(** Five customers, seven transactions, dates still text. *)
Definition orders : DataFrame :=
  [ tx "C3" "T1" "2024-01-05" 700;
    tx "C1" "T2" "2024-03-01" 100;
    tx "C2" "T3" "2024-02-10" 2500;
    tx "C1" "T4" "2024-03-09" 400;
    tx "C5" "T5" "2023-11-20" 50;
    tx "C4" "T6" "2024-03-10" 1200;
    tx "C2" "T7" "2024-02-28" 300 ].

(** Four customers who all bought on the same day. *)
Definition same_day : DataFrame :=
  [ tx "C1" "T1" "2024-03-10" 100;
    tx "C2" "T2" "2024-03-10" 200;
    tx "C3" "T3" "2024-03-10" 300;
    tx "C4" "T4" "2024-03-10" 400 ].

End Sample.


Module Runs.

Definition no_output : rfm_output :=
  {| rfm := []; total_customers := 0; champion_count := 0 |}.

(** The table of [Sample.orders] after a call, and what the call returns. *)
Definition orders_after : DataFrame :=
  Eval vm_compute in fst (rfm_segmentation_analysis Sample.iso_date Sample.orders).

Definition orders_output : rfm_output :=
  Eval vm_compute in
    match snd (rfm_segmentation_analysis Sample.iso_date Sample.orders) with
    | Ok out => out
    | Raise _ => no_output
    end.

(** The profile of customer C2 in that output. *)
Definition profile_C2 : profile :=
  {| p_customer_id := "C2"; recency := 12; frequency := 2; monetary := 2800;
     r_score := Some 3; f_score := Some 4; m_score := Some 4;
     rfm_score := Some 11; segment := "Champions" |}.

(** The parsed [order_date] column of [Sample.orders]. *)
Definition orders_dates : list Z :=
  Eval vm_compute in map (fun t => datetime_ns (order_date t)) orders_after.

End Runs.

Module Drivers.
Import Database.

(** A driver whose calls all succeed. *)
Definition up : driver :=
  {| pool_get_connection := Ok 1%nat;
     read_sql := fun _ => Ok [["2015"; "1200"]%string];
     cursor := Ok tt;
     cursor_execute := fun _ => Ok tt;
     cursor_callproc := fun _ => Ok tt;
     commit := Ok tt;
     rowcount := 3;
     cursor_close := Ok tt;
     rollback := Ok tt;
     is_connected := true;
     close := Ok tt |}.

(** The pool has no connection to give. *)
Definition pool_down : driver :=
  {| pool_get_connection := Raise (MySQLError "Failed getting connection; pool exhausted");
     read_sql := read_sql up;
     cursor := Ok tt;
     cursor_execute := fun _ => Ok tt;
     cursor_callproc := fun _ => Ok tt;
     commit := Ok tt;
     rowcount := 0;
     cursor_close := Ok tt;
     rollback := Ok tt;
     is_connected := false;
     close := Ok tt |}.

(** The connection is there, the statement is refused. The cursor raises
    the driver's [Error]; [pd.read_sql] runs the query on its own cursor
    and raises what it has caught as [pandas.errors.DatabaseError], which
    is outside the driver's hierarchy. *)
Definition statement_refused : driver :=
  {| pool_get_connection := Ok 1%nat;
     read_sql := fun query =>
       Raise (OtherException
                (String.append "Execution failed on sql '"
                   (String.append query "': 1146 (42S02): Table does not exist")));
     cursor := Ok tt;
     cursor_execute := fun _ => Raise (MySQLError "1146 (42S02): Table does not exist");
     cursor_callproc := fun _ => Raise (MySQLError "1305 (42000): PROCEDURE does not exist");
     commit := Ok tt;
     rowcount := 0;
     cursor_close := Ok tt;
     rollback := Ok tt;
     is_connected := true;
     close := Ok tt |}.

End Drivers.

Module Sample2.

(** One customer with two purchases. *)
Definition one_customer : DataFrame :=
  [ Sample.tx "C1" "T1" "2024-02-29" 100;
    Sample.tx "C1" "T2" "2024-03-10" 250 ].

(** Four customers with distinct recencies and distinct totals. *)
Definition four_customers : DataFrame :=
  [ Sample.tx "C2" "T1" "2024-03-01" 900;
    Sample.tx "C4" "T2" "2024-01-15" 120;
    Sample.tx "C1" "T3" "2024-03-10" 300;
    Sample.tx "C3" "T4" "2023-12-24" 4000;
    Sample.tx "C1" "T5" "2024-02-02" 150 ].

End Sample2.

Module Runs2.

(** The parsed [order_date] column of [Sample2.four_customers]. *)
Definition four_dates : list Z :=
  Eval vm_compute in
    map (fun t => datetime_ns (order_date t))
        (fst (rfm_segmentation_analysis Sample.iso_date Sample2.four_customers)).

End Runs2.

Module Drivers2.
Import Database.

(** Every call succeeds, except that closing the connection fails. *)
Definition close_fails : driver :=
  {| pool_get_connection := Ok 1%nat;
     read_sql := fun _ => Ok [["2015"; "1200"]%string];
     cursor := Ok tt;
     cursor_execute := fun _ => Ok tt;
     cursor_callproc := fun _ => Ok tt;
     commit := Ok tt;
     rowcount := 3;
     cursor_close := Ok tt;
     rollback := Ok tt;
     is_connected := true;
     close := Raise (MySQLError "2055: Lost connection to MySQL server") |}.

(** The statement is refused and the rollback fails as well. *)
Definition rollback_fails : driver :=
  {| pool_get_connection := Ok 1%nat;
     read_sql := fun _ => Ok [];
     cursor := Ok tt;
     cursor_execute := fun _ => Raise (MySQLError "2013: Lost connection during query");
     cursor_callproc := fun _ => Raise (MySQLError "2013: Lost connection during query");
     commit := Ok tt;
     rowcount := 0;
     cursor_close := Ok tt;
     rollback := Raise (MySQLError "MySQL Connection not available");
     is_connected := false;
     close := Ok tt |}.

End Drivers2.

Module Sample3.

(** Ten customers of the RFM page, with columns as the clipping of
    lines 381-389 leaves them: six of them at the floor of 1000. *)
Definition ids : list string := map EdaQ3.customer_name (seq 0 10).

Definition recency : list Z := [3; 41; 12; 365; 77; 150; 0; 230; 98; 19].

Definition frequency : list Z := [12; 1; 7; 1; 3; 25; 9; 2; 5; 1].

Definition monetary : list Z :=
  [1000; 1000; 1000; 1000; 1000; 1000; 5000; 20000; 1000; 200000].

End Sample3.

Module Runs3.

(** The table of the page for the columns of [Sample3]. *)
Definition page_table : list EdaQ3.row :=
  Eval vm_compute in
    match Page.rfm_table Sample3.ids Sample3.recency Sample3.frequency Sample3.monetary with
    | Ok t => t
    | Raise _ => []
    end.

(** The row of customer CUST_00006 in that table. *)
Definition row_CUST_00006 : EdaQ3.row :=
  {| EdaQ3.Customer_ID := "CUST_00006"; EdaQ3.Recency := 0; EdaQ3.Frequency := 9;
     EdaQ3.Monetary := 5000; EdaQ3.R_Score := 5; EdaQ3.F_Score := 4; EdaQ3.M_Score := 4;
     EdaQ3.RFM_Score := 13; EdaQ3.Segment := "VIP (Champions)" |}.

End Runs3.

Example qcut_8 :
  Pandas.qcut [10; 20; 30; 40; 50; 60; 70; 80] 4 [1; 2; 3; 4]
  = Ok [Some 1; Some 1; Some 2; Some 2; Some 3; Some 3; Some 4; Some 4].
Proof. reflexivity. Qed.

Example qcut_5 :
  Pandas.qcut [5; 1; 3; 2; 4] 4 [4; 3; 2; 1]
  = Ok [Some 1; Some 4; Some 3; Some 4; Some 2].
Proof. reflexivity. Qed.

Example qcut_ties :
  Pandas.qcut [1; 1; 1; 1; 7] 4 [1; 2; 3; 4]
  = Raise (ValueError "Bin labels must be one fewer than the number of bin edges").
Proof. reflexivity. Qed.

Example rank_first_ties :
  Pandas.rank_first [3; 1; 3; 1; 2] = [4; 1; 5; 2; 3].
Proof. reflexivity. Qed.

Example iso_date_epoch : Sample.iso_date "1970-01-02" = Some day.
Proof. reflexivity. Qed.

Example iso_date_2024 : Sample.iso_date "2024-03-10" = Some (19792 * day).
Proof. reflexivity. Qed.

Example iso_date_bad : Sample.iso_date "10/03/2024" = None.
Proof. reflexivity. Qed.

(** ** Facts about the pandas operations *)

Module PandasFacts.
Import Pandas.

Lemma sort_sorted (x : list Z) : StronglySorted Z.le (ZSort.sort x).
Proof.
  assert (H : StronglySorted (fun a b => is_true (a <=? b)) (ZSort.sort x)).
  { apply ZSort.StronglySorted_sort. intros a b c Hab Hbc.
    unfold is_true in *. rewrite Z.leb_le in *. lia. }
  induction H as [| a l Hl IH Ha]; constructor; auto.
  eapply Forall_impl; [| exact Ha]. intros b Hb. now apply Z.leb_le.
Qed.

Lemma sort_length (x : list Z) : length (ZSort.sort x) = length x.
Proof. symmetry. apply Permutation_length, ZSort.Permuted_sort. Qed.

Lemma sort_In (x : list Z) (v : Z) : In v (ZSort.sort x) <-> In v x.
Proof.
  split; intro H.
  - eapply Permutation_in; [symmetry; apply ZSort.Permuted_sort | exact H].
  - eapply Permutation_in; [apply ZSort.Permuted_sort | exact H].
Qed.

Lemma sorted_nth_mono (s : list Z) :
  StronglySorted Z.le s ->
  forall i j, (i <= j < length s)%nat -> nth i s 0 <= nth j s 0.
Proof.
  induction 1 as [| a l Hl IH Ha]; intros i j Hij; simpl in *; [lia |].
  destruct i as [| i], j as [| j]; try lia.
  - rewrite Forall_forall in Ha. apply Ha, nth_In. lia.
  - apply IH. lia.
Qed.

Lemma sorted_iloc_mono (s : list Z) (i j : Z) :
  StronglySorted Z.le s ->
  0 <= i <= j -> j < Z.of_nat (length s) -> iloc s i <= iloc s j.
Proof.
  intros Hs Hij Hj. unfold iloc. apply sorted_nth_mono; auto. lia.
Qed.

Lemma sorted_bounds (s : list Z) (v : Z) :
  StronglySorted Z.le s -> In v s ->
  iloc s 0 <= v <= iloc s (Z.of_nat (length s) - 1).
Proof.
  intros Hs Hv. destruct (In_nth s v 0 Hv) as (i & Hi & <-).
  unfold iloc. split; apply sorted_nth_mono; auto; lia.
Qed.

Lemma quantile_scaled_first (q : Z) (s : list Z) :
  0 < q -> quantile_scaled q s 0 = q * iloc s 0.
Proof.
  intro Hq. unfold quantile_scaled. rewrite Z.mul_0_r.
  rewrite Z.div_0_l, Z.mod_0_l by lia. lia.
Qed.

Lemma quantile_scaled_last (q : Z) (s : list Z) :
  0 < q -> quantile_scaled q s q = q * iloc s (Z.of_nat (length s) - 1).
Proof.
  intro Hq. unfold quantile_scaled.
  rewrite Z.div_mul, Z_mod_mult by lia. lia.
Qed.

(** The quantile is monotone in its level. *)
Lemma quantile_scaled_mono (q : Z) (s : list Z) (k k' : Z) :
  StronglySorted Z.le s -> s <> [] -> 0 < q -> 0 <= k <= k' -> k' <= q ->
  quantile_scaled q s k <= quantile_scaled q s k'.
Proof.
  intros Hs Hne Hq Hk Hk'.
  assert (Hn : 1 <= Z.of_nat (length s)) by (destruct s; simpl in *; [congruence | lia]).
  unfold quantile_scaled.
  set (n := Z.of_nat (length s)) in *.
  set (pos := (n - 1) * k). set (pos' := (n - 1) * k').
  assert (Hpos : 0 <= pos <= pos') by (unfold pos, pos'; nia).
  assert (Hpos' : pos' <= (n - 1) * q) by (unfold pos'; nia).
  pose proof (Z.div_mod pos q ltac:(lia)) as E.
  pose proof (Z.div_mod pos' q ltac:(lia)) as E'.
  pose proof (Z.mod_pos_bound pos q Hq) as B.
  pose proof (Z.mod_pos_bound pos' q Hq) as B'.
  set (lo := pos / q) in *. set (g := pos mod q) in *.
  set (lo' := pos' / q) in *. set (g' := pos' mod q) in *.
  assert (Hlo0 : 0 <= lo) by (apply Z.div_pos; lia).
  assert (Hlolo : lo <= lo') by (apply Z.div_le_mono; lia).
  assert (Hlo'n : lo' <= n - 1).
  { unfold lo'. apply Z.div_le_upper_bound; nia. }
  assert (Hstep : forall i, 0 <= i <= n - 1 ->
                  iloc s i <= iloc s (Z.min (i + 1) (n - 1))).
  { intros i Hi. apply sorted_iloc_mono; auto; lia. }
  pose proof (Hstep lo ltac:(lia)) as S1.
  pose proof (Hstep lo' ltac:(lia)) as S2.
  destruct (Z.eq_dec lo lo') as [Heq | Hneq].
  - rewrite <- Heq in *. assert (g <= g') by nia. nia.
  - assert (Hhi : Z.min (lo + 1) (n - 1) = lo + 1) by lia.
    rewrite Hhi in *.
    assert (Hmid : iloc s (lo + 1) <= iloc s lo') by (apply sorted_iloc_mono; auto; lia).
    nia.
Qed.

Lemma unique_In (l : list Z) (v : Z) : In v (unique l) <-> In v l.
Proof.
  induction l as [| a l IH]; simpl; [tauto |].
  rewrite filter_In, IH, negb_true_iff, Z.eqb_neq.
  destruct (Z.eq_dec a v); intuition congruence.
Qed.

Lemma unique_hd (l : list Z) (d : Z) : hd d (unique l) = hd d l.
Proof. destruct l; reflexivity. Qed.

Lemma unique_length (l : list Z) : (length (unique l) <= length l)%nat.
Proof.
  induction l as [| a l IH]; simpl; [lia |].
  pose proof (filter_length_le (fun y => negb (y =? a)) (unique l)). lia.
Qed.

Lemma drop_duplicates_In (edges : list Z) (v : Z) :
  In v (drop_duplicates edges) <-> In v edges.
Proof.
  unfold drop_duplicates.
  destruct (_ && _); [apply unique_In | tauto].
Qed.

Lemma drop_duplicates_hd (edges : list Z) (d : Z) :
  hd d (drop_duplicates edges) = hd d edges.
Proof.
  unfold drop_duplicates.
  destruct (_ && _); [apply unique_hd | reflexivity].
Qed.

(** When no edge is dropped the bins are the edges. *)
Lemma drop_duplicates_same_length (edges : list Z) :
  length (drop_duplicates edges) = length edges -> drop_duplicates edges = edges.
Proof.
  unfold drop_duplicates.
  destruct ((length (unique edges) <? length edges)%nat) eqn:E; simpl; auto.
  destruct (negb _); auto.
  apply Nat.ltb_lt in E. lia.
Qed.

Lemma searchsorted_left_bound (bins : list Z) (v : Z) :
  (exists b, In b bins /\ v <= b) ->
  (searchsorted_left bins v < length bins)%nat.
Proof.
  induction bins as [| a bins IH]; intros (b & Hb & Hv); simpl in *; [tauto |].
  destruct (Z.ltb_spec a v); [| lia].
  destruct Hb as [-> | Hb]; [lia |].
  apply -> Nat.succ_lt_mono. apply IH. eauto.
Qed.

(** A value between the first edge and some edge falls in a bin. *)
Lemma bin_of_in_range (q : nat) (bins : list Z) (v : Z) :
  (2 <= length bins)%nat ->
  hd 0 bins <= Z.of_nat q * v ->
  (exists b, In b bins /\ Z.of_nat q * v <= b) ->
  exists id, bin_of q bins v = Some id /\ (1 <= id <= length bins - 1)%nat.
Proof.
  intros Hlen Hlo Hhi. unfold bin_of.
  set (sv := Z.of_nat q * v) in *.
  destruct (Z.eqb_spec sv (hd 0 bins)) as [E | E].
  - exists 1%nat.
    destruct (Nat.eqb_spec 1 (length bins)); [lia |]. simpl. split; [reflexivity | lia].
  - pose proof (searchsorted_left_bound bins sv Hhi) as Hb.
    destruct bins as [| b0 bins]; simpl in *; [lia |].
    destruct (Z.ltb_spec b0 sv); [| lia].
    exists (S (searchsorted_left bins sv)).
    destruct (Nat.eqb_spec (S (searchsorted_left bins sv)) (S (length bins))); [lia |].
    simpl. split; [reflexivity | lia].
Qed.

Lemma quantile_edges_length (x : list Z) (q : nat) :
  x <> [] -> length (quantile_edges x q) = S q.
Proof.
  destruct x; [congruence |]. intros _. unfold quantile_edges.
  now rewrite length_map, length_seq.
Qed.

Lemma quantile_edges_hd (x : list Z) (q : nat) :
  x <> [] -> (0 < q)%nat ->
  hd 0 (quantile_edges x q) = Z.of_nat q * iloc (ZSort.sort x) 0.
Proof.
  destruct x as [| a x]; [congruence |]. intros _ Hq.
  unfold quantile_edges. cbn [seq map hd].
  apply quantile_scaled_first. lia.
Qed.

Lemma quantile_edges_last (x : list Z) (q : nat) :
  x <> [] -> (0 < q)%nat ->
  In (Z.of_nat q * iloc (ZSort.sort x) (Z.of_nat (length x) - 1)) (quantile_edges x q).
Proof.
  destruct x as [| a x]; [congruence |]. intros _ Hq.
  unfold quantile_edges. apply in_map_iff. exists q. split.
  - rewrite quantile_scaled_last by lia. now rewrite sort_length.
  - apply in_seq. lia.
Qed.

(** Every value of the population lies between the first and the last
    edge. *)
Lemma value_within_edges (x : list Z) (q : nat) (v : Z) :
  (0 < q)%nat -> In v x ->
  hd 0 (quantile_edges x q) <= Z.of_nat q * v /\
  exists b, In b (quantile_edges x q) /\ Z.of_nat q * v <= b.
Proof.
  intros Hq Hv.
  assert (Hne : x <> []) by (intros ->; destruct Hv).
  pose proof (sorted_bounds (ZSort.sort x) v (sort_sorted x)
                (proj2 (sort_In x v) Hv)) as [Hlo Hhi].
  rewrite sort_length in Hhi.
  split.
  - rewrite quantile_edges_hd by auto. nia.
  - eexists. split; [apply quantile_edges_last; auto |]. nia.
Qed.


(** What a returning [qcut] has checked and computed. *)
Lemma qcut_inv (x : list Z) (q : nat) (labels : list Z) (cells : list (option Z)) :
  qcut x q labels = Ok cells ->
  length labels = (length (drop_duplicates (quantile_edges x q)) - 1)%nat /\
  cells = map (cell_of q (drop_duplicates (quantile_edges x q)) labels) x.
Proof.
  unfold qcut. destruct (negb (distinct labels)); [discriminate |].
  destruct (Nat.eqb_spec (length labels)
              (length (drop_duplicates (quantile_edges x q)) - 1)); simpl;
    [| discriminate].
  intro H. injection H as <-. split; auto.
Qed.

Lemma qcut_length (x : list Z) (q : nat) (labels : list Z) (cells : list (option Z)) :
  qcut x q labels = Ok cells -> length cells = length x.
Proof.
  intro H. apply qcut_inv in H as [_ ->]. apply length_map.
Qed.

(** A returning [qcut] leaves no cell NaN: every value gets a label. *)
Lemma qcut_labelled (x : list Z) (q : nat) (labels : list Z) (cells : list (option Z)) :
  qcut x q labels = Ok cells -> (0 < q)%nat -> labels <> [] ->
  Forall (fun c => exists l, c = Some l /\ In l labels) cells.
Proof.
  intros H Hq Hl. apply qcut_inv in H as [Hlen ->].
  assert (Hlab : (1 <= length labels)%nat) by (destruct labels; simpl; [congruence | lia]).
  apply Forall_forall. intros c Hc.
  apply in_map_iff in Hc as (v & <- & Hv).
  destruct (value_within_edges x q v Hq Hv) as [Hlo (b & Hb & Hhi)].
  destruct (bin_of_in_range q (drop_duplicates (quantile_edges x q)) v) as (id & E & Hid).
  - lia.
  - now rewrite drop_duplicates_hd.
  - exists b. split; auto. now apply drop_duplicates_In.
  - unfold cell_of. rewrite E.
    destruct (nth_error labels (id - 1)) as [l |] eqn:N.
    + exists l. split; auto. eapply nth_error_In; eauto.
    + apply nth_error_None in N. lia.
Qed.

(** With as many labels as quantiles, a returning [qcut] has dropped no
    edge, and the population is not empty. *)
Lemma qcut_full_bins (x : list Z) (q : nat) (labels : list Z) (cells : list (option Z)) :
  qcut x q labels = Ok cells -> length labels = q -> (0 < q)%nat ->
  x <> [] /\ drop_duplicates (quantile_edges x q) = quantile_edges x q.
Proof.
  intros H Hl Hq. apply qcut_inv in H as [Hlen _].
  assert (Hx : x <> []).
  { intros ->. simpl in Hlen. lia. }
  split; auto. apply drop_duplicates_same_length.
  pose proof (quantile_edges_length x q Hx) as E.
  unfold drop_duplicates in *.
  destruct (_ && _) eqn:C; auto.
  pose proof (unique_length (quantile_edges x q)). lia.
Qed.

Lemma quartiles_ordered (x : list Z) :
  x <> [] ->
  Spec.quartile x 0 <= Spec.quartile x 1 /\
  Spec.quartile x 1 <= Spec.quartile x 2 /\
  Spec.quartile x 2 <= Spec.quartile x 3 /\
  Spec.quartile x 3 <= Spec.quartile x 4.
Proof.
  intro Hx. unfold Spec.quartile.
  assert (Hs : ZSort.sort x <> []).
  { intro E. apply (f_equal (@length Z)) in E. rewrite sort_length in E.
    destruct x; simpl in E; [congruence | lia]. }
  repeat split; apply quantile_scaled_mono; auto using sort_sorted; lia.
Qed.

(** The four-bin cut is the quartile rank of the specification. *)
Lemma qcut4_rank (x : list Z) (a b c d : Z) (cells : list (option Z)) :
  qcut x 4 [a; b; c; d] = Ok cells ->
  cells = map (fun v => nth_error [a; b; c; d] (Z.to_nat (Spec.quartile_rank x v - 1))) x.
Proof.
  intro H.
  destruct (qcut_full_bins _ _ _ _ H eq_refl ltac:(lia)) as [Hx Hbins].
  apply qcut_inv in H as [_ ->]. rewrite Hbins.
  apply map_ext_in. intros v Hv.
  destruct (value_within_edges x 4 v ltac:(lia) Hv) as [Hlo (e & He & Hhi)].
  pose proof (quartiles_ordered x Hx) as (O1 & O2 & O3 & O4).
  assert (Hedges : quantile_edges x 4 =
            [Spec.quartile x 0; Spec.quartile x 1; Spec.quartile x 2;
             Spec.quartile x 3; Spec.quartile x 4]).
  { destruct x; [congruence | reflexivity]. }
  rewrite Hedges in *. cbn [hd] in Hlo.
  assert (Htop : Z.of_nat 4 * v <= Spec.quartile x 4).
  { simpl in He. lia. }
  change (Z.of_nat 4) with 4 in *.
  unfold cell_of, bin_of, Spec.quartile_rank. cbn [hd searchsorted_left length].
  change (Z.of_nat 4) with 4.
  clear Hedges Hbins He Hhi.
  set (sv := 4 * v) in *. clearbody sv.
  set (e0 := Spec.quartile x 0) in *. set (e1 := Spec.quartile x 1) in *.
  set (e2 := Spec.quartile x 2) in *. set (e3 := Spec.quartile x 3) in *.
  set (e4 := Spec.quartile x 4) in *. clearbody e0 e1 e2 e3 e4.
  destruct (Z.eqb_spec sv e0) as [E0 | E0].
  - destruct (Z.leb_spec sv e1); [reflexivity | lia].
  - destruct (Z.ltb_spec e0 sv); [| lia].
    destruct (Z.ltb_spec e1 sv); destruct (Z.leb_spec sv e1); try lia; [| reflexivity].
    destruct (Z.ltb_spec e2 sv); destruct (Z.leb_spec sv e2); try lia; [| reflexivity].
    destruct (Z.ltb_spec e3 sv); destruct (Z.leb_spec sv e3); try lia; [| reflexivity].
    destruct (Z.ltb_spec e4 sv); [lia | reflexivity].
Qed.



Lemma filter_same_length (f : Z -> bool) (l : list Z) :
  length (filter f l) = length l -> filter f l = l.
Proof.
  induction l as [| a l IH]; simpl; auto.
  pose proof (filter_length_le f l) as Hle.
  destruct (f a); simpl; intro H; [f_equal; apply IH; lia | lia].
Qed.

Lemma unique_same_length (l : list Z) :
  length (unique l) = length l -> unique l = l.
Proof.
  induction l as [| a l IH]; simpl; auto. intro H.
  pose proof (filter_length_le (fun y => negb (y =? a)) (unique l)) as Hle.
  pose proof (unique_length l) as Hu.
  rewrite filter_same_length by lia. f_equal. apply IH. lia.
Qed.

(** Whenever two quantile edges coincide, [qcut] with one label per
    quantile raises: the collapsed edges no longer match the labels. *)
Lemma qcut_collapsed_edges_raise (x : list Z) (q : nat) (labels : list Z) :
  x <> [] -> (2 <= q)%nat -> length labels = q -> distinct labels = true ->
  unique (quantile_edges x q) <> quantile_edges x q ->
  qcut x q labels
  = Raise (ValueError "Bin labels must be one fewer than the number of bin edges").
Proof.
  intros Hx Hq Hl Hd Hu. unfold qcut. rewrite Hd. simpl.
  pose proof (quantile_edges_length x q Hx) as E.
  pose proof (unique_length (quantile_edges x q)) as U.
  assert (Hlt : (length (unique (quantile_edges x q)) < length (quantile_edges x q))%nat).
  { destruct (Nat.eq_dec (length (unique (quantile_edges x q)))
                (length (quantile_edges x q))) as [C | C]; [| lia].
    apply unique_same_length in C. contradiction. }
  unfold drop_duplicates.
  apply Nat.ltb_lt in Hlt as Hb. rewrite Hb.
  destruct (Nat.eqb_spec (length (quantile_edges x q)) 2); [lia |]. simpl.
  destruct (Nat.eqb_spec (length labels) (length (unique (quantile_edges x q)) - 1));
    [lia | reflexivity].
Qed.



(** With distinct edges and one label per quantile [qcut] returns. *)
Lemma qcut_distinct_edges_return (x : list Z) (q : nat) (labels : list Z) :
  x <> [] -> length labels = q -> distinct labels = true ->
  unique (quantile_edges x q) = quantile_edges x q ->
  exists cells, qcut x q labels = Ok cells.
Proof.
  intros Hx Hl Hd Hu. unfold qcut. rewrite Hd. simpl.
  assert (Hb : drop_duplicates (quantile_edges x q) = quantile_edges x q).
  { unfold drop_duplicates. rewrite Hu. now destruct (_ && _). }
  rewrite Hb, (quantile_edges_length x q Hx). simpl.
  rewrite Nat.sub_0_r, Hl, Nat.eqb_refl. simpl. eauto.
Qed.

End PandasFacts.

(** ** [rank(method='first')] is the stable ranking *)

Module RankFacts.
Import Pandas.

Lemma count_eq_cons (a : Z) (l : list Z) (v : Z) :
  count_eq (a :: l) v = (if a =? v then 1 else 0) + count_eq l v.
Proof. unfold count_eq. cbn [filter]. destruct (a =? v); cbn [length]; lia. Qed.

Lemma count_lt_cons (a : Z) (l : list Z) (v : Z) :
  count_lt (a :: l) v = (if a <? v then 1 else 0) + count_lt l v.
Proof. unfold count_lt. cbn [filter]. destruct (a <? v); cbn [length]; lia. Qed.

Lemma count_eq_nonneg (l : list Z) (v : Z) : 0 <= count_eq l v.
Proof. unfold count_eq. lia. Qed.

Lemma count_lt_nonneg (l : list Z) (v : Z) : 0 <= count_lt l v.
Proof. unfold count_lt. lia. Qed.

Lemma count_lt_eq_length (l : list Z) (v : Z) :
  count_lt l v + count_eq l v <= Z.of_nat (length l).
Proof.
  induction l as [| a l IH]; [unfold count_lt, count_eq; simpl; lia |].
  rewrite count_lt_cons, count_eq_cons. simpl length.
  destruct (Z.ltb_spec a v), (Z.eqb_spec a v); lia.
Qed.

(** The values up to [a] are all below a larger [b]. *)
Lemma count_below (l : list Z) (a b : Z) :
  a < b -> count_lt l a + count_eq l a <= count_lt l b.
Proof.
  intro Hab. induction l as [| c l IH]; [unfold count_lt, count_eq; simpl; lia |].
  rewrite !count_lt_cons, count_eq_cons.
  destruct (Z.ltb_spec c a), (Z.eqb_spec c a), (Z.ltb_spec c b); lia.
Qed.

(** Row [i] itself is counted among the rows above any later row. *)
Lemma count_eq_prefix (l : list Z) :
  forall i j, (i < j <= length l)%nat ->
  count_eq (firstn i l) (nth i l 0) + 1 <= count_eq (firstn j l) (nth i l 0).
Proof.
  induction l as [| a l IH]; intros i j Hij; simpl in Hij; [lia |].
  destruct j as [| j]; [lia |].
  destruct i as [| i]; simpl firstn; simpl nth.
  - rewrite count_eq_cons, Z.eqb_refl.
    pose proof (count_eq_nonneg (firstn j l) a).
    change (count_eq [] a) with 0. lia.
  - rewrite !count_eq_cons. specialize (IH i j ltac:(lia)). lia.
Qed.

Lemma rank_first_from_length (all : list Z) (l before : list Z) :
  length (rank_first_from all before l) = length l.
Proof.
  revert before. induction l as [| a l IH]; intros seen; simpl; auto.
Qed.

Lemma rank_first_from_nth (all : list Z) (l : list Z) :
  forall before i, (i < length l)%nat ->
  nth i (rank_first_from all before l) 0
  = 1 + count_lt all (nth i l 0) + count_eq before (nth i l 0)
      + count_eq (firstn i l) (nth i l 0).
Proof.
  induction l as [| a l IH]; intros seen i Hi; simpl in Hi; [lia |].
  destruct i as [| i]; cbn [rank_first_from nth firstn].
  - change (count_eq [] a) with 0. lia.
  - rewrite IH by lia. rewrite !count_eq_cons. lia.
Qed.

Lemma rank_first_nth (x : list Z) (i : nat) :
  (i < length x)%nat ->
  nth i (rank_first x) 0
  = 1 + count_lt x (nth i x 0) + count_eq (firstn i x) (nth i x 0).
Proof.
  intro Hi. unfold rank_first. rewrite rank_first_from_nth by auto.
  change (count_eq [] (nth i x 0)) with 0. lia.
Qed.

Lemma rank_first_stable (x : list Z) : Spec.stable_ranking x (rank_first x).
Proof.
  split; [apply rank_first_from_length |]. split.
  - intros i Hi. rewrite rank_first_nth by auto.
    pose proof (count_lt_nonneg x (nth i x 0)).
    pose proof (count_eq_nonneg (firstn i x) (nth i x 0)).
    pose proof (count_eq_prefix x i (length x) ltac:(lia)) as P.
    rewrite firstn_all in P.
    pose proof (count_lt_eq_length x (nth i x 0)). lia.
  - intros i j Hij. rewrite !rank_first_nth by lia.
    pose proof (count_eq_prefix x i j ltac:(lia)) as Pij.
    pose proof (count_eq_prefix x i (length x) ltac:(lia)) as Pi.
    pose proof (count_eq_prefix x j (length x) ltac:(lia)) as Pj.
    rewrite firstn_all in Pi, Pj.
    pose proof (count_eq_nonneg (firstn i x) (nth i x 0)).
    pose proof (count_eq_nonneg (firstn j x) (nth j x 0)).
    destruct (Z.leb_spec (nth i x 0) (nth j x 0)) as [Hle | Hlt].
    + destruct (Z.eq_dec (nth i x 0) (nth j x 0)) as [E | E].
      * rewrite E in *. lia.
      * pose proof (count_below x (nth i x 0) (nth j x 0) ltac:(lia)). lia.
    + pose proof (count_below x (nth j x 0) (nth i x 0) ltac:(lia)). lia.
Qed.


Lemma rank_first_NoDup (x : list Z) : NoDup (rank_first x).
Proof.
  destruct (rank_first_stable x) as (Hlen & _ & Hord).
  apply (NoDup_nth _ 0). intros i j Hi Hj E. rewrite Hlen in Hi, Hj.
  destruct (Nat.lt_trichotomy i j) as [L | [L | L]]; auto.
  - specialize (Hord i j ltac:(lia)). destruct (_ <=? _); lia.
  - specialize (Hord j i ltac:(lia)). destruct (_ <=? _); lia.
Qed.

Lemma rank_first_range (x : list Z) (v : Z) :
  In v (rank_first x) -> 1 <= v <= Z.of_nat (length x).
Proof.
  destruct (rank_first_stable x) as (Hlen & Hrange & _).
  intro Hv. destruct (In_nth _ _ 0 Hv) as (i & Hi & <-).
  apply Hrange. lia.
Qed.

Lemma iota_length (lo : Z) (n : nat) : length (Spec.iota lo n) = n.
Proof. revert lo. induction n; intro lo; simpl; auto. Qed.

Lemma iota_nth (n : nat) :
  forall lo i, (i < n)%nat -> nth i (Spec.iota lo n) 0 = lo + Z.of_nat i.
Proof.
  induction n as [| n IH]; intros lo i Hi; [lia |].
  destruct i as [| i]; cbn [Spec.iota nth]; [lia |].
  rewrite IH by lia. lia.
Qed.

(** A strictly ascending list of [n] integers within [lo, lo+n) is
    [lo, ..., lo+n-1]. *)
Lemma ascending_is_iota (s : list Z) :
  StronglySorted Z.lt s ->
  forall lo, (forall v, In v s -> lo <= v < lo + Z.of_nat (length s)) ->
  s = Spec.iota lo (length s).
Proof.
  induction 1 as [| a s Hs IH Ha]; intros lo Hin; [reflexivity |].
  rewrite Forall_forall in Ha.
  assert (Es : s = Spec.iota (lo + 1) (length s)).
  { apply IH. intros v Hv.
    pose proof (Ha v Hv). pose proof (Hin a (or_introl eq_refl)).
    pose proof (Hin v (or_intror Hv)) as B. cbn [length] in B. lia. }
  assert (Ea : a = lo).
  { pose proof (Hin a (or_introl eq_refl)) as B. cbn [length] in B.
    destruct s as [| b s]; [simpl in B; lia |].
    pose proof (Ha b (or_introl eq_refl)).
    cbn [length Spec.iota] in Es. injection Es as Eb _. lia. }
  cbn [length Spec.iota]. now rewrite Ea, <- Es.
Qed.

Lemma sorted_NoDup_strict (s : list Z) :
  StronglySorted Z.le s -> NoDup s -> StronglySorted Z.lt s.
Proof.
  induction 1 as [| a s Hs IH Ha]; intro Hnd; constructor.
  - apply IH. now inversion Hnd.
  - inversion Hnd as [| ? ? Hnotin _]; subst.
    rewrite Forall_forall in *. intros v Hv.
    specialize (Ha v Hv). assert (v <> a) by (intros ->; contradiction). lia.
Qed.

(** The sorted ranks are [1, ..., n]. *)
Lemma sorted_ranks (x : list Z) :
  ZSort.sort (rank_first x) = Spec.iota 1 (length x).
Proof.
  pose proof (ZSort.Permuted_sort (rank_first x)) as P.
  assert (L : length (ZSort.sort (rank_first x)) = length x).
  { rewrite <- (Permutation_length P). apply rank_first_from_length. }
  rewrite <- L. apply ascending_is_iota.
  - apply sorted_NoDup_strict; [apply PandasFacts.sort_sorted |].
    eapply Permutation_NoDup; [exact P | apply rank_first_NoDup].
  - intros v Hv. rewrite L.
    apply (Permutation_in _ (Permutation_sym P)) in Hv.
    apply rank_first_range in Hv. lia.
Qed.

Lemma unique_NoDup (l : list Z) : NoDup l -> unique l = l.
Proof.
  induction 1 as [| a l Ha Hl IH]; simpl; [reflexivity |].
  rewrite IH. f_equal.
  apply PandasFacts.filter_same_length.
  clear IH Hl. induction l as [| b l IHl]; simpl; auto.
  destruct (Z.eqb_spec b a) as [-> | _]; simpl.
  - exfalso. apply Ha. now left.
  - f_equal. apply IHl. intro H. apply Ha. now right.
Qed.

(** The edges of the ranks of at least two rows never coincide: the
    [k]-th is [4 + (n-1)*k] in the scaled form. *)
Lemma rank_edges_distinct (x : list Z) :
  (2 <= length x)%nat ->
  unique (quantile_edges (rank_first x) 4) = quantile_edges (rank_first x) 4.
Proof.
  intro Hn. apply unique_NoDup.
  assert (Hr : rank_first x <> []).
  { intro E. apply (f_equal (@length Z)) in E.
    unfold rank_first in E. rewrite rank_first_from_length in E. simpl in E. lia. }
  assert (Hq : forall k, 0 <= k <= 4 ->
            quantile_scaled 4 (ZSort.sort (rank_first x)) k
            = 4 + (Z.of_nat (length x) - 1) * k).
  { intros k Hk. unfold quantile_scaled. rewrite sorted_ranks, iota_length.
    set (n := Z.of_nat (length x)).
    assert (Hn' : 2 <= n) by (unfold n; lia).
    pose proof (Z.div_mod ((n - 1) * k) 4 ltac:(lia)) as E.
    pose proof (Z.mod_pos_bound ((n - 1) * k) 4 ltac:(lia)) as B.
    set (lo := (n - 1) * k / 4) in *. set (g := ((n - 1) * k) mod 4) in *.
    assert (Hlo : 0 <= lo <= n - 1) by (unfold lo; split;
      [apply Z.div_pos; nia | apply Z.div_le_upper_bound; nia]).
    unfold iloc. rewrite !iota_nth by lia.
    rewrite !Z2Nat.id by lia.
    destruct (Z.eq_dec lo (n - 1)) as [El | El].
    - assert (g = 0) by nia. rewrite Z.min_r by lia. nia.
    - rewrite Z.min_l by lia. nia. }
  assert (Ee : quantile_edges (rank_first x) 4
               = map (fun k => quantile_scaled (Z.of_nat 4) (ZSort.sort (rank_first x))
                                 (Z.of_nat k)) (seq 0 5)).
  { unfold quantile_edges. destruct (rank_first x); [congruence | reflexivity]. }
  rewrite Ee. cbn [seq map].
  change (Z.of_nat 4) with 4. change (Z.of_nat 0) with 0. change (Z.of_nat 1) with 1.
  change (Z.of_nat 2) with 2. change (Z.of_nat 3) with 3.
  rewrite !Hq by lia.
  set (n := Z.of_nat (length x)). assert (2 <= n) by (unfold n; lia).
  clearbody n. repeat (apply NoDup_cons; [cbn [In]; lia |]). apply NoDup_nil.
Qed.

End RankFacts.

(** ** Facts about the steps of the procedure *)

Module RfmFacts.

Lemma to_datetime_length parse (col : list date_cell) (dates : list Z) :
  to_datetime parse col = Ok dates -> length dates = length col.
Proof.
  revert dates. induction col as [| c col IH]; intros dates H; simpl in H.
  - now injection H as <-.
  - destruct c as [s | ns]; [destruct (parse s); [| discriminate] |];
      destruct (to_datetime parse col) as [ds |]; simpl in H; try discriminate;
      injection H as <-; simpl; f_equal; now apply IH.
Qed.

(** Parsing leaves parsed cells as they are. *)
Lemma to_datetime_parsed parse (dates : list Z) :
  to_datetime parse (map Datetime dates) = Ok dates.
Proof.
  induction dates as [| d dates IH]; simpl; [reflexivity |]. now rewrite IH.
Qed.

Lemma set_order_date_length (df : DataFrame) (dates : list Z) :
  length (set_order_date df dates) = length df.
Proof.
  revert dates. induction df as [| t df IH]; intros [| d dates]; simpl; auto.
Qed.

Lemma set_order_date_column (df : DataFrame) (dates : list Z) :
  length dates = length df ->
  map order_date (set_order_date df dates) = map Datetime dates.
Proof.
  revert dates. induction df as [| t df IH]; intros [| d dates] H; simpl in *;
    try discriminate; auto.
  f_equal. apply IH. lia.
Qed.

(** The assignment touches no other column. *)
Lemma set_order_date_frame (df : DataFrame) (dates : list Z) :
  map customer_id (set_order_date df dates) = map customer_id df /\
  map transaction_id (set_order_date df dates) = map transaction_id df /\
  map final_amount_inr (set_order_date df dates) = map final_amount_inr df /\
  map attributes (set_order_date df dates) = map attributes df.
Proof.
  revert dates. induction df as [| t df IH]; intros [| d dates]; simpl; auto.
  destruct (IH dates) as (A & B & C & D). now rewrite A, B, C, D.
Qed.

Lemma set_order_date_again (df : DataFrame) (dates : list Z) :
  length dates = length df ->
  set_order_date (set_order_date df dates) dates = set_order_date df dates.
Proof.
  revert dates. induction df as [| t df IH]; intros [| d dates] H; simpl in *;
    try discriminate; auto.
  f_equal. apply IH. lia.
Qed.

(** On a column that holds timestamps already the conversion and the
    assignment change nothing. *)
Lemma to_datetime_datetime parse (df : DataFrame) :
  Forall Spec.is_datetime (map order_date df) ->
  exists dates, to_datetime parse (map order_date df) = Ok dates /\
                set_order_date df dates = df.
Proof.
  induction df as [| t df IH]; intro H; simpl in *.
  - exists []. auto.
  - inversion H as [| c l Hc Hl]; subst.
    destruct (IH Hl) as (dates & E & S).
    destruct t as [c i o a at']. simpl in *.
    destruct o as [s | ns]; [destruct Hc |].
    exists (ns :: dates). rewrite E. simpl. split; auto. now rewrite S.
Qed.

Lemma series_sum_total (l : list Z) : Pandas.series_sum l = Spec.total l.
Proof. induction l; simpl; auto. Qed.

Lemma fold_max_ge (l : list Z) (d : Z) :
  d <= fold_right Z.max d l /\ forall t, In t l -> t <= fold_right Z.max d l.
Proof.
  induction l as [| a l [IH1 IH2]]; simpl; split; try lia; try tauto.
  intros t [-> | Ht]; [lia |]. specialize (IH2 t Ht). lia.
Qed.

Lemma fold_max_In (l : list Z) (d : Z) :
  fold_right Z.max d l = d \/ In (fold_right Z.max d l) l.
Proof.
  induction l as [| a l IH]; simpl; auto.
  destruct (Z.max_spec a (fold_right Z.max d l)) as [[_ ->] | [_ ->]]; tauto.
Qed.

(** [Series.max()] of a non-empty column is its latest timestamp. *)
Lemma series_max_latest (l : list Z) :
  l <> [] -> Spec.latest l (Pandas.series_max l).
Proof.
  destruct l as [| a l]; [congruence |]. intros _.
  unfold Pandas.series_max. cbn [hd]. split.
  - destruct (fold_max_In (a :: l) a) as [-> | H]; [now left | exact H].
  - intros t Ht. now apply fold_max_ge.
Qed.

Lemma group_keys_NoDup (df : DataFrame) : NoDup (group_keys df).
Proof.
  unfold group_keys.
  eapply Permutation_NoDup; [apply StringSort.Permuted_sort | apply NoDup_nodup].
Qed.

Lemma group_keys_In (df : DataFrame) (c : string) :
  In c (group_keys df) <-> In c (map customer_id df).
Proof.
  unfold group_keys. rewrite <- (nodup_In string_dec (map customer_id df)).
  split; intro H.
  - eapply Permutation_in; [symmetry; apply StringSort.Permuted_sort | exact H].
  - eapply Permutation_in; [apply StringSort.Permuted_sort | exact H].
Qed.

Lemma group_keys_length (df : DataFrame) :
  length (group_keys df) = length (nodup string_dec (map customer_id df)).
Proof.
  unfold group_keys. symmetry. apply Permutation_length, StringSort.Permuted_sort.
Qed.

Lemma groupby_agg_keys (r : Z) (df : DataFrame) :
  map m_customer_id (groupby_agg r df) = group_keys df.
Proof.
  unfold groupby_agg. rewrite map_map. simpl. apply map_id.
Qed.

(** The group of a customer in the converted table holds that
    customer's records. *)
Lemma group_rows_records (df : DataFrame) (dates : list Z) (c : string) :
  length dates = length df ->
  let x := group_rows (set_order_date df dates) c in
  map (fun t => datetime_ns (order_date t)) x = map fst (Spec.records_of c df dates) /\
  map final_amount_inr x = map snd (Spec.records_of c df dates) /\
  length x = length (Spec.records_of c df dates).
Proof.
  revert dates. induction df as [| t df IH]; intros [| d dates] H; simpl in *;
    try discriminate; auto.
  specialize (IH dates ltac:(lia)). destruct IH as (A & B & C).
  unfold group_rows in *. simpl.
  destruct (string_dec (customer_id t) c) as [E | E].
  - apply String.eqb_eq in E. rewrite E. simpl. now rewrite A, B, C.
  - apply String.eqb_neq in E. now rewrite E.
Qed.

Lemma records_of_dates (c : string) (df : DataFrame) (dates : list Z) (t : Z) :
  In t (map fst (Spec.records_of c df dates)) -> In t dates.
Proof.
  revert dates. induction df as [| r df IH]; intros [| d dates] H; simpl in *;
    try contradiction.
  destruct (string_dec (customer_id r) c); simpl in H; [destruct H |]; auto.
Qed.

Lemma records_of_nonempty (c : string) (df : DataFrame) (dates : list Z) :
  length dates = length df -> In c (map customer_id df) ->
  Spec.records_of c df dates <> [].
Proof.
  revert dates. induction df as [| r df IH]; intros [| d dates] H Hc; simpl in *;
    try discriminate; try tauto.
  destruct (string_dec (customer_id r) c); [discriminate |].
  apply IH; [lia | tauto].
Qed.


(** The scored table keeps the rows and the metrics of the aggregated
    table. *)
Lemma score_rows_metrics (rows : list metrics) (r f m : list (option Z)) :
  length r = length rows -> length f = length rows -> length m = length rows ->
  map p_customer_id (score_rows rows r f m) = map m_customer_id rows /\
  map recency (score_rows rows r f m) = map m_recency rows /\
  map frequency (score_rows rows r f m) = map m_frequency rows /\
  map monetary (score_rows rows r f m) = map m_monetary rows.
Proof.
  revert r f m. induction rows as [| row rows IH];
    intros [| a r] [| b f] [| c m] Hr Hf Hm; simpl in *; try discriminate; auto.
  destruct (IH r f m) as (A & B & C & D); try lia.
  now rewrite A, B, C, D.
Qed.

Lemma score_rows_nth (rows : list metrics) (r f m : list (option Z)) (i : nat) (p : profile) :
  nth_error (score_rows rows r f m) i = Some p ->
  exists row a b c,
    nth_error rows i = Some row /\ nth_error r i = Some a /\
    nth_error f i = Some b /\ nth_error m i = Some c /\
    p = score_row row a b c.
Proof.
  revert r f m i. induction rows as [| row rows IH];
    intros [| a r] [| b f] [| c m] [| i] H; simpl in *; try discriminate.
  - injection H as <-. exists row, a, b, c. auto.
  - apply IH in H. exact H.
Qed.

Lemma score_rows_In (rows : list metrics) (r f m : list (option Z)) (p : profile) :
  In p (score_rows rows r f m) ->
  exists row a b c,
    In row rows /\ In a r /\ In b f /\ In c m /\ p = score_row row a b c.
Proof.
  intro H. apply In_nth_error in H as [i H].
  apply score_rows_nth in H as (row & a & b & c & H1 & H2 & H3 & H4 & ->).
  exists row, a, b, c. repeat split; eauto using nth_error_In.
Qed.

(** What a returning call has computed, step by step. *)
Lemma rfm_returns parse (df df' : DataFrame) (out : rfm_output) :
  rfm_segmentation_analysis parse df = (df', Ok out) ->
  exists dates r f m,
    to_datetime parse (map order_date df) = Ok dates /\
    df' = set_order_date df dates /\
    let table := groupby_agg (reference_date df') df' in
    Pandas.qcut (map m_recency table) 4 [4; 3; 2; 1] = Ok r /\
    Pandas.qcut (Pandas.rank_first (map m_frequency table)) 4 [1; 2; 3; 4] = Ok f /\
    Pandas.qcut (map m_monetary table) 4 [1; 2; 3; 4] = Ok m /\
    rfm out = score_rows table r f m /\
    total_customers out = length (rfm out) /\
    champion_count out
    = length (filter (fun p => String.eqb (segment p) "Champions") (rfm out)).
Proof.
  unfold rfm_segmentation_analysis.
  destruct (to_datetime parse (map order_date df)) as [dates |] eqn:E; [| discriminate].
  intro H. injection H as <- H. unfold score_and_segment in H.
  destruct (Pandas.qcut (map m_recency _) 4 [4; 3; 2; 1]) as [r |] eqn:Er;
    simpl in H; [| discriminate].
  destruct (Pandas.qcut (Pandas.rank_first _) 4 [1; 2; 3; 4]) as [f |] eqn:Ef;
    simpl in H; [| discriminate].
  destruct (Pandas.qcut (map m_monetary _) 4 [1; 2; 3; 4]) as [m |] eqn:Em;
    simpl in H; [| discriminate].
  injection H as <-. exists dates, r, f, m. simpl. repeat split; auto.
Qed.

Lemma rfm_returns_lengths (table : list metrics) (r f m : list (option Z)) :
  Pandas.qcut (map m_recency table) 4 [4; 3; 2; 1] = Ok r ->
  Pandas.qcut (Pandas.rank_first (map m_frequency table)) 4 [1; 2; 3; 4] = Ok f ->
  Pandas.qcut (map m_monetary table) 4 [1; 2; 3; 4] = Ok m ->
  length r = length table /\ length f = length table /\ length m = length table.
Proof.
  intros Hr Hf Hm.
  apply PandasFacts.qcut_length in Hr, Hf, Hm.
  rewrite length_map in Hr, Hm.
  unfold Pandas.rank_first in Hf.
  rewrite RankFacts.rank_first_from_length, length_map in Hf. auto.
Qed.


Lemma quartile_label_range (labels : list Z) (c : option Z) :
  (labels = [4; 3; 2; 1] \/ labels = [1; 2; 3; 4]) ->
  (exists l, c = Some l /\ In l labels) ->
  exists l, c = Some l /\ 1 <= l <= 4.
Proof.
  intros Hl (l & -> & Hin). exists l. split; auto.
  destruct Hl as [-> | ->]; simpl in Hin; lia.
Qed.

(** In a returned table no score is NaN: the three scores are quartile
    scores, the combined score is their sum and the segment is computed
    from it. *)
Lemma rfm_scores_defined parse (df df' : DataFrame) (out : rfm_output) (p : profile) :
  rfm_segmentation_analysis parse df = (df', Ok out) -> In p (rfm out) ->
  exists a b c,
    r_score p = Some a /\ f_score p = Some b /\ m_score p = Some c /\
    1 <= a <= 4 /\ 1 <= b <= 4 /\ 1 <= c <= 4 /\
    rfm_score p = Some (a + b + c) /\
    segment p = segment_customer (a + b + c).
Proof.
  intros H Hp.
  apply rfm_returns in H as (dates & r & f & m & _ & _ & Hr & Hf & Hm & Hout & _).
  rewrite Hout in Hp.
  apply score_rows_In in Hp as (row & a & b & c & _ & Ha & Hb & Hc & ->).
  apply PandasFacts.qcut_labelled in Hr, Hf, Hm; try lia; try discriminate.
  rewrite Forall_forall in Hr, Hf, Hm.
  destruct (quartile_label_range _ a (or_introl eq_refl) (Hr a Ha)) as (x & -> & Hx).
  destruct (quartile_label_range _ b (or_intror eq_refl) (Hf b Hb)) as (y & -> & Hy).
  destruct (quartile_label_range _ c (or_intror eq_refl) (Hm c Hc)) as (z & -> & Hz).
  exists x, y, z. simpl. repeat split; auto; lia.
Qed.

(** The thresholds of lines 51-61. *)
Lemma segment_customer_thresholds (score : Z) :
  (segment_customer score = "Champions"%string <-> 10 <= score) /\
  (segment_customer score = "Loyal Customers"%string <-> 8 <= score < 10) /\
  (segment_customer score = "Potential Loyalists"%string <-> 6 <= score < 8) /\
  (segment_customer score = "At Risk"%string <-> 4 <= score < 6) /\
  (segment_customer score = "Lost"%string <-> score < 4).
Proof.
  unfold segment_customer.
  destruct (Z.geb_spec score 10); [repeat split; intros; try lia; try discriminate; auto |].
  destruct (Z.geb_spec score 8); [repeat split; intros; try lia; try discriminate; auto |].
  destruct (Z.geb_spec score 6); [repeat split; intros; try lia; try discriminate; auto |].
  destruct (Z.geb_spec score 4); repeat split; intros; try lia; try discriminate; auto.
Qed.


(** The procedure returns a table when the dates parse, there are at
    least two customers, and the five quartile edges of the recencies and
    of the monetary values are distinct; the frequencies, cut over their
    ranks, put no condition. *)
Lemma rfm_returns_when_edges_distinct parse (df : DataFrame) (dates : list Z) :
  to_datetime parse (map order_date df) = Ok dates ->
  let df1 := set_order_date df dates in
  let table := groupby_agg (reference_date df1) df1 in
  (2 <= length table)%nat ->
  Pandas.unique (Pandas.quantile_edges (map m_recency table) 4)
  = Pandas.quantile_edges (map m_recency table) 4 ->
  Pandas.unique (Pandas.quantile_edges (map m_monetary table) 4)
  = Pandas.quantile_edges (map m_monetary table) 4 ->
  exists out, rfm_segmentation_analysis parse df = (df1, Ok out).
Proof.
  intros Hd df1 table Hn Hrec Hmon.
  assert (Hne : forall (f : metrics -> Z), map f table <> []).
  { intros f E. apply (f_equal (@length Z)) in E. rewrite length_map in E.
    simpl in E. lia. }
  destruct (PandasFacts.qcut_distinct_edges_return (map m_recency table) 4 [4; 3; 2; 1])
    as [r Hr]; auto.
  destruct (PandasFacts.qcut_distinct_edges_return
              (Pandas.rank_first (map m_frequency table)) 4 [1; 2; 3; 4])
    as [f Hf]; auto.
  { intro E. apply (f_equal (@length Z)) in E.
    unfold Pandas.rank_first in E.
    rewrite RankFacts.rank_first_from_length, length_map in E. simpl in E. lia. }
  { apply RankFacts.rank_edges_distinct. now rewrite length_map. }
  destruct (PandasFacts.qcut_distinct_edges_return (map m_monetary table) 4 [1; 2; 3; 4])
    as [m Hm]; auto.
  unfold rfm_segmentation_analysis. rewrite Hd.
  fold df1. fold table. unfold score_and_segment.
  rewrite Hr, Hf, Hm. simpl. eauto.
Qed.

(** The procedure raises when two quartile edges of the recencies
    coincide. *)
Lemma rfm_raises_on_collapsed_recency parse (df : DataFrame) (dates : list Z) :
  to_datetime parse (map order_date df) = Ok dates ->
  let df1 := set_order_date df dates in
  let recencies := map m_recency (groupby_agg (reference_date df1) df1) in
  recencies <> [] ->
  Pandas.unique (Pandas.quantile_edges recencies 4) <> Pandas.quantile_edges recencies 4 ->
  snd (rfm_segmentation_analysis parse df)
  = Raise (ValueError "Bin labels must be one fewer than the number of bin edges").
Proof.
  intros Hd df1 recencies Hne Hu.
  unfold rfm_segmentation_analysis. rewrite Hd. fold df1. simpl.
  unfold score_and_segment. fold recencies.
  rewrite (PandasFacts.qcut_collapsed_edges_raise recencies 4 [4; 3; 2; 1]); auto.
Qed.

End RfmFacts.

(** ** Parts by counting and the bins of [qcut] *)

Module PopulationFacts.
Import Pandas.
















End PopulationFacts.

(** ** The properties of the specification *)

(** C2. For every profile of a returned table the segment label is fixed
    by the combined score through the thresholds: "Champions" exactly for
    a score of 10 or more, "Loyal Customers" for 8 and 9, "Potential
    Loyalists" for 6 and 7, "At Risk" for 4 and 5 and "Lost" below 4. *)
Theorem segment_by_thresholds parse (df df' : DataFrame) (out : rfm_output) (p : profile) :
  rfm_segmentation_analysis parse df = (df', Ok out) -> In p (rfm out) ->
  exists score,
    rfm_score p = Some score /\
    (segment p = "Champions"%string <-> 10 <= score) /\
    (segment p = "Loyal Customers"%string <-> 8 <= score < 10) /\
    (segment p = "Potential Loyalists"%string <-> 6 <= score < 8) /\
    (segment p = "At Risk"%string <-> 4 <= score < 6) /\
    (segment p = "Lost"%string <-> score < 4).
Proof.
  intros H Hp.
  destruct (RfmFacts.rfm_scores_defined _ _ _ _ _ H Hp)
    as (a & b & c & _ & _ & _ & _ & _ & _ & Hs & Hseg).
  exists (a + b + c). split; auto. rewrite Hseg.
  apply RfmFacts.segment_customer_thresholds.
Qed.

Lemma segment_by_thresholds_witness :
  exists score,
    rfm_score Runs.profile_C2 = Some score /\
    (segment Runs.profile_C2 = "Champions"%string <-> 10 <= score) /\
    (segment Runs.profile_C2 = "Loyal Customers"%string <-> 8 <= score < 10) /\
    (segment Runs.profile_C2 = "Potential Loyalists"%string <-> 6 <= score < 8) /\
    (segment Runs.profile_C2 = "At Risk"%string <-> 4 <= score < 6) /\
    (segment Runs.profile_C2 = "Lost"%string <-> score < 4).
Proof.
  apply (segment_by_thresholds Sample.iso_date Sample.orders
           Runs.orders_after Runs.orders_output Runs.profile_C2).
  - vm_compute. reflexivity.
  - simpl. right. left. reflexivity.
Defined.

Lemma quartile_rank_label (x : list Z) (v : Z) (a b c d : Z) :
  nth_error [a; b; c; d] (Z.to_nat (Spec.quartile_rank x v - 1))
  = Some (match Spec.quartile_rank x v with 1 => a | 2 => b | 3 => c | _ => d end).
Proof.
  unfold Spec.quartile_rank.
  destruct (4 * v <=? Spec.quartile x 1); [reflexivity |].
  destruct (4 * v <=? Spec.quartile x 2); [reflexivity |].
  destruct (4 * v <=? Spec.quartile x 3); reflexivity.
Qed.

Lemma quartile_rank_cases (x : list Z) (v : Z) :
  Spec.quartile_rank x v = 1 \/ Spec.quartile_rank x v = 2 \/
  Spec.quartile_rank x v = 3 \/ Spec.quartile_rank x v = 4.
Proof.
  unfold Spec.quartile_rank.
  destruct (4 * v <=? Spec.quartile x 1); auto.
  destruct (4 * v <=? Spec.quartile x 2); auto.
  destruct (4 * v <=? Spec.quartile x 3); auto.
Qed.

Lemma segment_customer_label (score : Z) : In (segment_customer score) Spec.segment_labels.
Proof.
  unfold segment_customer, Spec.segment_labels.
  destruct (score >=? 10); [simpl; tauto |].
  destruct (score >=? 8); [simpl; tauto |].
  destruct (score >=? 6); [simpl; tauto |].
  destruct (score >=? 4); simpl; tauto.
Qed.

Lemma converted_dates (df : DataFrame) (dates : list Z) :
  length dates = length df ->
  map (fun t => datetime_ns (order_date t)) (set_order_date df dates) = dates.
Proof.
  intro H. rewrite <- (map_map order_date datetime_ns).
  rewrite RfmFacts.set_order_date_column by auto.
  rewrite map_map. simpl. apply map_id.
Qed.

Lemma converted_keys (df : DataFrame) (dates : list Z) :
  group_keys (set_order_date df dates) = group_keys df.
Proof.
  unfold group_keys.
  now destruct (RfmFacts.set_order_date_frame df dates) as (-> & _).
Qed.

Lemma score_rows_tuples (rows : list metrics) (r f m : list (option Z)) :
  length r = length rows -> length f = length rows -> length m = length rows ->
  map (fun p => (p_customer_id p, recency p, frequency p, monetary p)) (score_rows rows r f m)
  = map (fun row => (m_customer_id row, m_recency row, m_frequency row, m_monetary row)) rows.
Proof.
  revert r f m. induction rows as [| row rows IH];
    intros [| a r] [| b f] [| c m] Hr Hf Hm; simpl in *; try discriminate; auto.
  f_equal. apply IH; lia.
Qed.

(** What a returning call returns, in terms of the parsed dates. *)
Lemma rfm_output_table parse (df : DataFrame) (dates : list Z) (out : rfm_output) :
  to_datetime parse (map order_date df) = Ok dates ->
  snd (rfm_segmentation_analysis parse df) = Ok out ->
  let df1 := set_order_date df dates in
  let table := groupby_agg (reference_date df1) df1 in
  exists r f m,
    rfm out = score_rows table r f m /\
    length r = length table /\ length f = length table /\ length m = length table.
Proof.
  intros Hd Hout.
  destruct (rfm_segmentation_analysis parse df) as [df' res] eqn:E.
  simpl in Hout. subst res.
  apply RfmFacts.rfm_returns in E
    as (dates' & r & f & m & Hd' & -> & Hr & Hf & Hm & Ho & _).
  rewrite Hd in Hd'. injection Hd' as <-.
  exists r, f, m. split; auto.
  now apply RfmFacts.rfm_returns_lengths.
Qed.

Lemma NoDup_map_injective {A B : Type} (f : A -> B) (l : list A) (a b : A) :
  NoDup (map f l) -> In a l -> In b l -> f a = f b -> a = b.
Proof.
  induction l as [| x l IH]; intros Hnd Ha Hb E; [destruct Ha |].
  cbn [map] in Hnd. inversion Hnd as [| ? ? Hx Hl]; subst.
  destruct Ha as [-> | Ha], Hb as [-> | Hb]; auto.
  - exfalso. apply Hx. rewrite E. now apply in_map.
  - exfalso. apply Hx. rewrite <- E. now apply in_map.
Qed.

(** A returned table has exactly one profile per distinct customer
    identifier of the input, none dropped and none twice, and every
    profile carries one of the five segment labels. *)
Lemma profiles_of_returned_table parse (df df' : DataFrame) (out : rfm_output) :
  rfm_segmentation_analysis parse df = (df', Ok out) ->
  NoDup (map p_customer_id (rfm out)) /\
  (forall c, In c (map p_customer_id (rfm out)) <-> In c (map customer_id df)) /\
  length (rfm out) = length (nodup string_dec (map customer_id df)) /\
  total_customers out = length (rfm out) /\
  forall p, In p (rfm out) -> In (segment p) Spec.segment_labels.
Proof.
  intro H.
  apply RfmFacts.rfm_returns in H
    as (dates & r & f & m & Hd & Hdf & Hr & Hf & Hm & Ho & Ht & _).
  set (table := groupby_agg (reference_date df') df') in *.
  destruct (RfmFacts.rfm_returns_lengths _ _ _ _ Hr Hf Hm) as (Lr & Lf & Lm).
  destruct (RfmFacts.score_rows_metrics _ _ _ _ Lr Lf Lm) as (Hids & _).
  rewrite <- Ho in Hids.
  assert (Hkeys : map m_customer_id table = group_keys df).
  { unfold table. rewrite RfmFacts.groupby_agg_keys, Hdf. apply converted_keys. }
  rewrite Hkeys in Hids.
  split; [rewrite Hids; apply RfmFacts.group_keys_NoDup |].
  split; [intro c; rewrite Hids; apply RfmFacts.group_keys_In |].
  split.
  { rewrite <- (length_map p_customer_id), Hids. apply RfmFacts.group_keys_length. }
  split; [exact Ht |].
  intros p Hp. rewrite Ho in Hp.
  apply RfmFacts.score_rows_In in Hp as (row & a & b & c & _ & _ & _ & _ & ->).
  simpl. destruct (cell_add (cell_add a b) c); simpl.
  - apply segment_customer_label.
  - unfold Spec.segment_labels. simpl. tauto.
Qed.

(** C4. On the input [Sample.same_day] the property fails: the table
    holds four distinct customers and the aggregation of lines 27-35 has
    one row for each of them, but the call raises at line 38 and returns
    no table, so that no customer receives a profile or a segment
    label. *)
Theorem same_day_no_profile :
  let call := rfm_segmentation_analysis Sample.iso_date Sample.same_day in
  nodup string_dec (map customer_id Sample.same_day) = ["C1"; "C2"; "C3"; "C4"]%string /\
  map m_customer_id (groupby_agg (reference_date (fst call)) (fst call))
  = ["C1"; "C2"; "C3"; "C4"]%string /\
  (exists e, snd call = Raise e) /\
  forall out, snd call <> Ok out.
Proof.
  cbv zeta. split; [vm_compute; reflexivity |]. split; [vm_compute; reflexivity |].
  split.
  - eexists. vm_compute. reflexivity.
  - intros out H. vm_compute in H. discriminate.
Qed.

(** C5. For a non-empty input whose dates parse, the reference date is
    the latest timestamp of all records plus one day, and every customer
    of the input has exactly one row in the aggregated table, which holds
    the whole days from that customer's latest timestamp to the reference
    date (never negative), the number of the customer's records (at least
    one) and the sum of the customer's amounts; when the call returns, the
    customer has exactly one profile in the returned table, with these
    metrics. *)
Theorem rfm_metrics_correct parse (df : DataFrame) (dates : list Z) :
  df <> [] ->
  to_datetime parse (map order_date df) = Ok dates ->
  let df1 := set_order_date df dates in
  let table := groupby_agg (reference_date df1) df1 in
  exists latest_all,
    Spec.latest dates latest_all /\
    reference_date df1 = latest_all + day /\
    forall c, In c (map customer_id df) ->
      let recs := Spec.records_of c df dates in
      exists row latest_c,
        In row table /\ m_customer_id row = c /\
        (forall row', In row' table -> m_customer_id row' = c -> row' = row) /\
        Spec.latest (map fst recs) latest_c /\
        m_recency row = (reference_date df1 - latest_c) / day /\
        0 <= m_recency row /\
        m_frequency row = Z.of_nat (length recs) /\
        1 <= m_frequency row /\
        m_monetary row = Spec.total (map snd recs) /\
        match snd (rfm_segmentation_analysis parse df) with
        | Ok out =>
            exists p,
              In p (rfm out) /\ p_customer_id p = c /\
              (forall p', In p' (rfm out) -> p_customer_id p' = c -> p' = p) /\
              recency p = m_recency row /\ frequency p = m_frequency row /\
              monetary p = m_monetary row
        | Raise _ => True
        end.
Proof.
  intros Hne Hd df1 table.
  pose proof (RfmFacts.to_datetime_length _ _ _ Hd) as Hlen.
  rewrite length_map in Hlen.
  assert (Hdates : dates <> []).
  { intros ->. destruct df; simpl in Hlen; [congruence | discriminate]. }
  pose proof (RfmFacts.series_max_latest dates Hdates) as Hlatest.
  assert (Href : reference_date df1 = Pandas.series_max dates + day).
  { unfold reference_date, df1. now rewrite converted_dates. }
  assert (Hkeys : map m_customer_id table = group_keys df).
  { unfold table. rewrite RfmFacts.groupby_agg_keys. apply converted_keys. }
  assert (Hnd : NoDup (map m_customer_id table)).
  { rewrite Hkeys. apply RfmFacts.group_keys_NoDup. }
  exists (Pandas.series_max dates). split; [exact Hlatest |]. split; [exact Href |].
  intros c Hc recs.
  assert (Hk : In c (group_keys df1)).
  { unfold df1. rewrite converted_keys. now apply RfmFacts.group_keys_In. }
  assert (Hrow : In (aggregate (reference_date df1) df1 c) table).
  { unfold table, groupby_agg. now apply in_map. }
  destruct (RfmFacts.group_rows_records df dates c Hlen) as (A & B & C).
  fold df1 in A, B, C. fold recs in A, B, C.
  pose proof (RfmFacts.records_of_nonempty c df dates Hlen Hc) as Hrecs.
  fold recs in Hrecs.
  assert (Hfst : map fst recs <> []).
  { destruct recs; [congruence | discriminate]. }
  pose proof (RfmFacts.series_max_latest _ Hfst) as Hlc.
  exists (aggregate (reference_date df1) df1 c), (Pandas.series_max (map fst recs)).
  cbn [aggregate m_customer_id m_recency m_frequency m_monetary].
  rewrite A, B, C, RfmFacts.series_sum_total.
  split; [exact Hrow |]. split; [reflexivity |].
  split.
  { intros row' Hrow' E.
    apply (NoDup_map_injective m_customer_id table); auto. }
  split; [exact Hlc |]. split; [reflexivity |].
  split.
  { apply Z.div_pos; [| reflexivity].
    destruct Hlc as [Hin _]. apply RfmFacts.records_of_dates in Hin.
    destruct Hlatest as [_ Hmax]. specialize (Hmax _ Hin).
    rewrite Href. unfold day. lia. }
  split; [reflexivity |].
  split; [destruct recs; [congruence | simpl; lia] |].
  split; [reflexivity |].
  destruct (rfm_segmentation_analysis parse df) as [df' [out | e]] eqn:E; cbn [snd]; [| exact I].
  pose proof (rfm_output_table parse df dates out Hd) as T.
  rewrite E in T. specialize (T eq_refl).
  destruct T as (r & f & m & Ho & Lr & Lf & Lm).
  fold df1 in Ho, Lr, Lf, Lm. fold table in Ho, Lr, Lf, Lm.
  pose proof (score_rows_tuples table r f m Lr Lf Lm) as Tup. rewrite <- Ho in Tup.
  destruct (profiles_of_returned_table _ _ _ _ E) as (Pnd & _).
  assert (Htup : In (m_customer_id (aggregate (reference_date df1) df1 c),
                     m_recency (aggregate (reference_date df1) df1 c),
                     m_frequency (aggregate (reference_date df1) df1 c),
                     m_monetary (aggregate (reference_date df1) df1 c))
                    (map (fun p => (p_customer_id p, recency p, frequency p, monetary p))
                       (rfm out))).
  { rewrite Tup.
    apply (in_map (fun row => (m_customer_id row, m_recency row, m_frequency row,
                                m_monetary row))).
    exact Hrow. }
  apply in_map_iff in Htup as (p & Ep & Hp).
  cbn [aggregate m_customer_id m_recency m_frequency m_monetary] in Ep.
  rewrite A, B, C, RfmFacts.series_sum_total in Ep.
  injection Ep as E1 E2 E3 E4.
  exists p. repeat split; auto.
  intros p' Hp' E'.
  apply (NoDup_map_injective p_customer_id (rfm out)); auto. congruence.
Qed.

Lemma rfm_metrics_correct_witness :
  let df := Sample.orders in
  let dates := Runs.orders_dates in
  let df1 := set_order_date df dates in
  let table := groupby_agg (reference_date df1) df1 in
  exists latest_all,
    Spec.latest dates latest_all /\
    reference_date df1 = latest_all + day /\
    let recs := Spec.records_of "C2" df dates in
    exists row latest_c,
      In row table /\ m_customer_id row = "C2"%string /\
      (forall row', In row' table -> m_customer_id row' = "C2"%string -> row' = row) /\
      Spec.latest (map fst recs) latest_c /\
      m_recency row = (reference_date df1 - latest_c) / day /\
      0 <= m_recency row /\
      m_frequency row = Z.of_nat (length recs) /\
      1 <= m_frequency row /\
      m_monetary row = Spec.total (map snd recs) /\
      exists p,
        In p (rfm Runs.orders_output) /\ p_customer_id p = "C2"%string /\
        (forall p', In p' (rfm Runs.orders_output) -> p_customer_id p' = "C2"%string ->
           p' = p) /\
        recency p = m_recency row /\ frequency p = m_frequency row /\
        monetary p = m_monetary row.
Proof.
  cbv zeta.
  destruct (rfm_metrics_correct Sample.iso_date Sample.orders Runs.orders_dates)
    as (latest_all & H1 & H2 & H3).
  - discriminate.
  - vm_compute. reflexivity.
  - exists latest_all. split; [exact H1 |]. split; [exact H2 |].
    apply (H3 "C2"%string). simpl. right. right. left. reflexivity.
Defined.

(** C3. The input [Sample.same_day] (four customers who all bought on the
    same day) has one recency for everybody: the five quantile edges
    collapse to one, the four labels no longer fit, and the call raises
    instead of returning a table with fewer buckets. *)
Theorem same_day_raises :
  snd (rfm_segmentation_analysis Sample.iso_date Sample.same_day)
  = Raise (ValueError "Bin labels must be one fewer than the number of bin edges").
Proof. vm_compute. reflexivity. Qed.

(** C7. A second call on the table the first call has left behind returns
    what the first returned (the same table of metrics, scores and
    segments, or the same exception), leaves the table as it is, and so
    works from the same reference date. *)
Theorem rfm_idempotent parse (df : DataFrame) :
  let first := rfm_segmentation_analysis parse df in
  let second := rfm_segmentation_analysis parse (fst first) in
  snd second = snd first /\
  fst second = fst first /\
  reference_date (fst second) = reference_date (fst first).
Proof.
  cbv zeta.
  assert (E : rfm_segmentation_analysis parse (fst (rfm_segmentation_analysis parse df))
              = rfm_segmentation_analysis parse df).
  { unfold rfm_segmentation_analysis at 2 3.
    destruct (to_datetime parse (map order_date df)) as [dates | e] eqn:Hd; simpl.
    - pose proof (RfmFacts.to_datetime_length _ _ _ Hd) as Hlen.
      rewrite length_map in Hlen.
      unfold rfm_segmentation_analysis.
      rewrite RfmFacts.set_order_date_column by auto.
      rewrite RfmFacts.to_datetime_parsed.
      now rewrite RfmFacts.set_order_date_again by auto.
    - unfold rfm_segmentation_analysis. now rewrite Hd. }
  rewrite E. auto.
Qed.

(** C8, as stated, fails: a call on a table whose dates are text replaces
    the [order_date] column of the caller's table. *)
Lemma input_table_changed :
  fst (rfm_segmentation_analysis Sample.iso_date Sample.orders) <> Sample.orders.
Proof. vm_compute. discriminate. Qed.

(** C8, amended. The only effect of a call on the caller's table is the
    assignment of line 21: the rows and every column but [order_date] are
    unchanged; [order_date] holds the parsed timestamps when the dates
    parse, and the table is unchanged when parsing raises or when the
    column held timestamps already. *)
Theorem rfm_frame_effect parse (df : DataFrame) :
  let df' := fst (rfm_segmentation_analysis parse df) in
  length df' = length df /\
  map customer_id df' = map customer_id df /\
  map transaction_id df' = map transaction_id df /\
  map final_amount_inr df' = map final_amount_inr df /\
  map attributes df' = map attributes df /\
  match to_datetime parse (map order_date df) with
  | Ok dates => map order_date df' = map Datetime dates
  | Raise _ => df' = df
  end /\
  (Forall Spec.is_datetime (map order_date df) -> df' = df).
Proof.
  cbv zeta. unfold rfm_segmentation_analysis.
  destruct (to_datetime parse (map order_date df)) as [dates | e] eqn:Hd; simpl.
  - pose proof (RfmFacts.to_datetime_length _ _ _ Hd) as Hlen.
    rewrite length_map in Hlen.
    destruct (RfmFacts.set_order_date_frame df dates) as (A & B & C & D).
    repeat split; auto using RfmFacts.set_order_date_length,
                             RfmFacts.set_order_date_column.
    intro Hall.
    destruct (RfmFacts.to_datetime_datetime parse df Hall) as (dates' & Hd' & Hs).
    rewrite Hd in Hd'. now injection Hd' as <-.
  - repeat split; auto.
Qed.

(** ** The database manager *)

Module DatabaseFacts.
Import Database.


Lemma get_connection_succeeds (d : driver) (log : list string) (c : nat) :
  pool_get_connection d = Ok c ->
  get_connection d log = (log, Ok (PyConnection c)).
Proof.
  intro H. unfold get_connection, try_except_Error, mbind, call, ret.
  now rewrite H.
Qed.

Lemma release_quiet (d : driver) (log : list string) :
  is_connected d = false \/ close d = Ok tt -> release d log = (log, Ok tt).
Proof.
  unfold release, call, ret. intros [H | H].
  - now rewrite H.
  - rewrite H. now destruct (is_connected d).
Qed.

(** An exception outside the driver's [Error] hierarchy is not caught. *)
Lemma execute_query_propagates (d : driver) (query : string) (log : list string)
    (c : nat) (msg : string) :
  pool_get_connection d = Ok c ->
  read_sql d query = Raise (OtherException msg) ->
  is_connected d = false \/ close d = Ok tt ->
  execute_query d query log = (log, Raise (OtherException msg)).
Proof.
  intros Hc Hq Hrel. unfold execute_query, mbind at 1.
  rewrite (get_connection_succeeds d log c Hc). simpl.
  unfold try_finally, try_except_Error, mbind, call, ret.
  rewrite Hq. now rewrite (release_quiet d _ Hrel).
Qed.

(** An exception of [rollback] leaves the handler of [execute_update]. *)
Lemma execute_update_rollback_raises (d : driver) (query : string) (log : list string)
    (c : nat) (msg msg' : string) :
  pool_get_connection d = Ok c ->
  cursor d = Ok tt ->
  cursor_execute d query = Raise (MySQLError msg) ->
  rollback d = Raise (MySQLError msg') ->
  is_connected d = false \/ close d = Ok tt ->
  execute_update d query log = (log, Raise (MySQLError msg')).
Proof.
  intros Hc Hcur Hex Hrb Hrel. unfold execute_update, mbind at 1.
  rewrite (get_connection_succeeds d log c Hc). simpl.
  unfold try_finally, try_except_Error, mbind, call, ret.
  rewrite Hcur, Hex, Hrb. now rewrite (release_quiet d _ Hrel).
Qed.

End DatabaseFacts.

(** A query that the server refuses leaves [execute_query] as the
    exception of pandas: nothing is logged and nothing is returned. *)
Example refused_query_raises :
  Database.execute_query Drivers.statement_refused "SELECT * FROM missing" []
  = ([], Raise (OtherException
                  "Execution failed on sql 'SELECT * FROM missing': 1146 (42S02): Table does not exist")).
Proof. reflexivity. Qed.




(** ** The RFM page *)

Module EdaFacts.
Import EdaQ3.

Lemma astype_int_cells (cells : list (option Z)) (vs : list Z) :
  astype_int cells = Ok vs -> cells = map Some vs.
Proof.
  revert vs. induction cells as [| c cells IH]; intros vs H; simpl in H.
  - now injection H as <-.
  - destruct c as [v |]; [| discriminate].
    destruct (astype_int cells) as [vs' |]; simpl in H; [| discriminate].
    injection H as <-. simpl. f_equal. now apply IH.
Qed.

(** A column cut into five bins and converted holds scores 1 to 5. *)
Lemma quintile_scores (x labels : list Z) (vs : list Z) :
  labels = [5; 4; 3; 2; 1] \/ labels = [1; 2; 3; 4; 5] ->
  bind (Pandas.qcut x 5 labels) astype_int = Ok vs ->
  Forall (fun v => 1 <= v <= 5) vs.
Proof.
  intros Hl H.
  destruct (Pandas.qcut x 5 labels) as [cells |] eqn:E; simpl in H; [| discriminate].
  apply astype_int_cells in H. subst cells.
  apply PandasFacts.qcut_labelled in E; [| lia | destruct Hl as [-> | ->]; discriminate].
  rewrite Forall_forall in *. intros v Hv.
  destruct (E (Some v) (in_map Some vs v Hv)) as (l & El & Hin).
  injection El as ->. destruct Hl as [-> | ->]; simpl in Hin; lia.
Qed.

Lemma build_rows_In (ids : list string) (rec freq mon r f m : list Z) (p : row) :
  In p (build_rows ids rec freq mon r f m) ->
  In (R_Score p) r /\ In (F_Score p) f /\ In (M_Score p) m /\
  RFM_Score p = R_Score p + F_Score p + M_Score p /\
  Segment p = segment_customer (R_Score p) (F_Score p) (M_Score p).
Proof.
  revert rec freq mon r f m.
  induction ids as [| i ids IH];
    intros [| a rec] [| b freq] [| c mon] [| x r] [| y f] [| z m] H;
    simpl in H; try contradiction.
  destruct H as [<- | H]; simpl; [tauto |].
  apply IH in H. tauto.
Qed.

(** On the page the scores run from 1 to 5, their sum from 3 to 15, and
    the label is computed from the three scores. *)
Lemma page_scores (generator : Type) (seed : Z -> generator)
    (exponential_int : Z -> nat -> generator -> list Z * generator)
    (lognormal_int : Z -> Z -> nat -> generator -> list Z * generator)
    (st : app_state generator) (pg : page) (p : row) :
  snd (eda_q3 generator seed exponential_int lognormal_int st) = Ok pg ->
  In p (rfm_df pg) ->
  1 <= R_Score p <= 5 /\ 1 <= F_Score p <= 5 /\ 1 <= M_Score p <= 5 /\
  3 <= RFM_Score p <= 15 /\
  Segment p = segment_customer (R_Score p) (F_Score p) (M_Score p).
Proof.
  unfold eda_q3.
  destruct (exponential_int 80 n_customers (seed 42)) as [recency g1].
  destruct (exponential_int 8 n_customers g1) as [frequency g2].
  destruct (lognormal_int 95 15 n_customers g2) as [monetary g3].
  cbn [snd].
  set (ids := map customer_name (seq 0 n_customers)). clearbody ids.
  set (rec := map (clip 0 365) recency). set (freq := map (clip 1 100) frequency).
  set (mon := map (clip 1000 200000) monetary). clearbody rec freq mon.
  destruct (Pandas.qcut rec 5 [5; 4; 3; 2; 1]) as [rc |] eqn:Erc; [| discriminate].
  cbn [bind]. destruct (astype_int rc) as [r |] eqn:Er; [| discriminate].
  cbn [bind].
  destruct (Pandas.qcut (Pandas.rank_first freq) 5 [1; 2; 3; 4; 5]) as [fc |] eqn:Efc;
    [| discriminate].
  cbn [bind]. destruct (astype_int fc) as [f |] eqn:Ef; [| discriminate].
  cbn [bind].
  destruct (Pandas.qcut (Pandas.rank_first mon) 5 [1; 2; 3; 4; 5]) as [mc |] eqn:Emc;
    [| discriminate].
  cbn [bind]. destruct (astype_int mc) as [m |] eqn:Em; [| discriminate].
  cbn [bind]. intro H. injection H as <-. cbn [rfm_df]. intro Hp.
  apply build_rows_In in Hp as (Hr & Hf & Hm & Hsum & Hseg).
  assert (Sr : Forall (fun v => 1 <= v <= 5) r).
  { apply (quintile_scores rec [5; 4; 3; 2; 1]); auto. now rewrite Erc. }
  assert (Sf : Forall (fun v => 1 <= v <= 5) f).
  { apply (quintile_scores (Pandas.rank_first freq) [1; 2; 3; 4; 5]); auto.
    now rewrite Efc. }
  assert (Sm : Forall (fun v => 1 <= v <= 5) m).
  { apply (quintile_scores (Pandas.rank_first mon) [1; 2; 3; 4; 5]); auto.
    now rewrite Emc. }
  rewrite Forall_forall in Sr, Sf, Sm.
  specialize (Sr _ Hr). specialize (Sf _ Hf). specialize (Sm _ Hm).
  repeat split; auto; lia.
Qed.

End EdaFacts.

(** The page labels by the three scores, not by their sum: two score
    triples with the sum 12 and different labels. *)
Remark page_segment_not_by_sum :
  EdaQ3.segment_customer 5 5 2 <> EdaQ3.segment_customer 4 4 4.
Proof. vm_compute. discriminate. Qed.

(** C10. The page [eda_q3] seeds the generator before it draws, and reads
    nothing of the loaded transaction table: what it shows (scores,
    segments, counts, or the exception) and the generator it leaves behind
    are the same for any two states of the application, whatever table
    they hold; the table itself is left as it was. *)
Theorem eda_q3_independent_of_dataset
    (generator : Type) (seed : Z -> generator)
    (exponential_int : Z -> nat -> generator -> list Z * generator)
    (lognormal_int : Z -> Z -> nat -> generator -> list Z * generator)
    (st1 st2 : EdaQ3.app_state generator) :
  let run := EdaQ3.eda_q3 generator seed exponential_int lognormal_int in
  snd (run st1) = snd (run st2) /\
  EdaQ3.np_random generator (fst (run st1)) = EdaQ3.np_random generator (fst (run st2)) /\
  EdaQ3.session_df generator (fst (run st1)) = EdaQ3.session_df generator st1.
Proof.
  cbv zeta. unfold EdaQ3.eda_q3.
  destruct (exponential_int 80 EdaQ3.n_customers (seed 42)) as [recency g1].
  destruct (exponential_int 8 EdaQ3.n_customers g1) as [frequency g2].
  destruct (lognormal_int 95 15 EdaQ3.n_customers g2) as [monetary g3].
  cbn [fst snd EdaQ3.session_df EdaQ3.np_random]. auto.
Qed.

(** ** The table of the RFM page *)

Module PageFacts.
Import EdaQ3.



(** What a returned table of the page is made of. *)
Lemma rfm_table_inv (ids : list string) (rec freq mon : list Z) (t : list row) :
  Page.rfm_table ids rec freq mon = Ok t ->
  length rec = length ids /\ length freq = length ids /\ length mon = length ids /\
  exists r f m,
    Pandas.qcut rec 5 [5; 4; 3; 2; 1] = Ok (map Some r) /\
    Pandas.qcut (Pandas.rank_first freq) 5 [1; 2; 3; 4; 5] = Ok (map Some f) /\
    Pandas.qcut (Pandas.rank_first mon) 5 [1; 2; 3; 4; 5] = Ok (map Some m) /\
    length r = length ids /\ length f = length ids /\ length m = length ids /\
    t = build_rows ids rec freq mon r f m.
Proof.
  unfold Page.rfm_table.
  destruct (Nat.eqb_spec (length rec) (length ids)) as [L1 |]; [| discriminate].
  destruct (Nat.eqb_spec (length freq) (length ids)) as [L2 |]; [| discriminate].
  destruct (Nat.eqb_spec (length mon) (length ids)) as [L3 |]; [| discriminate].
  cbn [andb negb].
  destruct (Pandas.qcut rec 5 [5; 4; 3; 2; 1]) as [rc |] eqn:Erc; [| discriminate].
  cbn [bind]. destruct (astype_int rc) as [r |] eqn:Er; [| discriminate].
  cbn [bind].
  destruct (Pandas.qcut (Pandas.rank_first freq) 5 [1; 2; 3; 4; 5]) as [fc |] eqn:Efc;
    [| discriminate].
  cbn [bind]. destruct (astype_int fc) as [f |] eqn:Ef; [| discriminate].
  cbn [bind].
  destruct (Pandas.qcut (Pandas.rank_first mon) 5 [1; 2; 3; 4; 5]) as [mc |] eqn:Emc;
    [| discriminate].
  cbn [bind]. destruct (astype_int mc) as [m |] eqn:Em; [| discriminate].
  cbn [bind]. intro H. injection H as <-.
  apply EdaFacts.astype_int_cells in Er, Ef, Em. subst rc fc mc.
  pose proof (PandasFacts.qcut_length _ _ _ _ Erc) as Hr.
  pose proof (PandasFacts.qcut_length _ _ _ _ Efc) as Hf.
  pose proof (PandasFacts.qcut_length _ _ _ _ Emc) as Hm.
  rewrite length_map in Hr, Hf, Hm.
  destruct (RankFacts.rank_first_stable freq) as [Lf _].
  destruct (RankFacts.rank_first_stable mon) as [Lm _].
  repeat split; auto.
  exists r, f, m. repeat split; auto; congruence.
Qed.

(** [eda_q3] builds this table from its clipped draws, whenever each draw
    has the size that was asked for. *)
Lemma eda_q3_table (generator : Type) (seed : Z -> generator)
    (exponential_int : Z -> nat -> generator -> list Z * generator)
    (lognormal_int : Z -> Z -> nat -> generator -> list Z * generator)
    (st : app_state generator)
    (recency frequency monetary : list Z) (g1 g2 g3 : generator) :
  exponential_int 80 n_customers (seed 42) = (recency, g1) ->
  exponential_int 8 n_customers g1 = (frequency, g2) ->
  lognormal_int 95 15 n_customers g2 = (monetary, g3) ->
  length recency = n_customers -> length frequency = n_customers ->
  length monetary = n_customers ->
  snd (eda_q3 generator seed exponential_int lognormal_int st)
  = (t <- Page.rfm_table (map customer_name (seq 0 n_customers))
            (map (clip 0 365) recency) (map (clip 1 100) frequency)
            (map (clip 1000 200000) monetary) ;;
     Ok {| rfm_df := t; segment_stats := count_by_segment t |})%py.
Proof.
  intros E1 E2 E3 L1 L2 L3. unfold eda_q3, Page.rfm_table.
  rewrite E1, E2, E3. cbn [snd].
  rewrite !length_map, length_seq, L1, L2, L3, Nat.eqb_refl. cbn [andb negb].
  set (ids := map customer_name (seq 0 n_customers)).
  set (rec := map (clip 0 365) recency). set (freq := map (clip 1 100) frequency).
  set (mon := map (clip 1000 200000) monetary).
  destruct (Pandas.qcut rec 5 [5; 4; 3; 2; 1]) as [rc |]; [| reflexivity].
  cbn [bind]. destruct (astype_int rc) as [r |]; [| reflexivity].
  cbn [bind].
  destruct (Pandas.qcut (Pandas.rank_first freq) 5 [1; 2; 3; 4; 5]) as [fc |];
    [| reflexivity].
  cbn [bind]. destruct (astype_int fc) as [f |]; [| reflexivity].
  cbn [bind].
  destruct (Pandas.qcut (Pandas.rank_first mon) 5 [1; 2; 3; 4; 5]) as [mc |];
    [| reflexivity].
  cbn [bind]. destruct (astype_int mc) as [m |]; reflexivity.
Qed.







End PageFacts.




(** C6, as stated, fails on the RFM page: in the table of ten customers
    [Sample3] the combined score of CUST_00006 is 13, and CUST_00004 and
    CUST_00008 have the same combined score, 9, and different segment
    labels. *)
Lemma page_label_not_by_combined_score :
  Page.rfm_table Sample3.ids Sample3.recency Sample3.frequency Sample3.monetary
  = Ok Runs3.page_table /\
  exists p q r,
    nth_error Runs3.page_table 6 = Some p /\ nth_error Runs3.page_table 4 = Some q /\
    nth_error Runs3.page_table 8 = Some r /\
    EdaQ3.RFM_Score p = 13 /\
    EdaQ3.RFM_Score q = 9 /\ EdaQ3.RFM_Score r = 9 /\
    EdaQ3.Segment q = "Loyal (Loyal Customers)"%string /\
    EdaQ3.Segment r = "Potential (Potential)"%string /\
    EdaQ3.Segment q <> EdaQ3.Segment r.
Proof.
  split; [vm_compute; reflexivity |].
  eexists. eexists. eexists. split; [vm_compute; reflexivity |].
  split; [vm_compute; reflexivity |]. split; [vm_compute; reflexivity |].
  repeat split. vm_compute. discriminate.
Qed.

(** C6, amended. For every profile of a table returned by
    [rfm_segmentation_analysis] the combined score is the sum of the three
    quartile scores and lies between 3 and 12, and the segment label is a
    function of the combined score alone: it is [segment_customer] of that
    score, so two profiles with the same combined score carry the same
    label. For every row of the table of the page [eda_q3] the three
    scores lie between 1 and 5, the combined score is their sum and lies
    between 3 and 15, and the segment label is the page's
    [segment_customer] of the three scores. *)
Theorem combined_score_range parse (df df' : DataFrame) (out : rfm_output) (p : profile)
    (ids : list string) (rec freq mon : list Z) (t : list EdaQ3.row) (row : EdaQ3.row) :
  rfm_segmentation_analysis parse df = (df', Ok out) -> In p (rfm out) ->
  Page.rfm_table ids rec freq mon = Ok t -> In row t ->
  ((exists r f m score,
      r_score p = Some r /\ f_score p = Some f /\ m_score p = Some m /\
      rfm_score p = Some score /\ score = r + f + m /\
      3 <= score <= 12 /\
      segment p = segment_customer score) /\
   (forall p', In p' (rfm out) -> rfm_score p' = rfm_score p -> segment p' = segment p)) /\
  (1 <= EdaQ3.R_Score row <= 5 /\ 1 <= EdaQ3.F_Score row <= 5 /\
   1 <= EdaQ3.M_Score row <= 5 /\
   EdaQ3.RFM_Score row = EdaQ3.R_Score row + EdaQ3.F_Score row + EdaQ3.M_Score row /\
   3 <= EdaQ3.RFM_Score row <= 15 /\
   EdaQ3.Segment row
   = EdaQ3.segment_customer (EdaQ3.R_Score row) (EdaQ3.F_Score row) (EdaQ3.M_Score row)).
Proof.
  intros H Hp Ht Hrow. split.
  - destruct (RfmFacts.rfm_scores_defined _ _ _ _ _ H Hp)
      as (a & b & c & Ha & Hb & Hc & Ra & Rb & Rc & Hs & Hseg).
    split.
    + exists a, b, c, (a + b + c). repeat split; auto; lia.
    + intros p' Hp' E.
      destruct (RfmFacts.rfm_scores_defined _ _ _ _ _ H Hp')
        as (a' & b' & c' & _ & _ & _ & _ & _ & _ & Hs' & Hseg').
      rewrite Hs, Hs' in E. injection E as E. now rewrite Hseg, Hseg', E.
  - apply PageFacts.rfm_table_inv in Ht
      as (_ & _ & _ & r & f & m & Hr & Hf & Hm & _ & _ & _ & ->).
    apply EdaFacts.build_rows_In in Hrow as (Ir & If & Im & Hsum & Hseg).
    assert (Sr : Forall (fun v => 1 <= v <= 5) r).
    { apply (EdaFacts.quintile_scores rec [5; 4; 3; 2; 1]); auto.
      rewrite Hr. cbn [bind]. clear. induction r as [| v r IH]; [reflexivity |].
      cbn [map EdaQ3.astype_int]. now rewrite IH. }
    assert (Sf : Forall (fun v => 1 <= v <= 5) f).
    { apply (EdaFacts.quintile_scores (Pandas.rank_first freq) [1; 2; 3; 4; 5]); auto.
      rewrite Hf. cbn [bind]. clear. induction f as [| v f IH]; [reflexivity |].
      cbn [map EdaQ3.astype_int]. now rewrite IH. }
    assert (Sm : Forall (fun v => 1 <= v <= 5) m).
    { apply (EdaFacts.quintile_scores (Pandas.rank_first mon) [1; 2; 3; 4; 5]); auto.
      rewrite Hm. cbn [bind]. clear. induction m as [| v m IH]; [reflexivity |].
      cbn [map EdaQ3.astype_int]. now rewrite IH. }
    rewrite Forall_forall in Sr, Sf, Sm.
    specialize (Sr _ Ir). specialize (Sf _ If). specialize (Sm _ Im).
    repeat split; auto; lia.
Qed.

Lemma combined_score_range_witness :
  ((exists r f m score,
      r_score Runs.profile_C2 = Some r /\ f_score Runs.profile_C2 = Some f /\
      m_score Runs.profile_C2 = Some m /\
      rfm_score Runs.profile_C2 = Some score /\ score = r + f + m /\
      3 <= score <= 12 /\
      segment Runs.profile_C2 = segment_customer score) /\
   (forall p', In p' (rfm Runs.orders_output) ->
      rfm_score p' = rfm_score Runs.profile_C2 -> segment p' = segment Runs.profile_C2)) /\
  (let row := Runs3.row_CUST_00006 in
   1 <= EdaQ3.R_Score row <= 5 /\ 1 <= EdaQ3.F_Score row <= 5 /\
   1 <= EdaQ3.M_Score row <= 5 /\
   EdaQ3.RFM_Score row = EdaQ3.R_Score row + EdaQ3.F_Score row + EdaQ3.M_Score row /\
   3 <= EdaQ3.RFM_Score row <= 15 /\
   EdaQ3.Segment row
   = EdaQ3.segment_customer (EdaQ3.R_Score row) (EdaQ3.F_Score row) (EdaQ3.M_Score row)).
Proof.
  apply (combined_score_range Sample.iso_date Sample.orders
           Runs.orders_after Runs.orders_output Runs.profile_C2
           Sample3.ids Sample3.recency Sample3.frequency Sample3.monetary Runs3.page_table
           Runs3.row_CUST_00006).
  - vm_compute. reflexivity.
  - simpl. right. left. reflexivity.
  - vm_compute. reflexivity.
  - vm_compute. do 6 right. left. reflexivity.
Defined.

(** ** Further properties of the procedure *)

Module ExtraFacts.

Lemma series_sum_app (l1 l2 : list Z) :
  Pandas.series_sum (l1 ++ l2) = Pandas.series_sum l1 + Pandas.series_sum l2.
Proof. induction l1 as [| a l1 IH]; simpl; [reflexivity | rewrite IH; lia]. Qed.

Lemma series_sum_add {A : Type} (f g : A -> Z) (l : list A) :
  Pandas.series_sum (map (fun a => f a + g a) l)
  = Pandas.series_sum (map f l) + Pandas.series_sum (map g l).
Proof. induction l as [| a l IH]; simpl; [reflexivity | rewrite IH; lia]. Qed.

Lemma series_sum_ones {A : Type} (l : list A) :
  Pandas.series_sum (map (fun _ => 1) l) = Z.of_nat (length l).
Proof. induction l as [| a l IH]; cbn [map Pandas.series_sum fold_right length]; [reflexivity |].
  unfold Pandas.series_sum in IH. rewrite IH. lia. Qed.

(** Among distinct keys exactly one is the key of a given item. *)
Lemma indicator_sum (keys : list string) (k : string) (w : Z) :
  NoDup keys -> In k keys ->
  Pandas.series_sum (map (fun k' => if String.eqb k k' then w else 0) keys) = w.
Proof.
  induction 1 as [| a keys Ha Hnd IH]; intro Hin; [destruct Hin |].
  cbn [map Pandas.series_sum fold_right].
  fold (Pandas.series_sum (map (fun k' => if String.eqb k k' then w else 0) keys)).
  destruct (String.eqb_spec k a) as [-> | Hne].
  - assert (E : Pandas.series_sum (map (fun k' => if String.eqb a k' then w else 0) keys) = 0).
    { clear IH Hnd Hin. induction keys as [| b keys IHk]; [reflexivity |].
      cbn [map Pandas.series_sum fold_right].
      fold (Pandas.series_sum (map (fun k' => if String.eqb a k' then w else 0) keys)).
      destruct (String.eqb_spec a b) as [-> | _]; [exfalso; apply Ha; now left |].
      rewrite IHk; [reflexivity |]. intro H. apply Ha. now right. }
    rewrite E. lia.
  - rewrite IH; [lia |]. destruct Hin as [-> | Hin]; [congruence | exact Hin].
Qed.

(** Grouping by a key and adding up the groups adds up everything, when
    the keys are distinct and cover the items. *)
Lemma partition_sum {A : Type} (key : A -> string) (w : A -> Z)
    (keys : list string) (l : list A) :
  NoDup keys -> (forall a, In a l -> In (key a) keys) ->
  Pandas.series_sum
    (map (fun k => Pandas.series_sum (map w (filter (fun a => String.eqb (key a) k) l))) keys)
  = Pandas.series_sum (map w l).
Proof.
  intros Hnd. induction l as [| a l IH]; intro Hcov.
  - clear Hnd Hcov. induction keys as [| k keys IHk]; [reflexivity |].
    simpl in *. exact IHk.
  - assert (E : forall k,
        Pandas.series_sum (map w (filter (fun a0 => String.eqb (key a0) k) (a :: l)))
        = (if String.eqb (key a) k then w a else 0)
          + Pandas.series_sum (map w (filter (fun a0 => String.eqb (key a0) k) l))).
    { intro k. cbn [filter]. destruct (String.eqb (key a) k); reflexivity. }
    rewrite (map_ext _ _ E), series_sum_add.
    rewrite indicator_sum; auto; [| apply Hcov; now left].
    rewrite IH; [reflexivity |]. intros b Hb. apply Hcov. now right.
Qed.

Lemma partition_count {A : Type} (key : A -> string) (keys : list string) (l : list A) :
  NoDup keys -> (forall a, In a l -> In (key a) keys) ->
  Pandas.series_sum
    (map (fun k => Z.of_nat (length (filter (fun a => String.eqb (key a) k) l))) keys)
  = Z.of_nat (length l).
Proof.
  intros Hnd Hcov.
  rewrite <- (series_sum_ones l), <- (partition_sum key (fun _ => 1) keys l Hnd Hcov).
  f_equal. apply map_ext. intro k. now rewrite series_sum_ones.
Qed.

End ExtraFacts.

Module ExtraRfm.

Lemma leb_ne_ltb (a b : string) : String.leb a b = true -> a <> b -> String.ltb a b = true.
Proof.
  unfold String.leb, String.ltb. intros H Hne.
  destruct (String.compare a b) eqn:E; auto.
  apply String.compare_eq_iff in E. contradiction.
Qed.

Lemma sorted_keys_strict (l : list string) :
  Sorted (fun a b => is_true (String.leb a b)) l -> NoDup l ->
  Sorted (fun a b => String.ltb a b = true) l.
Proof.
  induction 1 as [| a l Hs IH Hd]; intro Hnd; constructor.
  - apply IH. now inversion Hnd.
  - inversion Hnd as [| ? ? Hnotin _]; subst.
    destruct Hd as [| b l Hab]; constructor.
    apply leb_ne_ltb; auto. intros ->. apply Hnotin. now left.
Qed.

Lemma group_keys_sorted (df : DataFrame) :
  Sorted (fun a b => String.ltb a b = true) (group_keys df).
Proof.
  apply sorted_keys_strict; [apply StringSort.Sorted_sort | apply RfmFacts.group_keys_NoDup].
Qed.

(** The pieces of a returned call, with the lengths of the score columns. *)
Lemma returned parse (df df' : DataFrame) (out : rfm_output) :
  rfm_segmentation_analysis parse df = (df', Ok out) ->
  exists dates r f m,
    to_datetime parse (map order_date df) = Ok dates /\
    length dates = length df /\
    df' = set_order_date df dates /\
    let table := groupby_agg (reference_date df') df' in
    Pandas.qcut (map m_recency table) 4 [4; 3; 2; 1] = Ok r /\
    Pandas.qcut (Pandas.rank_first (map m_frequency table)) 4 [1; 2; 3; 4] = Ok f /\
    Pandas.qcut (map m_monetary table) 4 [1; 2; 3; 4] = Ok m /\
    rfm out = score_rows table r f m /\
    length r = length table /\ length f = length table /\ length m = length table /\
    map p_customer_id (rfm out) = map m_customer_id table /\
    map recency (rfm out) = map m_recency table /\
    map frequency (rfm out) = map m_frequency table /\
    map monetary (rfm out) = map m_monetary table.
Proof.
  intro H. pose proof H as H0.
  apply RfmFacts.rfm_returns in H
    as (dates & r & f & m & Hd & Hdf & Hr & Hf & Hm & Hout & _).
  destruct (RfmFacts.rfm_returns_lengths _ _ _ _ Hr Hf Hm) as (Lr & Lf & Lm).
  destruct (RfmFacts.score_rows_metrics _ _ _ _ Lr Lf Lm) as (A & B & C & D).
  rewrite <- Hout in A, B, C, D.
  pose proof (RfmFacts.to_datetime_length _ _ _ Hd) as Hlen. rewrite length_map in Hlen.
  exists dates, r, f, m. cbv zeta. repeat split; auto.
Qed.

End ExtraRfm.

(** X1. Aggregation loses and invents nothing: in a returned table the
    frequencies add up to the number of input records and the monetary
    values add up to the total of the input amounts. *)
Theorem rfm_conserves_totals parse (df df' : DataFrame) (out : rfm_output) :
  rfm_segmentation_analysis parse df = (df', Ok out) ->
  Pandas.series_sum (map frequency (rfm out)) = Z.of_nat (length df) /\
  Pandas.series_sum (map monetary (rfm out)) = Pandas.series_sum (map final_amount_inr df).
Proof.
  intro H.
  apply ExtraRfm.returned in H
    as (dates & r & f & m & Hd & Hlen & Hdf & _ & _ & _ & _ & _ & _ & _ & _ & _ & Ef & Em).
  rewrite Ef, Em. unfold groupby_agg. rewrite !map_map. cbn [aggregate m_frequency m_monetary].
  assert (Hcov : forall t, In t df' -> In (customer_id t) (group_keys df')).
  { intros t Ht. apply RfmFacts.group_keys_In. now apply in_map. }
  split.
  - unfold group_rows.
    rewrite (ExtraFacts.partition_count customer_id (group_keys df') df'
               (RfmFacts.group_keys_NoDup df') Hcov).
    now rewrite Hdf, RfmFacts.set_order_date_length.
  - unfold group_rows.
    rewrite (ExtraFacts.partition_sum customer_id final_amount_inr (group_keys df') df'
               (RfmFacts.group_keys_NoDup df') Hcov).
    rewrite Hdf. now destruct (RfmFacts.set_order_date_frame df dates) as (_ & _ & -> & _).
Qed.

Lemma rfm_conserves_totals_witness :
  Pandas.series_sum (map frequency (rfm Runs.orders_output)) = Z.of_nat (length Sample.orders) /\
  Pandas.series_sum (map monetary (rfm Runs.orders_output))
  = Pandas.series_sum (map final_amount_inr Sample.orders).
Proof.
  apply (rfm_conserves_totals Sample.iso_date Sample.orders Runs.orders_after).
  vm_compute. reflexivity.
Defined.

(** X2. The rows of a returned table are in strictly ascending order of
    the customer identifier (the order of the group keys), whatever the
    order of the input records. *)
Theorem rfm_rows_sorted_by_customer parse (df df' : DataFrame) (out : rfm_output) :
  rfm_segmentation_analysis parse df = (df', Ok out) ->
  Sorted (fun a b => String.ltb a b = true) (map p_customer_id (rfm out)).
Proof.
  intro H.
  apply ExtraRfm.returned in H
    as (dates & r & f & m & _ & _ & _ & _ & _ & _ & _ & _ & _ & _ & Eid & _).
  rewrite Eid, RfmFacts.groupby_agg_keys. apply ExtraRfm.group_keys_sorted.
Qed.

Lemma rfm_rows_sorted_by_customer_witness :
  Sorted (fun a b => String.ltb a b = true) (map p_customer_id (rfm Runs.orders_output)).
Proof.
  apply (rfm_rows_sorted_by_customer Sample.iso_date Sample.orders Runs.orders_after).
  vm_compute. reflexivity.
Defined.

Module ExtraRecency.

Lemma records_of_covers (df : DataFrame) (dates : list Z) (d : Z) :
  length dates = length df -> In d dates ->
  exists c, In c (map customer_id df) /\ In d (map fst (Spec.records_of c df dates)).
Proof.
  revert dates. induction df as [| t df IH]; intros [| d0 dates] Hlen Hd; simpl in *;
    try discriminate; try contradiction.
  destruct Hd as [-> | Hd].
  - exists (customer_id t). split; [now left |].
    destruct (string_dec (customer_id t) (customer_id t)); [now left | congruence].
  - destruct (IH dates ltac:(lia) Hd) as (c & Hc & Hin).
    exists c. split; [now right |].
    destruct (string_dec (customer_id t) c); [now right | exact Hin].
Qed.

(** The recency of a row of the aggregated table, from the records of
    its customer. *)
Lemma row_recency (df : DataFrame) (dates : list Z) (k : string) :
  length dates = length df ->
  let df1 := set_order_date df dates in
  m_recency (aggregate (reference_date df1) df1 k)
  = (Pandas.series_max dates + day
     - Pandas.series_max (map fst (Spec.records_of k df dates))) / day.
Proof.
  intros Hlen df1. cbn [aggregate m_recency].
  destruct (RfmFacts.group_rows_records df dates k Hlen) as (A & _).
  fold df1 in A. rewrite A. unfold reference_date, df1.
  now rewrite converted_dates.
Qed.

End ExtraRecency.

(** X3. In a returned table every recency is at least one day, and the
    customer of the latest record has the recency of exactly one day: the
    reference date is one day after the latest record. *)
Theorem recency_at_least_one_day parse (df df' : DataFrame) (out : rfm_output) :
  rfm_segmentation_analysis parse df = (df', Ok out) ->
  (forall p, In p (rfm out) -> 1 <= recency p) /\
  exists p, In p (rfm out) /\ recency p = 1.
Proof.
  intro H.
  apply ExtraRfm.returned in H
    as (dates & r & f & m & Hd & Hlen & Hdf & Hr & _ & _ & _ & _ & _ & _ & _ & Erec & _).
  subst df'. set (df1 := set_order_date df dates) in *.
  assert (Hrows : forall k, In k (group_keys df1) ->
            let recs := Spec.records_of k df dates in
            recs <> [] /\
            m_recency (aggregate (reference_date df1) df1 k)
            = (Pandas.series_max dates + day - Pandas.series_max (map fst recs)) / day).
  { intros k Hk recs. split; [| now apply ExtraRecency.row_recency].
    apply RfmFacts.records_of_nonempty; auto.
    unfold df1 in Hk. rewrite converted_keys in Hk. now apply RfmFacts.group_keys_In. }
  assert (Htable : groupby_agg (reference_date df1) df1 <> []).
  { destruct (PandasFacts.qcut_full_bins _ _ _ _ Hr eq_refl ltac:(lia)) as [Hx _].
    intro E. apply Hx. now rewrite E. }
  assert (Hdates : dates <> []).
  { intros ->. destruct df; [| discriminate]. apply Htable. reflexivity. }
  destruct (RfmFacts.series_max_latest dates Hdates) as [Hin Hmax].
  split.
  - intros p Hp.
    assert (Hr' : In (recency p) (map m_recency (groupby_agg (reference_date df1) df1))).
    { rewrite <- Erec. now apply in_map. }
    unfold groupby_agg in Hr'. rewrite map_map in Hr'.
    apply in_map_iff in Hr' as (k & <- & Hk).
    destruct (Hrows k Hk) as [Hne ->].
    assert (Hf : map fst (Spec.records_of k df dates) <> []).
    { destruct (Spec.records_of k df dates); [congruence | discriminate]. }
    destruct (RfmFacts.series_max_latest _ Hf) as [Hc _].
    apply RfmFacts.records_of_dates in Hc. specialize (Hmax _ Hc).
    apply Z.div_le_lower_bound; unfold day in *; lia.
  - destruct (ExtraRecency.records_of_covers df dates _ Hlen Hin) as (c & Hc & Hin').
    assert (Hk : In c (group_keys df1)).
    { unfold df1. rewrite converted_keys. now apply RfmFacts.group_keys_In. }
    destruct (Hrows c Hk) as [Hne E].
    assert (Hf : map fst (Spec.records_of c df dates) <> []).
    { destruct (Spec.records_of c df dates); [congruence | discriminate]. }
    destruct (RfmFacts.series_max_latest _ Hf) as [Hc1 Hc2].
    apply RfmFacts.records_of_dates in Hc1. specialize (Hmax _ Hc1).
    specialize (Hc2 _ Hin').
    assert (E1 : m_recency (aggregate (reference_date df1) df1 c) = 1).
    { rewrite E.
      replace (Pandas.series_max dates + day
               - Pandas.series_max (map fst (Spec.records_of c df dates))) with day by lia.
      reflexivity. }
    assert (Hin1 : In 1 (map recency (rfm out))).
    { rewrite Erec. unfold groupby_agg. rewrite map_map.
      apply in_map_iff. exists c. split; auto. }
    apply in_map_iff in Hin1 as (p & Hp1 & Hp2). exists p. auto.
Qed.

Lemma recency_at_least_one_day_witness :
  (forall p, In p (rfm Runs.orders_output) -> 1 <= recency p) /\
  exists p, In p (rfm Runs.orders_output) /\ recency p = 1.
Proof.
  apply (recency_at_least_one_day Sample.iso_date Sample.orders Runs.orders_after).
  vm_compute. reflexivity.
Defined.

(** X4. The [statistics] of a returned call agree with its table:
    [champion_count] is the number of profiles whose combined score is 10
    or more, and it does not exceed [total_customers], the number of
    distinct customers of the input. *)
Theorem statistics_agree_with_table parse (df df' : DataFrame) (out : rfm_output) :
  rfm_segmentation_analysis parse df = (df', Ok out) ->
  champion_count out
  = length (filter (fun p => match rfm_score p with
                             | Some s => 10 <=? s
                             | None => false
                             end) (rfm out)) /\
  (champion_count out <= total_customers out)%nat /\
  total_customers out = length (nodup string_dec (map customer_id df)).
Proof.
  intro H. pose proof H as H0.
  apply RfmFacts.rfm_returns in H
    as (dates & r & f & m & _ & _ & _ & _ & _ & _ & Ht & Hc).
  split; [| split].
  - rewrite Hc. f_equal. apply filter_ext_in. intros p Hp.
    destruct (RfmFacts.rfm_scores_defined _ _ _ _ _ H0 Hp)
      as (a & b & c & _ & _ & _ & _ & _ & _ & Hs & Hseg).
    rewrite Hs, Hseg.
    destruct (RfmFacts.segment_customer_thresholds (a + b + c)) as (T & _).
    destruct (Z.leb_spec 10 (a + b + c)) as [L | L].
    + apply String.eqb_eq. now apply T.
    + apply String.eqb_neq. intro E. apply T in E. lia.
  - rewrite Hc, Ht. apply filter_length_le.
  - rewrite Ht.
    apply ExtraRfm.returned in H0
      as (dates' & r' & f' & m' & _ & _ & Hdf & _ & _ & _ & _ & _ & _ & _ & Eid & _).
    rewrite <- (length_map p_customer_id), Eid, RfmFacts.groupby_agg_keys.
    rewrite Hdf, converted_keys. apply RfmFacts.group_keys_length.
Qed.

Lemma statistics_agree_with_table_witness :
  champion_count Runs.orders_output
  = length (filter (fun p => match rfm_score p with
                             | Some s => 10 <=? s
                             | None => false
                             end) (rfm Runs.orders_output)) /\
  (champion_count Runs.orders_output <= total_customers Runs.orders_output)%nat /\
  total_customers Runs.orders_output
  = length (nodup string_dec (map customer_id Sample.orders)).
Proof.
  apply (statistics_agree_with_table Sample.iso_date Sample.orders Runs.orders_after).
  vm_compute. reflexivity.
Defined.

Module ExtraScores.
Import Pandas.

Lemma unique_fixed_NoDup (l : list Z) : unique l = l -> NoDup l.
Proof.
  induction l as [| a l IH]; intro H; [constructor |].
  cbn [unique] in H. injection H as H.
  pose proof (filter_length_le (fun y => negb (y =? a)) (unique l)) as L1.
  pose proof (PandasFacts.unique_length l) as L2.
  assert (L3 : length (unique l) = length l).
  { apply (f_equal (@length Z)) in H. lia. }
  pose proof (PandasFacts.unique_same_length l L3) as U.
  rewrite U in H. constructor; [| now apply IH].
  intro Hin. rewrite <- H in Hin. apply filter_In in Hin as [_ Hne].
  rewrite Z.eqb_refl in Hne. discriminate.
Qed.

(** A returning four-bin cut has strictly ascending quartile cut points. *)
Lemma quartiles_strict (x : list Z) (a b c d : Z) (cells : list (option Z)) :
  qcut x 4 [a; b; c; d] = Ok cells ->
  x <> [] /\
  Spec.quartile x 0 < Spec.quartile x 1 /\ Spec.quartile x 1 < Spec.quartile x 2 /\
  Spec.quartile x 2 < Spec.quartile x 3 /\ Spec.quartile x 3 < Spec.quartile x 4.
Proof.
  intro H.
  destruct (PandasFacts.qcut_full_bins _ _ _ _ H eq_refl ltac:(lia)) as [Hx Hb].
  split; auto.
  assert (Hedges : quantile_edges x 4 =
            [Spec.quartile x 0; Spec.quartile x 1; Spec.quartile x 2;
             Spec.quartile x 3; Spec.quartile x 4]).
  { destruct x; [congruence | reflexivity]. }
  assert (Hu : unique (quantile_edges x 4) = quantile_edges x 4).
  { pose proof (PandasFacts.quantile_edges_length x 4 Hx) as L.
    unfold drop_duplicates in Hb. rewrite L in Hb.
    destruct ((length (unique (quantile_edges x 4)) <? 5)%nat) eqn:E;
      cbn [andb negb Nat.eqb] in Hb; [exact Hb |].
    apply Nat.ltb_ge in E. apply PandasFacts.unique_same_length.
    pose proof (PandasFacts.unique_length (quantile_edges x 4)). lia. }
  apply unique_fixed_NoDup in Hu. rewrite Hedges in Hu.
  destruct (PandasFacts.quartiles_ordered x Hx) as (O0 & O1 & O2 & O3).
  inversion Hu as [| ? ? N0 Hu1]; subst. inversion Hu1 as [| ? ? N1 Hu2]; subst.
  inversion Hu2 as [| ? ? N2 Hu3]; subst. inversion Hu3 as [| ? ? N3 _]; subst.
  simpl in N0, N1, N2, N3. lia.
Qed.

Lemma quartile_rank_mono (x : list Z) (v w : Z) :
  v <= w -> Spec.quartile_rank x v <= Spec.quartile_rank x w.
Proof.
  intro H. unfold Spec.quartile_rank.
  destruct (Z.leb_spec (4 * v) (Spec.quartile x 1)),
           (Z.leb_spec (4 * w) (Spec.quartile x 1)); try lia;
  destruct (Z.leb_spec (4 * v) (Spec.quartile x 2)),
           (Z.leb_spec (4 * w) (Spec.quartile x 2)); try lia;
  destruct (Z.leb_spec (4 * v) (Spec.quartile x 3)),
           (Z.leb_spec (4 * w) (Spec.quartile x 3)); lia.
Qed.

Lemma quartile_0_min (x : list Z) (v : Z) :
  In v x -> (forall w, In w x -> v <= w) -> Spec.quartile x 0 = 4 * v.
Proof.
  intros Hv Hmin. unfold Spec.quartile.
  rewrite PandasFacts.quantile_scaled_first by lia.
  pose proof (PandasFacts.sorted_bounds _ v (PandasFacts.sort_sorted x)
                (proj2 (PandasFacts.sort_In x v) Hv)) as [Hlo _].
  assert (Hin : In (iloc (ZSort.sort x) 0) x).
  { apply PandasFacts.sort_In. unfold iloc. apply nth_In.
    rewrite PandasFacts.sort_length. destruct x; [destruct Hv | cbn [length]; lia]. }
  specialize (Hmin _ Hin). lia.
Qed.

Lemma quartile_4_max (x : list Z) (v : Z) :
  In v x -> (forall w, In w x -> w <= v) -> Spec.quartile x 4 = 4 * v.
Proof.
  intros Hv Hmax. unfold Spec.quartile.
  rewrite PandasFacts.quantile_scaled_last by lia.
  pose proof (PandasFacts.sorted_bounds _ v (PandasFacts.sort_sorted x)
                (proj2 (PandasFacts.sort_In x v) Hv)) as [_ Hhi].
  assert (Hin : In (iloc (ZSort.sort x) (Z.of_nat (length (ZSort.sort x)) - 1)) x).
  { apply PandasFacts.sort_In. unfold iloc. apply nth_In.
    rewrite PandasFacts.sort_length. destruct x; [destruct Hv | cbn [length]; lia]. }
  specialize (Hmax _ Hin). lia.
Qed.

(** Under strictly ascending cut points the smallest value has rank 1 and
    the largest rank 4. *)
Lemma quartile_rank_extremes (x : list Z) (v : Z) :
  Spec.quartile x 0 <= Spec.quartile x 1 -> Spec.quartile x 1 <= Spec.quartile x 2 ->
  Spec.quartile x 2 <= Spec.quartile x 3 -> Spec.quartile x 3 < Spec.quartile x 4 ->
  In v x ->
  ((forall w, In w x -> v <= w) -> Spec.quartile_rank x v = 1) /\
  ((forall w, In w x -> w <= v) -> Spec.quartile_rank x v = 4).
Proof.
  intros O0 O1 O2 O3 Hv. split; intro Hext.
  - pose proof (quartile_0_min x v Hv Hext) as E. unfold Spec.quartile_rank.
    destruct (Z.leb_spec (4 * v) (Spec.quartile x 1)); [reflexivity | lia].
  - pose proof (quartile_4_max x v Hv Hext) as E. unfold Spec.quartile_rank.
    destruct (Z.leb_spec (4 * v) (Spec.quartile x 1)); [lia |].
    destruct (Z.leb_spec (4 * v) (Spec.quartile x 2)); [lia |].
    destruct (Z.leb_spec (4 * v) (Spec.quartile x 3)); [lia | reflexivity].
Qed.

(** A non-empty column has a smallest and a largest entry. *)
Lemma column_extremes (x : list Z) :
  x <> [] ->
  (exists v, In v x /\ forall w, In w x -> v <= w) /\
  (exists v, In v x /\ forall w, In w x -> w <= v).
Proof.
  intro Hx.
  assert (Hlen : (0 < length (ZSort.sort x))%nat).
  { rewrite PandasFacts.sort_length. destruct x; [congruence | simpl; lia]. }
  split.
  - exists (iloc (ZSort.sort x) 0). split.
    + apply PandasFacts.sort_In. unfold iloc. now apply nth_In.
    + intros w Hw. apply PandasFacts.sort_In in Hw.
      now apply (PandasFacts.sorted_bounds _ w (PandasFacts.sort_sorted x)).
  - exists (iloc (ZSort.sort x) (Z.of_nat (length (ZSort.sort x)) - 1)). split.
    + apply PandasFacts.sort_In. unfold iloc. apply nth_In. lia.
    + intros w Hw. apply PandasFacts.sort_In in Hw.
      now apply (PandasFacts.sorted_bounds _ w (PandasFacts.sort_sorted x)).
Qed.

(** The scores of the row at position [i] of a returned table, as
    quartile ranks of its entries in the three columns. *)
Lemma returned_scores parse (df df' : DataFrame) (out : rfm_output) (i : nat) (p : profile) :
  rfm_segmentation_analysis parse df = (df', Ok out) ->
  nth_error (rfm out) i = Some p ->
  let ranking := rank_first (map frequency (rfm out)) in
  nth_error ranking i = Some (nth i ranking 0) /\
  r_score p = Some (5 - Spec.quartile_rank (map recency (rfm out)) (recency p)) /\
  f_score p = Some (Spec.quartile_rank ranking (nth i ranking 0)) /\
  m_score p = Some (Spec.quartile_rank (map monetary (rfm out)) (monetary p)).
Proof.
  intros H Hp ranking.
  apply ExtraRfm.returned in H
    as (dates & r & f & m & _ & _ & _ & Hr & Hf & Hm & Hout & _ & _ & _ & _ & Mr & Mf & Mm).
  rewrite <- Mr in Hr. rewrite <- Mf in Hf. rewrite <- Mm in Hm.
  fold ranking in Hf.
  apply PandasFacts.qcut4_rank in Hr, Hf, Hm.
  pose proof Hp as Hp'. rewrite Hout in Hp.
  apply RfmFacts.score_rows_nth in Hp as (row & a & b & c & Hrow & Ha & Hb & Hc & Ep).
  assert (Ernk : nth_error ranking i = Some (nth i ranking 0)).
  { apply nth_error_nth'.
    destruct (RankFacts.rank_first_stable (map frequency (rfm out))) as [L _].
    fold ranking in L. rewrite L, length_map. apply nth_error_Some. congruence. }
  rewrite Hr in Ha. rewrite (map_nth_error _ _ _ (map_nth_error recency _ _ Hp')) in Ha.
  rewrite Hf in Hb. rewrite (map_nth_error _ _ _ Ernk) in Hb.
  rewrite Hm in Hc. rewrite (map_nth_error _ _ _ (map_nth_error monetary _ _ Hp')) in Hc.
  rewrite quartile_rank_label in Ha, Hb, Hc.
  injection Ha as Ha. injection Hb as Hb. injection Hc as Hc.
  split; [exact Ernk |].
  split; [| split].
  - rewrite Ep at 1. simpl. rewrite <- Ha.
    destruct (quartile_rank_cases (map recency (rfm out)) (recency p)) as [E | [E | [E | E]]];
      rewrite E; reflexivity.
  - rewrite Ep at 1. simpl. rewrite <- Hb.
    destruct (quartile_rank_cases ranking (nth i ranking 0)) as [E | [E | [E | E]]];
      rewrite E; reflexivity.
  - rewrite Ep at 1. simpl. rewrite <- Hc.
    destruct (quartile_rank_cases (map monetary (rfm out)) (monetary p)) as [E | [E | [E | E]]];
      rewrite E; reflexivity.
Qed.

(** The cut points of the three columns of a returned table ascend
    strictly. *)
Lemma returned_quartiles parse (df df' : DataFrame) (out : rfm_output) :
  rfm_segmentation_analysis parse df = (df', Ok out) ->
  forall col, In col [map recency (rfm out);
                      rank_first (map frequency (rfm out));
                      map monetary (rfm out)] ->
    col <> [] /\
    Spec.quartile col 0 < Spec.quartile col 1 /\ Spec.quartile col 1 < Spec.quartile col 2 /\
    Spec.quartile col 2 < Spec.quartile col 3 /\ Spec.quartile col 3 < Spec.quartile col 4.
Proof.
  intro H.
  apply ExtraRfm.returned in H
    as (dates & r & f & m & _ & _ & _ & Hr & Hf & Hm & _ & _ & _ & _ & _ & Mr & Mf & Mm).
  rewrite <- Mr in Hr. rewrite <- Mf in Hf. rewrite <- Mm in Hm.
  intros col [<- | [<- | [<- | []]]]; eapply quartiles_strict; eauto.
Qed.

End ExtraScores.

(** X5. Scores follow the metrics: of two profiles of a returned
    table, the one with the smaller recency never has the lower recency
    score, and the one with the larger monetary value never has the lower
    monetary score (so equal values get equal scores). *)
Theorem scores_monotone parse (df df' : DataFrame) (out : rfm_output) (p q : profile) :
  rfm_segmentation_analysis parse df = (df', Ok out) ->
  In p (rfm out) -> In q (rfm out) ->
  (recency p <= recency q -> cell_le (r_score q) (r_score p)) /\
  (monetary p <= monetary q -> cell_le (m_score p) (m_score q)).
Proof.
  intros H Hp Hq.
  apply In_nth_error in Hp as [i Hi]. apply In_nth_error in Hq as [j Hj].
  destruct (ExtraScores.returned_scores _ _ _ _ _ _ H Hi) as (_ & Rp & _ & Mp).
  destruct (ExtraScores.returned_scores _ _ _ _ _ _ H Hj) as (_ & Rq & _ & Mq).
  rewrite Rp, Rq, Mp, Mq. cbn [cell_le]. split; intro Hle.
  - pose proof (ExtraScores.quartile_rank_mono (map recency (rfm out)) _ _ Hle). lia.
  - now apply ExtraScores.quartile_rank_mono.
Qed.

Lemma scores_monotone_witness :
  let p := Runs.profile_C2 in
  let q := {| p_customer_id := "C3"; recency := 66; frequency := 1; monetary := 700;
              r_score := Some 2; f_score := Some 1; m_score := Some 2;
              rfm_score := Some 5; segment := "At Risk" |} in
  (recency p <= recency q -> cell_le (r_score q) (r_score p)) /\
  (monetary p <= monetary q -> cell_le (m_score p) (m_score q)).
Proof.
  apply (scores_monotone Sample.iso_date Sample.orders Runs.orders_after Runs.orders_output).
  - vm_compute. reflexivity.
  - simpl. right. left. reflexivity.
  - simpl. right. right. left. reflexivity.
Defined.

(** X6. The frequency score follows the frequency, with ties in row
    order: of two rows of a returned table, a row with a smaller
    frequency, or with the same frequency and not below the other row,
    never has the higher frequency score. *)
Theorem frequency_score_order parse (df df' : DataFrame) (out : rfm_output)
    (i j : nat) (p q : profile) :
  rfm_segmentation_analysis parse df = (df', Ok out) ->
  nth_error (rfm out) i = Some p -> nth_error (rfm out) j = Some q ->
  frequency p < frequency q \/ (frequency p = frequency q /\ (i <= j)%nat) ->
  cell_le (f_score p) (f_score q).
Proof.
  intros H Hi Hj Hord.
  destruct (ExtraScores.returned_scores _ _ _ _ _ _ H Hi) as (_ & _ & Fp & _).
  destruct (ExtraScores.returned_scores _ _ _ _ _ _ H Hj) as (_ & _ & Fq & _).
  rewrite Fp, Fq. cbn [cell_le]. apply ExtraScores.quartile_rank_mono.
  set (x := map frequency (rfm out)).
  destruct (RankFacts.rank_first_stable x) as (_ & _ & Hst).
  assert (Li : (i < length x)%nat).
  { unfold x. rewrite length_map. apply nth_error_Some. congruence. }
  assert (Lj : (j < length x)%nat).
  { unfold x. rewrite length_map. apply nth_error_Some. congruence. }
  assert (Ei : nth i x 0 = frequency p).
  { apply nth_error_nth. unfold x. now apply map_nth_error. }
  assert (Ej : nth j x 0 = frequency q).
  { apply nth_error_nth. unfold x. now apply map_nth_error. }
  destruct (Nat.lt_trichotomy i j) as [L | [-> | L]].
  - specialize (Hst i j ltac:(lia)). rewrite Ei, Ej in Hst.
    destruct (Z.leb_spec (frequency p) (frequency q)); lia.
  - lia.
  - specialize (Hst j i ltac:(lia)). rewrite Ei, Ej in Hst.
    destruct (Z.leb_spec (frequency q) (frequency p)); lia.
Qed.

Lemma frequency_score_order_witness :
  let p := {| p_customer_id := "C1"; recency := 2; frequency := 2; monetary := 500;
              r_score := Some 4; f_score := Some 3; m_score := Some 1;
              rfm_score := Some 8; segment := "Loyal Customers" |} in
  cell_le (f_score p) (f_score Runs.profile_C2).
Proof.
  apply (frequency_score_order Sample.iso_date Sample.orders Runs.orders_after
           Runs.orders_output 0 1).
  - vm_compute. reflexivity.
  - reflexivity.
  - reflexivity.
  - right. split; [reflexivity | lia].
Defined.

(** X7. In a returned table the extremes get the extreme scores: the
    most recent customers score 4 on recency and the least recent 1, the
    customers who spent least score 1 on monetary and those who spent most
    4; and each of the three score columns holds both a 1 and a 4. *)
Theorem extreme_scores parse (df df' : DataFrame) (out : rfm_output) :
  rfm_segmentation_analysis parse df = (df', Ok out) ->
  (forall p, In p (rfm out) ->
     ((forall q, In q (rfm out) -> recency p <= recency q) -> r_score p = Some 4) /\
     ((forall q, In q (rfm out) -> recency q <= recency p) -> r_score p = Some 1) /\
     ((forall q, In q (rfm out) -> monetary p <= monetary q) -> m_score p = Some 1) /\
     ((forall q, In q (rfm out) -> monetary q <= monetary p) -> m_score p = Some 4)) /\
  (forall s, In s [1; 4] ->
     In (Some s) (map r_score (rfm out)) /\
     In (Some s) (map f_score (rfm out)) /\
     In (Some s) (map m_score (rfm out))).
Proof.
  intro H.
  pose proof (ExtraScores.returned_quartiles _ _ _ _ H) as Hq.
  set (recs := map recency (rfm out)) in *.
  set (ranking := Pandas.rank_first (map frequency (rfm out))) in *.
  set (mons := map monetary (rfm out)) in *.
  destruct (Hq recs ltac:(simpl; auto)) as (Nr & R0 & R1 & R2 & R3).
  destruct (Hq ranking ltac:(simpl; auto)) as (Nf & F0 & F1 & F2 & F3).
  destruct (Hq mons ltac:(simpl; auto)) as (Nm & M0 & M1 & M2 & M3).
  assert (Hext : forall p, In p (rfm out) ->
     ((forall q, In q (rfm out) -> recency p <= recency q) -> r_score p = Some 4) /\
     ((forall q, In q (rfm out) -> recency q <= recency p) -> r_score p = Some 1) /\
     ((forall q, In q (rfm out) -> monetary p <= monetary q) -> m_score p = Some 1) /\
     ((forall q, In q (rfm out) -> monetary q <= monetary p) -> m_score p = Some 4)).
  { intros p Hp. pose proof Hp as Hp0. apply In_nth_error in Hp as [i Hi].
    destruct (ExtraScores.returned_scores _ _ _ _ _ _ H Hi) as (_ & Rp & _ & Mp).
    fold recs in Rp. fold mons in Mp.
    destruct (ExtraScores.quartile_rank_extremes recs (recency p)) as [Rmin Rmax];
      try lia. { unfold recs. now apply in_map. }
    destruct (ExtraScores.quartile_rank_extremes mons (monetary p)) as [Mmin Mmax];
      try lia. { unfold mons. now apply in_map. }
    repeat split; intro Hall.
    - rewrite Rp, Rmin; [reflexivity |]. intros w Hw.
      apply in_map_iff in Hw as (q & <- & Hq'). now apply Hall.
    - rewrite Rp, Rmax; [reflexivity |]. intros w Hw.
      apply in_map_iff in Hw as (q & <- & Hq'). now apply Hall.
    - rewrite Mp, Mmin; [reflexivity |]. intros w Hw.
      apply in_map_iff in Hw as (q & <- & Hq'). now apply Hall.
    - rewrite Mp, Mmax; [reflexivity |]. intros w Hw.
      apply in_map_iff in Hw as (q & <- & Hq'). now apply Hall. }
  split; [exact Hext |].
  destruct (ExtraScores.column_extremes recs Nr) as ((rmin & Irmin & Hrmin) & (rmax & Irmax & Hrmax)).
  destruct (ExtraScores.column_extremes mons Nm) as ((mmin & Immin & Hmmin) & (mmax & Immax & Hmmax)).
  destruct (ExtraScores.column_extremes ranking Nf) as ((fmin & Ifmin & Hfmin) & (fmax & Ifmax & Hfmax)).
  assert (Hrow : forall (g : profile -> Z) v, In v (map g (rfm out)) ->
            exists p, In p (rfm out) /\ g p = v).
  { intros g v Hv. apply in_map_iff in Hv as (p & E & Hp). eauto. }
  assert (Hall : forall (g : profile -> Z) p (R : Z -> Z -> Prop),
            (forall w, In w (map g (rfm out)) -> R (g p) w) ->
            forall q, In q (rfm out) -> R (g p) (g q)).
  { intros g p R Hw q Hq'. apply Hw. now apply in_map. }
  assert (Hfrow : forall v, In v ranking ->
            exists p, In p (rfm out) /\ f_score p = Some (Spec.quartile_rank ranking v)).
  { intros v Hv. destruct (In_nth _ _ 0 Hv) as (i & Li & Ei).
    assert (Lo : (i < length (rfm out))%nat).
    { unfold ranking, Pandas.rank_first in Li.
      now rewrite RankFacts.rank_first_from_length, length_map in Li. }
    destruct (nth_error (rfm out) i) as [p |] eqn:Hi;
      [| apply nth_error_None in Hi; lia].
    destruct (ExtraScores.returned_scores _ _ _ _ _ _ H Hi) as (_ & _ & Fp & _).
    fold ranking in Fp. rewrite Ei in Fp.
    exists p. split; [eapply nth_error_In; eauto | exact Fp]. }
  destruct (ExtraScores.quartile_rank_extremes ranking fmin) as [Fmin _]; try lia; auto.
  destruct (ExtraScores.quartile_rank_extremes ranking fmax) as [_ Fmax]; try lia; auto.
  destruct (Hfrow fmin Ifmin) as (pf1 & Ipf1 & Epf1). rewrite (Fmin Hfmin) in Epf1.
  destruct (Hfrow fmax Ifmax) as (pf4 & Ipf4 & Epf4). rewrite (Fmax Hfmax) in Epf4.
  destruct (Hrow recency rmin Irmin) as (pr4 & Ipr4 & Epr4).
  destruct (Hrow recency rmax Irmax) as (pr1 & Ipr1 & Epr1).
  destruct (Hrow monetary mmin Immin) as (pm1 & Ipm1 & Epm1).
  destruct (Hrow monetary mmax Immax) as (pm4 & Ipm4 & Epm4).
  destruct (Hext pr4 Ipr4) as (A4 & _ & _ & _).
  destruct (Hext pr1 Ipr1) as (_ & A1 & _ & _).
  destruct (Hext pm1 Ipm1) as (_ & _ & B1 & _).
  destruct (Hext pm4 Ipm4) as (_ & _ & _ & B4).
  assert (E4 : r_score pr4 = Some 4).
  { apply A4. intros q Hq'. rewrite Epr4. apply Hrmin. now apply in_map. }
  assert (E1 : r_score pr1 = Some 1).
  { apply A1. intros q Hq'. rewrite Epr1. apply Hrmax. now apply in_map. }
  assert (G1 : m_score pm1 = Some 1).
  { apply B1. intros q Hq'. rewrite Epm1. apply Hmmin. now apply in_map. }
  assert (G4 : m_score pm4 = Some 4).
  { apply B4. intros q Hq'. rewrite Epm4. apply Hmmax. now apply in_map. }
  intros s [<- | [<- | []]]; repeat split.
  - rewrite <- E1. now apply in_map.
  - rewrite <- Epf1. now apply in_map.
  - rewrite <- G1. now apply in_map.
  - rewrite <- E4. now apply in_map.
  - rewrite <- Epf4. now apply in_map.
  - rewrite <- G4. now apply in_map.
Qed.

Lemma extreme_scores_witness :
  let out := Runs.orders_output in
  (forall p, In p (rfm out) ->
     ((forall q, In q (rfm out) -> recency p <= recency q) -> r_score p = Some 4) /\
     ((forall q, In q (rfm out) -> recency q <= recency p) -> r_score p = Some 1) /\
     ((forall q, In q (rfm out) -> monetary p <= monetary q) -> m_score p = Some 1) /\
     ((forall q, In q (rfm out) -> monetary q <= monetary p) -> m_score p = Some 4)) /\
  (forall s, In s [1; 4] ->
     In (Some s) (map r_score (rfm out)) /\
     In (Some s) (map f_score (rfm out)) /\
     In (Some s) (map m_score (rfm out))).
Proof.
  apply (extreme_scores Sample.iso_date Sample.orders Runs.orders_after Runs.orders_output).
  vm_compute. reflexivity.
Defined.

Module ExtraReturn.
Import Pandas.

Lemma quantile_edges_quartiles (x : list Z) :
  x <> [] ->
  quantile_edges x 4 =
  [Spec.quartile x 0; Spec.quartile x 1; Spec.quartile x 2;
   Spec.quartile x 3; Spec.quartile x 4].
Proof. destruct x; [congruence | reflexivity]. Qed.

Lemma strict_edges_unique (x : list Z) :
  strict_quartiles x -> unique (quantile_edges x 4) = quantile_edges x 4.
Proof.
  intros (Hx & Q0 & Q1 & Q2 & Q3). apply RankFacts.unique_NoDup.
  rewrite (quantile_edges_quartiles x Hx).
  repeat (apply NoDup_cons; [cbn [In]; lia |]). apply NoDup_nil.
Qed.

(** All cut points of a column with a single entry coincide. *)
Lemma quartile_singleton (v k : Z) : Spec.quartile [v] k = 4 * v.
Proof.
  unfold Spec.quartile, quantile_scaled.
  change (ZSort.sort [v]) with [v]. cbn [length].
  change (Z.of_nat 1 - 1) with 0. rewrite Z.mul_0_l.
  change (0 / 4) with 0. change (0 mod 4) with 0. cbn. lia.
Qed.

Lemma strict_quartiles_two (x : list Z) : strict_quartiles x -> (2 <= length x)%nat.
Proof.
  intros (Hx & Q0 & _). destruct x as [| v [| w x]]; [congruence | | simpl; lia].
  rewrite !quartile_singleton in Q0. lia.
Qed.

End ExtraReturn.

(** X8. When the dates parse, the procedure returns a table exactly when
    the quartile cut points of the recencies ascend strictly and so do
    those of the monetary values; the frequencies put no condition. In
    every other case it raises. *)
Theorem rfm_returns_iff parse (df : DataFrame) (dates : list Z) :
  to_datetime parse (map order_date df) = Ok dates ->
  let df1 := set_order_date df dates in
  let table := groupby_agg (reference_date df1) df1 in
  (exists out, snd (rfm_segmentation_analysis parse df) = Ok out) <->
  strict_quartiles (map m_recency table) /\ strict_quartiles (map m_monetary table).
Proof.
  intros Hd df1 table. split.
  - intros [out Hout].
    destruct (rfm_segmentation_analysis parse df) as [df' res] eqn:E.
    simpl in Hout. subst res.
    apply ExtraRfm.returned in E
      as (dates' & r & f & m & Hd' & _ & Hdf & Hr & _ & Hm & _).
    rewrite Hd in Hd'. injection Hd' as <-. subst df'.
    fold df1 in Hr, Hm. fold table in Hr, Hm.
    split; eapply ExtraScores.quartiles_strict; eauto.
  - intros [Sr Sm].
    destruct (RfmFacts.rfm_returns_when_edges_distinct parse df dates Hd) as [out Hout].
    + fold df1. fold table.
      rewrite <- (length_map m_recency). now apply ExtraReturn.strict_quartiles_two.
    + now apply ExtraReturn.strict_edges_unique.
    + now apply ExtraReturn.strict_edges_unique.
    + exists out. now rewrite Hout.
Qed.

Lemma rfm_returns_iff_witness :
  let df1 := set_order_date Sample.orders Runs.orders_dates in
  let table := groupby_agg (reference_date df1) df1 in
  (exists out, snd (rfm_segmentation_analysis Sample.iso_date Sample.orders) = Ok out) <->
  strict_quartiles (map m_recency table) /\ strict_quartiles (map m_monetary table).
Proof.
  apply (rfm_returns_iff Sample.iso_date Sample.orders Runs.orders_dates).
  vm_compute. reflexivity.
Defined.

(** X9. With fewer than two distinct customers the procedure cannot
    return: when the dates parse it raises the ValueError of [qcut], also
    on an empty table. *)
Theorem fewer_than_two_customers_raise parse (df : DataFrame) (dates : list Z) :
  to_datetime parse (map order_date df) = Ok dates ->
  (length (nodup string_dec (map customer_id df)) <= 1)%nat ->
  snd (rfm_segmentation_analysis parse df)
  = Raise (ValueError "Bin labels must be one fewer than the number of bin edges").
Proof.
  intros Hd Hn.
  unfold rfm_segmentation_analysis. rewrite Hd. cbn [snd].
  set (df1 := set_order_date df dates).
  set (table := groupby_agg (reference_date df1) df1).
  assert (Hlen : (length (map m_recency table) <= 1)%nat).
  { unfold table. rewrite length_map, <- (length_map m_customer_id).
    rewrite RfmFacts.groupby_agg_keys. unfold df1.
    now rewrite converted_keys, RfmFacts.group_keys_length. }
  unfold score_and_segment.
  destruct (map m_recency table) as [| v [| w l]] eqn:E; [reflexivity | | simpl in Hlen; lia].
  rewrite (PandasFacts.qcut_collapsed_edges_raise [v] 4 [4; 3; 2; 1]); auto;
    try discriminate.
  rewrite (ExtraReturn.quantile_edges_quartiles [v]) by discriminate.
  rewrite !ExtraReturn.quartile_singleton. cbn [Pandas.unique filter].
  rewrite Z.eqb_refl. cbn. discriminate.
Qed.

Lemma fewer_than_two_customers_raise_witness :
  snd (rfm_segmentation_analysis Sample.iso_date Sample2.one_customer)
  = Raise (ValueError "Bin labels must be one fewer than the number of bin edges").
Proof.
  apply (fewer_than_two_customers_raise Sample.iso_date Sample2.one_customer
           [19782 * day; 19792 * day]).
  - vm_compute. reflexivity.
  - vm_compute. lia.
Defined.

Module ExtraFour.
Import Pandas.

Lemma count_lt_perm (l l' : list Z) (v : Z) :
  Permutation l l' -> count_lt l v = count_lt l' v.
Proof.
  intro P. unfold count_lt. f_equal.
  induction P as [| a l l' P IH | a b l | l l' l'' P1 IH1 P2 IH2]; cbn [filter].
  - reflexivity.
  - destruct (a <? v); cbn [length]; lia.
  - destruct (a <? v), (b <? v); reflexivity.
  - lia.
Qed.

(** In a column of four distinct values the cut points ascend strictly and
    the quartile rank of a value is one more than the number of smaller
    values. *)
Lemma four_distinct (x : list Z) :
  length x = 4%nat -> NoDup x ->
  strict_quartiles x /\
  forall v, In v x -> Spec.quartile_rank x v = 1 + count_lt x v.
Proof.
  intros Hlen Hnd.
  pose proof (ZSort.Permuted_sort x) as P.
  pose proof (RankFacts.sorted_NoDup_strict _ (PandasFacts.sort_sorted x)
                (Permutation_NoDup P Hnd)) as Hs.
  pose proof (PandasFacts.sort_length x) as L. rewrite Hlen in L.
  assert (Hx : x <> []) by (intros ->; discriminate).
  assert (Hq : forall k, Spec.quartile x k = quantile_scaled 4 (ZSort.sort x) k)
    by reflexivity.
  assert (Hc : forall v, count_lt x v = count_lt (ZSort.sort x) v)
    by (intro v; now apply count_lt_perm).
  assert (Hin : forall v, In v x -> In v (ZSort.sort x))
    by (intros v Hv; now apply PandasFacts.sort_In).
  destruct (ZSort.sort x) as [| s0 [| s1 [| s2 [| s3 [| s4 s]]]]]; try discriminate.
  inversion Hs as [| ? ? Hs1 F0]; subst. inversion Hs1 as [| ? ? Hs2 F1]; subst.
  inversion Hs2 as [| ? ? _ F2]; subst.
  rewrite Forall_forall in F0, F1, F2.
  pose proof (F0 s1 ltac:(simpl; auto)). pose proof (F1 s2 ltac:(simpl; auto)).
  pose proof (F2 s3 ltac:(simpl; auto)).
  assert (E0 : Spec.quartile x 0 = 4 * s0 + (s1 - s0) * 0) by (rewrite Hq; reflexivity).
  assert (E1 : Spec.quartile x 1 = 4 * s0 + (s1 - s0) * 3) by (rewrite Hq; reflexivity).
  assert (E2 : Spec.quartile x 2 = 4 * s1 + (s2 - s1) * 2) by (rewrite Hq; reflexivity).
  assert (E3 : Spec.quartile x 3 = 4 * s2 + (s3 - s2) * 1) by (rewrite Hq; reflexivity).
  assert (E4 : Spec.quartile x 4 = 4 * s3 + (s3 - s3) * 0) by (rewrite Hq; reflexivity).
  split.
  - unfold strict_quartiles. rewrite E0, E1, E2, E3, E4. repeat split; auto; lia.
  - intros v Hv. rewrite Hc. unfold Spec.quartile_rank. rewrite E1, E2, E3.
    unfold count_lt. cbn [filter].
    apply Hin in Hv. cbn [In] in Hv.
    destruct (Z.ltb_spec s0 v), (Z.ltb_spec s1 v), (Z.ltb_spec s2 v), (Z.ltb_spec s3 v);
      try lia;
      destruct (Z.leb_spec (4 * v) (4 * s0 + (s1 - s0) * 3));
      destruct (Z.leb_spec (4 * v) (4 * s1 + (s2 - s1) * 2));
      destruct (Z.leb_spec (4 * v) (4 * s2 + (s3 - s2) * 1));
      cbn [length]; lia.
Qed.

(** The ranks of four rows are 1 to 4, and each is its own quartile
    rank. *)
Lemma four_ranks (x : list Z) (v : Z) :
  length x = 4%nat -> In v (rank_first x) ->
  Spec.quartile_rank (rank_first x) v = v.
Proof.
  intros Hlen Hv.
  assert (L : length (rank_first x) = 4%nat).
  { unfold rank_first. now rewrite RankFacts.rank_first_from_length. }
  destruct (four_distinct (rank_first x) L (RankFacts.rank_first_NoDup x)) as [_ Hr].
  rewrite (Hr v Hv).
  rewrite (count_lt_perm _ _ v (ZSort.Permuted_sort (rank_first x))).
  rewrite RankFacts.sorted_ranks, Hlen.
  apply RankFacts.rank_first_range in Hv. rewrite Hlen in Hv.
  assert (Hcases : v = 1 \/ v = 2 \/ v = 3 \/ v = 4) by lia.
  destruct Hcases as [-> | [-> | [-> | ->]]]; reflexivity.
Qed.

End ExtraFour.

(** X10. Four customers with pairwise distinct recencies and pairwise
    distinct monetary values always get a table, with the scores 1 to 4
    given in order: the recency score is 4 minus the number of customers
    with a smaller recency, the monetary score is 1 plus the number of
    customers with a smaller monetary value, and the frequency score is
    the row's rank in the stable ranking of the frequencies. *)
Theorem four_customers_scores parse (df : DataFrame) (dates : list Z) :
  to_datetime parse (map order_date df) = Ok dates ->
  let df1 := set_order_date df dates in
  let table := groupby_agg (reference_date df1) df1 in
  length table = 4%nat ->
  NoDup (map m_recency table) -> NoDup (map m_monetary table) ->
  exists out,
    snd (rfm_segmentation_analysis parse df) = Ok out /\
    forall i p, nth_error (rfm out) i = Some p ->
      r_score p = Some (4 - Pandas.count_lt (map recency (rfm out)) (recency p)) /\
      f_score p = Some (nth i (Pandas.rank_first (map frequency (rfm out))) 0) /\
      m_score p = Some (1 + Pandas.count_lt (map monetary (rfm out)) (monetary p)).
Proof.
  intros Hd df1 table Hlen Nr Nm.
  destruct (ExtraFour.four_distinct (map m_recency table)) as [Sr Hr];
    [now rewrite length_map | exact Nr |].
  destruct (ExtraFour.four_distinct (map m_monetary table)) as [Sm Hm];
    [now rewrite length_map | exact Nm |].
  destruct (RfmFacts.rfm_returns_when_edges_distinct parse df dates Hd) as [out Hout].
  { fold df1. fold table. lia. }
  { now apply ExtraReturn.strict_edges_unique. }
  { now apply ExtraReturn.strict_edges_unique. }
  exists out. split; [now rewrite Hout |].
  intros i p Hp.
  destruct (ExtraScores.returned_scores _ _ _ _ _ _ Hout Hp) as (Ernk & Rp & Fp & Mp).
  apply ExtraRfm.returned in Hout
    as (dates' & r & f & m & Hd' & _ & Hdf & _ & _ & _ & _ & _ & _ & _ & _ & Erec & Efr & Emon).
  rewrite Hd in Hd'. injection Hd' as <-. clear Hdf.
  unfold table, df1 in *.
  rewrite Rp, Fp, Mp. rewrite Erec, Emon in *.
  rewrite Hr, Hm.
  - rewrite ExtraFour.four_ranks.
    + repeat split; try reflexivity; apply f_equal; lia.
    + now rewrite Efr, length_map.
    + eapply nth_error_In; eauto.
  - rewrite <- Emon. apply in_map. eapply nth_error_In; eauto.
  - rewrite <- Erec. apply in_map. eapply nth_error_In; eauto.
Qed.

Lemma four_customers_scores_witness :
  exists out,
    snd (rfm_segmentation_analysis Sample.iso_date Sample2.four_customers) = Ok out /\
    forall i p, nth_error (rfm out) i = Some p ->
      r_score p = Some (4 - Pandas.count_lt (map recency (rfm out)) (recency p)) /\
      f_score p = Some (nth i (Pandas.rank_first (map frequency (rfm out))) 0) /\
      m_score p = Some (1 + Pandas.count_lt (map monetary (rfm out)) (monetary p)).
Proof.
  apply (four_customers_scores Sample.iso_date Sample2.four_customers Runs2.four_dates).
  - vm_compute. reflexivity.
  - vm_compute. reflexivity.
  - vm_compute. repeat (apply NoDup_cons; [cbn [In]; lia |]). apply NoDup_nil.
  - vm_compute. repeat (apply NoDup_cons; [cbn [In]; lia |]). apply NoDup_nil.
Defined.

Module ExtraOrder.

Lemma ascii_compare_refl (a : ascii) : Ascii.compare a a = Eq.
Proof. unfold Ascii.compare. apply N.compare_refl. Qed.

Lemma string_compare_refl (s : string) : String.compare s s = Eq.
Proof. induction s as [| a s IH]; simpl; auto. now rewrite ascii_compare_refl. Qed.

Lemma string_lt_trans (a b c : string) :
  String.compare a b = Lt -> String.compare b c = Lt -> String.compare a c = Lt.
Proof.
  revert b c. induction a as [| x a IH]; intros [| y b] [| z c]; simpl;
    try discriminate; auto.
  destruct (Ascii.compare x y) eqn:Exy; try discriminate;
    destruct (Ascii.compare y z) eqn:Eyz; try discriminate; intros H1 H2.
  - apply Ascii.compare_eq_iff in Exy, Eyz. subst.
    rewrite ascii_compare_refl. eauto.
  - apply Ascii.compare_eq_iff in Exy. subst. now rewrite Eyz.
  - apply Ascii.compare_eq_iff in Eyz. subst. now rewrite Exy.
  - unfold Ascii.compare in *. rewrite N.compare_lt_iff in *.
    assert (L : (N_of_ascii x < N_of_ascii z)%N) by lia.
    apply N.compare_lt_iff in L. now rewrite L.
Qed.

Lemma ltb_trans (a b c : string) :
  String.ltb a b = true -> String.ltb b c = true -> String.ltb a c = true.
Proof.
  unfold String.ltb. intros H1 H2.
  destruct (String.compare a b) eqn:E1; try discriminate.
  destruct (String.compare b c) eqn:E2; try discriminate.
  now rewrite (string_lt_trans a b c E1 E2).
Qed.

Lemma ltb_irrefl (a : string) : String.ltb a a = false.
Proof. unfold String.ltb. now rewrite string_compare_refl. Qed.

(** Two strictly ascending lists with the same members are equal. *)
Lemma ascending_unique (l l' : list string) :
  Sorted (fun a b => String.ltb a b = true) l ->
  Sorted (fun a b => String.ltb a b = true) l' ->
  (forall x, In x l <-> In x l') -> l = l'.
Proof.
  intros S S'.
  apply Sorted_StronglySorted in S; [| intros a b c; apply ltb_trans].
  apply Sorted_StronglySorted in S'; [| intros a b c; apply ltb_trans].
  revert l' S'. induction S as [| a l Sl IH Ha]; intros l' S' Hin.
  - destruct l' as [| b l']; [reflexivity |].
    exfalso. apply (Hin b). now left.
  - destruct S' as [| b l' Sl' Hb].
    { exfalso. apply (Hin a). now left. }
    rewrite Forall_forall in Ha, Hb.
    assert (E : a = b).
    { destruct (proj1 (Hin a) (or_introl eq_refl)) as [E | Hal]; [now symmetry |].
      destruct (proj2 (Hin b) (or_introl eq_refl)) as [E | Hbl]; [exact E |].
      pose proof (ltb_trans _ _ _ (Ha b Hbl) (Hb a Hal)) as C.
      rewrite ltb_irrefl in C. discriminate. }
    subst b. f_equal. apply IH; auto.
    intro x. split; intro Hx.
    + destruct (proj1 (Hin x) (or_intror Hx)) as [<- | H']; [| exact H'].
      pose proof (Ha _ Hx) as C. rewrite ltb_irrefl in C. discriminate.
    + destruct (proj2 (Hin x) (or_intror Hx)) as [<- | H']; [| exact H'].
      pose proof (Hb _ Hx) as C. rewrite ltb_irrefl in C. discriminate.
Qed.

Lemma filter_perm {A : Type} (f : A -> bool) (l l' : list A) :
  Permutation l l' -> Permutation (filter f l) (filter f l').
Proof.
  induction 1 as [| a l l' P IH | a b l | l l' l'' P1 IH1 P2 IH2]; cbn [filter].
  - constructor.
  - destruct (f a); [now constructor | exact IH].
  - destruct (f a), (f b); try reflexivity. apply perm_swap.
  - etransitivity; eauto.
Qed.

Lemma series_sum_perm (l l' : list Z) :
  Permutation l l' -> Pandas.series_sum l = Pandas.series_sum l'.
Proof.
  induction 1 as [| a l l' P IH | a b l | l l' l'' P1 IH1 P2 IH2]; simpl in *; lia.
Qed.

Lemma series_max_perm (l l' : list Z) :
  Permutation l l' -> Pandas.series_max l = Pandas.series_max l'.
Proof.
  intro P. destruct l as [| a l].
  - apply Permutation_nil in P. now subst.
  - assert (N : a :: l <> []) by discriminate.
    assert (N' : l' <> []).
    { intros ->. apply Permutation_sym, Permutation_nil in P. discriminate. }
    destruct (RfmFacts.series_max_latest _ N) as [I1 M1].
    destruct (RfmFacts.series_max_latest _ N') as [I2 M2].
    pose proof (M2 _ (Permutation_in _ P I1)).
    pose proof (M1 _ (Permutation_in _ (Permutation_sym P) I2)). lia.
Qed.

Lemma group_keys_perm (d1 d2 : DataFrame) :
  Permutation d1 d2 -> group_keys d1 = group_keys d2.
Proof.
  intro P. apply ascending_unique; try apply ExtraRfm.group_keys_sorted.
  intro x. rewrite !RfmFacts.group_keys_In.
  split; apply Permutation_in; [| symmetry]; now apply Permutation_map.
Qed.

(** The aggregated table does not depend on the order of the records. *)
Lemma groupby_agg_perm (d1 d2 : DataFrame) :
  Permutation d1 d2 ->
  groupby_agg (reference_date d1) d1 = groupby_agg (reference_date d2) d2.
Proof.
  intro P. unfold groupby_agg. rewrite (group_keys_perm d1 d2 P).
  assert (R : reference_date d1 = reference_date d2).
  { unfold reference_date. f_equal. apply series_max_perm. now apply Permutation_map. }
  rewrite R. apply map_ext. intro k. unfold aggregate.
  pose proof (filter_perm (fun t => String.eqb (customer_id t) k) d1 d2 P) as Pg.
  fold (group_rows d1 k) in Pg. fold (group_rows d2 k) in Pg.
  f_equal.
  - f_equal. f_equal. apply series_max_perm. now apply Permutation_map.
  - f_equal. now apply Permutation_length.
  - apply series_sum_perm. now apply Permutation_map.
Qed.

(** The conversion of line 21, row by row. *)
Lemma to_datetime_rows parse (df : DataFrame) :
  Forall (fun t => parses parse (order_date t)) df ->
  to_datetime parse (map order_date df) = Ok (map (fun t => stamp parse (order_date t)) df) /\
  set_order_date df (map (fun t => stamp parse (order_date t)) df) = map (parsed_row parse) df.
Proof.
  induction 1 as [| t df Ht Hdf [IH1 IH2]]; [split; reflexivity |].
  cbn [map to_datetime set_order_date]. rewrite IH1, IH2.
  unfold parsed_row at 2. unfold parses in Ht.
  destruct (order_date t) as [s | ns]; cbn [stamp bind].
  - destruct (parse s); [split; reflexivity | congruence].
  - split; reflexivity.
Qed.


(** A column of timestamps needs no parser. *)
Lemma datetime_parses parse (df : DataFrame) :
  Forall Spec.is_datetime (map order_date df) ->
  Forall (fun t => parses parse (order_date t)) df.
Proof.
  induction df as [| t df IH]; intro H; [constructor |].
  cbn [map] in H. inversion H as [| ? ? Ht Hdf]; subst.
  constructor; [| now apply IH].
  unfold parses. now destruct (order_date t).
Qed.

End ExtraOrder.

(** X11. On a table whose [order_date] column holds timestamps already
    (the dashboard loads it with [parse_dates]) the result does not depend
    on the order of the records: the procedure returns the same table, or
    raises the same exception, for every rearrangement of the rows. *)
Theorem rfm_row_order_irrelevant parse (df df2 : DataFrame) :
  Permutation df df2 ->
  Forall Spec.is_datetime (map order_date df) ->
  snd (rfm_segmentation_analysis parse df2) = snd (rfm_segmentation_analysis parse df).
Proof.
  intros P Hd.
  pose proof (ExtraOrder.datetime_parses parse df Hd) as F.
  assert (F2 : Forall (fun t => parses parse (order_date t)) df2).
  { eapply Permutation_Forall; eauto. }
  destruct (ExtraOrder.to_datetime_rows parse df F) as [E1 S1].
  destruct (ExtraOrder.to_datetime_rows parse df2 F2) as [E2 S2].
  unfold rfm_segmentation_analysis. rewrite E1, E2. cbn [snd].
  rewrite S1, S2. f_equal.
  symmetry. apply ExtraOrder.groupby_agg_perm. now apply Permutation_map.
Qed.

Lemma rfm_row_order_irrelevant_witness :
  snd (rfm_segmentation_analysis Sample.iso_date (rev Runs.orders_after))
  = snd (rfm_segmentation_analysis Sample.iso_date Runs.orders_after).
Proof.
  apply (rfm_row_order_irrelevant Sample.iso_date Runs.orders_after (rev Runs.orders_after)).
  - apply Permutation_rev.
  - vm_compute. repeat constructor.
Defined.

Module ExtraSegments.

Lemma segment_in_order parse (df df' : DataFrame) (out : rfm_output) (p : profile) :
  rfm_segmentation_analysis parse df = (df', Ok out) -> In p (rfm out) ->
  In (segment p) Rfm.segment_order.
Proof.
  intros H Hp.
  destruct (RfmFacts.rfm_scores_defined _ _ _ _ _ H Hp)
    as (a & b & c & _ & _ & _ & _ & _ & _ & _ & ->).
  apply segment_customer_label.
Qed.

Lemma segment_order_NoDup : NoDup Rfm.segment_order.
Proof.
  unfold Rfm.segment_order.
  repeat (apply NoDup_cons; [cbn [In]; intuition discriminate |]). apply NoDup_nil.
Qed.

Lemma three_counts {A : Type} (key : A -> string) (a b c : string) (l : list A) :
  a <> b -> a <> c -> b <> c ->
  (length (filter (fun x => String.eqb (key x) a) l)
   + length (filter (fun x => String.eqb (key x) b) l)
   + length (filter (fun x => String.eqb (key x) c) l) <= length l)%nat.
Proof.
  intros Hab Hac Hbc. induction l as [| x l IH]; cbn [filter length]; [lia |].
  destruct (String.eqb_spec (key x) a) as [Ea | _],
           (String.eqb_spec (key x) b) as [Eb | _],
           (String.eqb_spec (key x) c) as [Ec | _];
    try congruence; cbn [length]; lia.
Qed.

(** The monetary values of a returned table add up to the input amounts. *)
Lemma monetary_conserved parse (df df' : DataFrame) (out : rfm_output) :
  rfm_segmentation_analysis parse df = (df', Ok out) ->
  Pandas.series_sum (map monetary (rfm out)) = Pandas.series_sum (map final_amount_inr df).
Proof.
  intro H.
  apply ExtraRfm.returned in H
    as (dates & r & f & m & Hd & Hlen & Hdf & _ & _ & _ & _ & _ & _ & _ & _ & _ & _ & Em).
  rewrite Em. unfold groupby_agg. rewrite !map_map. cbn [aggregate m_monetary].
  assert (Hcov : forall t, In t df' -> In (customer_id t) (group_keys df')).
  { intros t Ht. apply RfmFacts.group_keys_In. now apply in_map. }
  unfold group_rows.
  rewrite (ExtraFacts.partition_sum customer_id final_amount_inr (group_keys df') df'
             (RfmFacts.group_keys_NoDup df') Hcov).
  rewrite Hdf. now destruct (RfmFacts.set_order_date_frame df dates) as (_ & _ & -> & _).
Qed.

End ExtraSegments.

(** X12. The segment counts behind the bar chart account for every
    customer of a returned table: they list the five labels of
    [segment_order] in that order, their numbers add up to
    [total_customers], and a label has NaN exactly when no profile
    carries it. *)
Theorem segment_counts_account_for_all parse (df df' : DataFrame) (out : rfm_output) :
  rfm_segmentation_analysis parse df = (df', Ok out) ->
  let counts := Rfm.segment_counts (rfm out) in
  map fst counts = Rfm.segment_order /\
  Pandas.series_sum
    (map (fun c => match snd c with Some n => Z.of_nat n | None => 0 end) counts)
  = Z.of_nat (total_customers out) /\
  forall s, In s Rfm.segment_order ->
    (In (s, None) counts <-> forall p, In p (rfm out) -> segment p <> s).
Proof.
  intros H counts. pose proof H as H0.
  apply RfmFacts.rfm_returns in H0 as (_ & _ & _ & _ & _ & _ & _ & _ & _ & _ & Ht & _).
  split; [reflexivity |]. split.
  - unfold counts, Rfm.segment_counts. rewrite map_map, Ht.
    rewrite <- (ExtraFacts.partition_count segment Rfm.segment_order (rfm out)
                  ExtraSegments.segment_order_NoDup).
    + f_equal. apply map_ext. intro s. cbn [snd]. unfold Rfm.count_segment.
      destruct (Nat.eqb_spec (length (filter (fun p => String.eqb (segment p) s) (rfm out))) 0)
        as [E | _]; [rewrite E |]; reflexivity.
    + intros p Hp. eapply ExtraSegments.segment_in_order; eauto.
  - intros s Hs. unfold counts, Rfm.segment_counts. rewrite in_map_iff.
    split.
    + intros (s' & E & _) p Hp Heq.
      injection E as <- E. unfold Rfm.count_segment in E.
      destruct (Nat.eqb_spec (length (filter (fun p => String.eqb (segment p) s') (rfm out))) 0)
        as [Z0 | _]; [| discriminate].
      apply length_zero_iff_nil in Z0.
      assert (Hin : In p (filter (fun p => String.eqb (segment p) s') (rfm out))).
      { apply filter_In. split; auto. now apply String.eqb_eq. }
      rewrite Z0 in Hin. destruct Hin.
    + intro Hnone. exists s. split; auto. unfold Rfm.count_segment.
      assert (Z0 : filter (fun p => String.eqb (segment p) s) (rfm out) = []).
      { destruct (filter (fun p => String.eqb (segment p) s) (rfm out)) as [| p l] eqn:E;
          [reflexivity |].
        assert (Hin : In p (filter (fun p => String.eqb (segment p) s) (rfm out)))
          by (rewrite E; now left).
        apply filter_In in Hin as [Hp Hseg]. apply String.eqb_eq in Hseg.
        exfalso. exact (Hnone p Hp Hseg). }
      now rewrite Z0.
Qed.

Lemma segment_counts_account_for_all_witness :
  let counts := Rfm.segment_counts (rfm Runs.orders_output) in
  map fst counts = Rfm.segment_order /\
  Pandas.series_sum
    (map (fun c => match snd c with Some n => Z.of_nat n | None => 0 end) counts)
  = Z.of_nat (total_customers Runs.orders_output) /\
  forall s, In s Rfm.segment_order ->
    (In (s, None) counts <-> forall p, In p (rfm Runs.orders_output) -> segment p <> s).
Proof.
  apply (segment_counts_account_for_all Sample.iso_date Sample.orders Runs.orders_after).
  vm_compute. reflexivity.
Defined.

(** X13. The segment summary of a returned table accounts for every
    customer and every amount of the input: its rows carry distinct labels
    of [segment_order] in ascending order, no row is empty, the counts add
    up to the number of distinct customers of the input, and the monetary
    sums add up to the total of the input amounts. *)
Theorem segment_summary_totals parse (df df' : DataFrame) (out : rfm_output) :
  rfm_segmentation_analysis parse df = (df', Ok out) ->
  let rows := Rfm.segment_summary (rfm out) in
  Sorted (fun a b => String.ltb a b = true) (map Rfm.s_segment rows) /\
  Forall (fun row => In (Rfm.s_segment row) Rfm.segment_order /\
                     (0 < Rfm.s_monetary_count row)%nat) rows /\
  Pandas.series_sum (map (fun row => Z.of_nat (Rfm.s_monetary_count row)) rows)
  = Z.of_nat (length (nodup string_dec (map customer_id df))) /\
  Pandas.series_sum (map Rfm.s_monetary_sum rows)
  = Pandas.series_sum (map final_amount_inr df).
Proof.
  intro H. cbv zeta. unfold Rfm.segment_summary.
  set (table := rfm out).
  set (keys := StringSort.sort (nodup string_dec (map segment table))).
  assert (Hperm : Permutation (nodup string_dec (map segment table)) keys)
    by apply StringSort.Permuted_sort.
  assert (Hnd : NoDup keys).
  { eapply Permutation_NoDup; [exact Hperm | apply NoDup_nodup]. }
  assert (Hin : forall s, In s keys <-> In s (map segment table)).
  { intro s. rewrite <- (nodup_In string_dec (map segment table)).
    split; apply Permutation_in; [symmetry |]; exact Hperm. }
  assert (Hcov : forall p, In p table -> In (segment p) keys).
  { intros p Hp. apply Hin. now apply in_map. }
  rewrite !map_map. cbn [Rfm.s_segment Rfm.s_monetary_count Rfm.s_monetary_sum].
  split; [| split; [| split]].
  - rewrite map_id. apply ExtraRfm.sorted_keys_strict; auto.
    apply StringSort.Sorted_sort.
  - apply Forall_forall. intros row Hrow. apply in_map_iff in Hrow as (s & <- & Hs).
    cbn [Rfm.s_segment Rfm.s_monetary_count].
    apply Hin in Hs. apply in_map_iff in Hs as (p & E & Hp).
    split.
    + rewrite <- E. eapply ExtraSegments.segment_in_order; eauto.
    + assert (Hf : In p (filter (fun p0 => String.eqb (segment p0) s) table)).
      { apply filter_In. split; auto. now apply String.eqb_eq. }
      destruct (filter (fun p0 => String.eqb (segment p0) s) table);
        [destruct Hf | simpl; lia].
  - rewrite (ExtraFacts.partition_count segment keys table Hnd Hcov).
    f_equal. unfold table.
    now destruct (profiles_of_returned_table _ _ _ _ H) as (_ & _ & -> & _).
  - rewrite (ExtraFacts.partition_sum segment monetary keys table Hnd Hcov).
    unfold table. eapply ExtraSegments.monetary_conserved; eauto.
Qed.

Lemma segment_summary_totals_witness :
  let rows := Rfm.segment_summary (rfm Runs.orders_output) in
  Sorted (fun a b => String.ltb a b = true) (map Rfm.s_segment rows) /\
  Forall (fun row => In (Rfm.s_segment row) Rfm.segment_order /\
                     (0 < Rfm.s_monetary_count row)%nat) rows /\
  Pandas.series_sum (map (fun row => Z.of_nat (Rfm.s_monetary_count row)) rows)
  = Z.of_nat (length (nodup string_dec (map customer_id Sample.orders))) /\
  Pandas.series_sum (map Rfm.s_monetary_sum rows)
  = Pandas.series_sum (map final_amount_inr Sample.orders).
Proof.
  apply (segment_summary_totals Sample.iso_date Sample.orders Runs.orders_after).
  vm_compute. reflexivity.
Defined.

(** X14. The RFM tab of the customer dashboard shows what the analysis
    returned: it raises exactly when the analysis raises, with the same
    exception and the same effect on the table; otherwise its total is
    [total_customers], its number of champions is [champion_count], and
    the three segments it shows never count more customers than the
    total. *)
Theorem customer_tab_agrees parse (df : DataFrame) :
  fst (Customers.rfm_tab parse df) = fst (rfm_segmentation_analysis parse df) /\
  match snd (Customers.rfm_tab parse df), snd (rfm_segmentation_analysis parse df) with
  | Ok shown, Ok out =>
      Customers.total_customers shown = total_customers out /\
      Customers.champions shown = champion_count out /\
      (Customers.champions shown + Customers.loyal shown + Customers.atrisk shown
       <= Customers.total_customers shown)%nat
  | Raise e, Raise e' => e = e'
  | _, _ => False
  end.
Proof.
  unfold Customers.rfm_tab.
  destruct (rfm_segmentation_analysis parse df) as [df' [out | e]] eqn:E; cbn [fst snd bind].
  - split; [reflexivity |].
    apply RfmFacts.rfm_returns in E as (_ & _ & _ & _ & _ & _ & _ & _ & _ & _ & Ht & Hc).
    cbn [Customers.total_customers Customers.champions Customers.loyal Customers.atrisk].
    split; [now rewrite Ht |]. split; [now rewrite Hc |].
    unfold Rfm.count_segment. apply ExtraSegments.three_counts; discriminate.
  - split; reflexivity.
Qed.

(** ** Further properties of the database manager *)

Module ExtraDb.
Import Database.

Ltac db_unfold :=
  unfold execute_query, execute_update, execute_stored_procedure, get_connection,
    release, try_finally, try_except_Error, mbind, call, ret, logger_error, truthy in *.

Ltac db_case t :=
  let E := fresh "E" in
  destruct t as [? | [? | ? | ?]] eqn:E; cbn [negb fst snd] in *.

End ExtraDb.

(** X15. A returned [execute_query] tells its outcome by the log: it
    returns the frame that [read_sql] gave and logs nothing, or it returns
    None and has logged exactly one error. *)
Theorem execute_query_none_iff_logged
    (d : Database.driver) (query : string) (log log' : list string) (v : Database.pyval) :
  Database.execute_query d query log = (log', Ok v) ->
  (exists frame, v = Database.PyFrame frame /\ log' = log /\
                 Database.read_sql d query = Ok frame) \/
  (v = Database.PyNone /\ exists msg, log' = log ++ [msg]).
Proof.
  ExtraDb.db_unfold.
  ExtraDb.db_case (Database.pool_get_connection d);
    try (intro H; injection H as <- <-; right; eauto; fail);
    try discriminate.
  ExtraDb.db_case (Database.read_sql d query);
    destruct (Database.is_connected d);
    try (ExtraDb.db_case (Database.close d));
    intro H; try discriminate; injection H as <- <-; eauto.
Qed.

Lemma execute_query_none_iff_logged_witness :
  (exists frame, Database.PyNone = Database.PyFrame frame /\
      ["Error getting connection: Failed getting connection; pool exhausted"%string] = [] /\
      Database.read_sql Drivers.pool_down "SELECT 1" = Ok frame) \/
  (Database.PyNone = Database.PyNone /\
   exists msg, ["Error getting connection: Failed getting connection; pool exhausted"%string]
               = [] ++ [msg]).
Proof.
  apply (execute_query_none_iff_logged Drivers.pool_down "SELECT 1" []).
  reflexivity.
Defined.

(** X16. A driver [Error] leaves [execute_query] only through the
    [finally] block: if the call raises one, the connection was open and
    closing it raised that error. *)
Theorem execute_query_error_only_from_close
    (d : Database.driver) (query : string) (log : list string) (msg : string) :
  snd (Database.execute_query d query log) = Raise (MySQLError msg) ->
  Database.is_connected d = true /\ Database.close d = Raise (MySQLError msg).
Proof.
  ExtraDb.db_unfold.
  ExtraDb.db_case (Database.pool_get_connection d); try discriminate.
  ExtraDb.db_case (Database.read_sql d query);
    destruct (Database.is_connected d);
    try (ExtraDb.db_case (Database.close d));
    intro H; try discriminate; injection H as <-; auto.
Qed.

Lemma execute_query_error_only_from_close_witness :
  Database.is_connected Drivers2.close_fails = true /\
  Database.close Drivers2.close_fails
  = Raise (MySQLError "2055: Lost connection to MySQL server").
Proof.
  apply (execute_query_error_only_from_close Drivers2.close_fails "SELECT 1" []).
  reflexivity.
Defined.

(** X17. An exception while closing the connection replaces the outcome
    of the operation, also a successful one: with a connection that is
    open and whose [close] raises, the three operations raise that
    exception. *)
Theorem failing_close_masks_result
    (d : Database.driver) (query : string) (log : list string) (c : nat) (e : exn) :
  Database.pool_get_connection d = Ok c ->
  Database.is_connected d = true ->
  Database.close d = Raise e ->
  snd (Database.execute_query d query log) = Raise e /\
  snd (Database.execute_update d query log) = Raise e /\
  snd (Database.execute_stored_procedure d query log) = Raise e.
Proof.
  intros Hc Hi Hcl. ExtraDb.db_unfold. rewrite Hc, Hi, Hcl. cbn [negb].
  repeat split.
  - ExtraDb.db_case (Database.read_sql d query); reflexivity.
  - ExtraDb.db_case (Database.cursor d);
      try ExtraDb.db_case (Database.cursor_execute d query);
      try ExtraDb.db_case (Database.commit d);
      try ExtraDb.db_case (Database.cursor_close d);
      try ExtraDb.db_case (Database.rollback d); reflexivity.
  - ExtraDb.db_case (Database.cursor d);
      try ExtraDb.db_case (Database.cursor_callproc d query);
      try ExtraDb.db_case (Database.commit d);
      try ExtraDb.db_case (Database.cursor_close d);
      try ExtraDb.db_case (Database.rollback d); reflexivity.
Qed.

Lemma failing_close_masks_result_witness :
  snd (Database.execute_query Drivers2.close_fails "SELECT 1" [])
  = Raise (MySQLError "2055: Lost connection to MySQL server") /\
  snd (Database.execute_update Drivers2.close_fails "SELECT 1" [])
  = Raise (MySQLError "2055: Lost connection to MySQL server") /\
  snd (Database.execute_stored_procedure Drivers2.close_fails "SELECT 1" [])
  = Raise (MySQLError "2055: Lost connection to MySQL server").
Proof.
  apply (failing_close_masks_result Drivers2.close_fails "SELECT 1" [] 1%nat);
    reflexivity.
Defined.

(** X18. A returned [execute_update] gives the row count of the cursor
    after a commit and logs nothing, or gives 0 and has logged exactly one
    error; the value 0 alone does not tell the two apart. *)
Theorem execute_update_result
    (d : Database.driver) (query : string) (log log' : list string) (v : Database.pyval) :
  Database.execute_update d query log = (log', Ok v) ->
  (v = Database.PyInt (Database.rowcount d) /\ log' = log /\
   Database.cursor_execute d query = Ok tt /\ Database.commit d = Ok tt) \/
  (v = Database.PyInt 0 /\ exists msg, log' = log ++ [msg]).
Proof.
  ExtraDb.db_unfold.
  ExtraDb.db_case (Database.pool_get_connection d);
    try (intro H; injection H as <- <-; right; eauto; fail);
    try discriminate.
  ExtraDb.db_case (Database.cursor d);
    try ExtraDb.db_case (Database.cursor_execute d query);
    try ExtraDb.db_case (Database.commit d);
    try ExtraDb.db_case (Database.cursor_close d);
    try ExtraDb.db_case (Database.rollback d);
    destruct (Database.is_connected d);
    try (ExtraDb.db_case (Database.close d));
    intro H; try discriminate; injection H as <- <-;
    repeat match goal with u : unit |- _ => destruct u end; eauto.
Qed.

Lemma execute_update_result_witness :
  (Database.PyInt 3 = Database.PyInt (Database.rowcount Drivers.up) /\
   @nil string = [] /\
   Database.cursor_execute Drivers.up "UPDATE t SET x = 1" = Ok tt /\
   Database.commit Drivers.up = Ok tt) \/
  (Database.PyInt 3 = Database.PyInt 0 /\ exists msg, @nil string = [] ++ [msg]).
Proof.
  apply (execute_update_result Drivers.up "UPDATE t SET x = 1" []).
  reflexivity.
Defined.

(** X19. A driver [Error] leaves [execute_update] only through the
    handler or the [finally] block: if the call raises one, the rollback
    raised it, or the connection was open and closing it raised it. *)
Theorem execute_update_error_escapes
    (d : Database.driver) (query : string) (log : list string) (msg : string) :
  snd (Database.execute_update d query log) = Raise (MySQLError msg) ->
  Database.rollback d = Raise (MySQLError msg) \/
  (Database.is_connected d = true /\ Database.close d = Raise (MySQLError msg)).
Proof.
  ExtraDb.db_unfold.
  ExtraDb.db_case (Database.pool_get_connection d); try discriminate.
  ExtraDb.db_case (Database.cursor d);
    try ExtraDb.db_case (Database.cursor_execute d query);
    try ExtraDb.db_case (Database.commit d);
    try ExtraDb.db_case (Database.cursor_close d);
    try ExtraDb.db_case (Database.rollback d);
    destruct (Database.is_connected d);
    try (ExtraDb.db_case (Database.close d));
    intro H; try discriminate; injection H as <-; auto.
Qed.

Lemma execute_update_error_escapes_witness :
  Database.rollback Drivers2.rollback_fails
  = Raise (MySQLError "MySQL Connection not available") \/
  (Database.is_connected Drivers2.rollback_fails = true /\
   Database.close Drivers2.rollback_fails
   = Raise (MySQLError "MySQL Connection not available")).
Proof.
  apply (execute_update_error_escapes Drivers2.rollback_fails "UPDATE t SET x = 1" []).
  reflexivity.
Defined.


(** ** Further properties of the RFM page *)

Module ExtraPage.

Lemma substring_all (s : string) : substring 0 (String.length s) s = s.
Proof. induction s as [| a s IH]; simpl; [reflexivity | now rewrite IH]. Qed.

Lemma of_uint_leading_zeros (k : nat) (d : Decimal.uint) :
  Nat.of_uint (leading_zeros k d) = Nat.of_uint d.
Proof. induction k as [| k IH]; [reflexivity | exact IH]. Qed.

Lemma uint_of_zeros (k : nat) (s : string) (d : Decimal.uint) :
  NilEmpty.uint_of_string s = Some d ->
  NilEmpty.uint_of_string (String.append (String.concat "" (repeat "0"%string k)) s)
  = Some (leading_zeros k d).
Proof.
  intro H. induction k as [| k IH]; [exact H |].
  assert (E : String.append (String.concat "" (repeat "0"%string (S k))) s
              = String "0" (String.append (String.concat "" (repeat "0"%string k)) s)).
  { destruct k as [| k]; reflexivity. }
  rewrite E. cbn [NilEmpty.uint_of_string]. rewrite IH. reflexivity.
Qed.

End ExtraPage.

(** X21. The customer identifiers of the page can be read back: the
    number printed in [customer_name i] is [i], for every [i], so two
    different customers never share an identifier. *)
Theorem customer_name_round_trip (i : nat) :
  customer_number (EdaQ3.customer_name i) = Some i /\
  forall j, EdaQ3.customer_name i = EdaQ3.customer_name j -> i = j.
Proof.
  assert (R : forall n, customer_number (EdaQ3.customer_name n) = Some n).
  { intro n. unfold customer_number, EdaQ3.customer_name.
    set (d := NilEmpty.string_of_uint (Nat.to_uint n)).
    set (rest := String.append
                   (String.concat "" (repeat "0"%string (5 - String.length d))) d).
    change (String.append "CUST_" rest)
      with (String "C" (String "U" (String "S" (String "T" (String "_" rest))))).
    cbn [String.length substring Nat.sub].
    rewrite Nat.sub_0_r, ExtraPage.substring_all. unfold rest.
    rewrite (ExtraPage.uint_of_zeros _ d (Nat.to_uint n)) by apply NilEmpty.usu.
    cbn [option_map]. rewrite ExtraPage.of_uint_leading_zeros.
    now rewrite DecimalNat.Unsigned.of_to. }
  split; [apply R |].
  intros j E. pose proof (R i) as Ri. rewrite E, R in Ri. now injection Ri.
Qed.

(** X22. The page labels a customer by the lowest of the three scores,
    except between its two last labels: VIP for a lowest score of 4 or
    more, Loyal for 3, Potential for 2; below that, At-Risk needs a
    recency score of at least 2 together with a frequency or a monetary
    score of at least 2, and everything else is Lost. *)
Theorem page_segment_by_lowest_score (r f m : Z) :
  let lowest := Z.min r (Z.min f m) in
  (EdaQ3.segment_customer r f m = "VIP (Champions)"%string <-> 4 <= lowest) /\
  (EdaQ3.segment_customer r f m = "Loyal (Loyal Customers)"%string <-> lowest = 3) /\
  (EdaQ3.segment_customer r f m = "Potential (Potential)"%string <-> lowest = 2) /\
  (EdaQ3.segment_customer r f m = "At-Risk (At Risk)"%string
   <-> 2 <= r /\ lowest < 2 /\ 2 <= Z.max f m) /\
  (EdaQ3.segment_customer r f m = "Lost (Lost Customers)"%string
   <-> r < 2 \/ Z.max f m < 2).
Proof.
  cbv zeta. unfold EdaQ3.segment_customer.
  destruct (Z.geb_spec r 4), (Z.geb_spec f 4), (Z.geb_spec m 4);
    destruct (Z.geb_spec r 3), (Z.geb_spec f 3), (Z.geb_spec m 3);
    destruct (Z.geb_spec r 2), (Z.geb_spec f 2), (Z.geb_spec m 2);
    try lia; cbn [andb orb];
    repeat split; intros; try discriminate; try lia; auto.
Qed.

(** X23. The page's count per segment accounts for every row of its
    table: the labels listed are distinct and in ascending order, no count
    is zero, and the counts add up to the number of rows. *)
Theorem count_by_segment_totals (t : list EdaQ3.row) :
  let stats := EdaQ3.count_by_segment t in
  Sorted (fun a b => String.ltb a b = true) (map fst stats) /\
  Forall (fun c => (0 < snd c)%nat) stats /\
  Pandas.series_sum (map (fun c => Z.of_nat (snd c)) stats) = Z.of_nat (length t).
Proof.
  cbv zeta. unfold EdaQ3.count_by_segment.
  set (keys := StringSort.sort (nodup string_dec (map EdaQ3.Segment t))).
  assert (Hperm : Permutation (nodup string_dec (map EdaQ3.Segment t)) keys)
    by apply StringSort.Permuted_sort.
  assert (Hnd : NoDup keys).
  { eapply Permutation_NoDup; [exact Hperm | apply NoDup_nodup]. }
  assert (Hin : forall s, In s keys <-> In s (map EdaQ3.Segment t)).
  { intro s. rewrite <- (nodup_In string_dec (map EdaQ3.Segment t)).
    split; apply Permutation_in; [symmetry |]; exact Hperm. }
  rewrite !map_map. cbn [fst snd].
  split; [| split].
  - rewrite map_id. apply ExtraRfm.sorted_keys_strict; auto.
    apply StringSort.Sorted_sort.
  - apply Forall_forall. intros c Hc. apply in_map_iff in Hc as (s & <- & Hs).
    cbn [snd]. apply Hin in Hs. apply in_map_iff in Hs as (p & E & Hp).
    assert (Hf : In p (filter (fun p0 => String.eqb (EdaQ3.Segment p0) s) t)).
    { apply filter_In. split; auto. now apply String.eqb_eq. }
    destruct (filter (fun p0 => String.eqb (EdaQ3.Segment p0) s) t);
      [destruct Hf | simpl; lia].
  - apply ExtraFacts.partition_count; auto.
    intros p Hp. apply Hin. now apply in_map.
Qed.
